(** * The OAuth delegation front end of the Strava MCP server

    A shallow embedding of [src/index.ts]: the signed-state codec
    ([encodeState], [decodeState]), the OAuth endpoints
    ([/oauth/register], [/oauth/authorize], [/oauth/callback],
    [/oauth/token]), the metadata and health endpoints and the bearer
    guard of [/mcp], together with the platform functions they call
    ([JSON.stringify], [JSON.parse], [btoa], [atob], [TextEncoder],
    HMAC-SHA-256, [String.prototype.split], [replace], [includes],
    [URLSearchParams.set]); of the client of [src/api.ts] ([request]
    and the methods that build a query); and of the helpers of
    [src/tools.ts] that do not depend on floating-point formatting
    ([formatResult], [formatDuration], [handleError]) with the handler
    of one tool. *)

From Stdlib Require Import String Ascii.
From Stdlib Require Import List NArith ZArith Lia Bool.
From Stdlib Require DecimalN DecimalFacts.
Import ListNotations.

Set Implicit Arguments.
Set Warnings "-register-all".
Local Open Scope N_scope.

(* ================================================================= *)
(** ** JavaScript strings *)

(** A JavaScript string is a sequence of UTF-16 code units. *)
Definition jsstring := list N.

(** ASCII literals of the source, as code units. *)
Definition js (s : string) : jsstring :=
  List.map N_of_ascii (list_ascii_of_string s).

(** Code units that [btoa] accepts (the Latin-1 range). *)
Definition latin1 (s : jsstring) : Prop := Forall (fun c => c < 256) s.
Definition latin1b (s : jsstring) : bool := forallb (fun c => c <? 256) s.

Fixpoint str_eqb (a b : jsstring) : bool :=
  match a, b with
  | [], [] => true
  | x :: a', y :: b' => (x =? y) && str_eqb a' b'
  | _, _ => false
  end.

Fixpoint starts_with (p s : jsstring) : bool :=
  match p, s with
  | [], _ => true
  | x :: p', y :: s' => (x =? y) && starts_with p' s'
  | _ :: _, [] => false
  end.

(** [s.includes(p)] *)
Fixpoint includes (p s : jsstring) : bool :=
  starts_with p s ||
  match s with
  | [] => false
  | _ :: s' => includes p s'
  end.

(** [s.replace(p, r)] for a string pattern [p] and a replacement [r]
    without [$] patterns: the first occurrence of [p] is replaced. *)
Fixpoint replace_first (p r s : jsstring) : jsstring :=
  if starts_with p s then r ++ skipn (length p) s
  else match s with
       | [] => []
       | c :: s' => c :: replace_first p r s'
       end.

(** [s.split(sep)] for a separator of one code unit. *)
Fixpoint split_char (sep : N) (s : jsstring) : list jsstring :=
  match s with
  | [] => [[]]
  | c :: s' =>
      if c =? sep then [] :: split_char sep s'
      else match split_char sep s' with
           | h :: t => (c :: h) :: t
           | [] => [[c]]
           end
  end.

(** [l.join(sep)] *)
Fixpoint join (sep : jsstring) (l : list jsstring) : jsstring :=
  match l with
  | [] => []
  | [x] => x
  | x :: r => x ++ sep ++ join sep r
  end.

(* ================================================================= *)
(** ** Outcomes of a computation *)

(** A call returns a value or throws.  [Unsupported] marks what this
    development gives no answer for: the inputs on which the program
    depends on IEEE-754 arithmetic (number literals with a fraction
    or an exponent, integers beyond 2^53-1), the conversion of a value
    that is not a string to a number or to a string, and a parse that
    exhausts its recursion bound. *)
Inductive outcome (A : Type) : Type :=
| Ok (a : A)
| Throw
| Unsupported.
Arguments Throw {A}.
Arguments Unsupported {A}.

Definition bind {A B} (m : outcome A) (k : A -> outcome B) : outcome B :=
  match m with
  | Ok a => k a
  | Throw => Throw
  | Unsupported => Unsupported
  end.

Notation "x <- m ;; k" := (bind m (fun x => k))
  (at level 61, m at next level, right associativity).
Notation "' p <- m ;; k" := (bind m (fun x => let p := x in k))
  (at level 61, p pattern, m at next level, right associativity).

(** [try { m } catch { return v }] *)
Definition try_catch {A} (m : outcome A) (v : A) : outcome A :=
  match m with
  | Throw => Ok v
  | other => other
  end.

(* ================================================================= *)
(** ** Base64: [btoa] and [atob] *)

Definition b64char (i : N) : N :=
  if i <? 26 then 65 + i
  else if i <? 52 then 97 + (i - 26)
  else if i <? 62 then 48 + (i - 52)
  else if i =? 62 then 43
  else 47.

Definition b64val (c : N) : option N :=
  if (65 <=? c) && (c <=? 90) then Some (c - 65)
  else if (97 <=? c) && (c <=? 122) then Some (c - 97 + 26)
  else if (48 <=? c) && (c <=? 57) then Some (c - 48 + 52)
  else if c =? 43 then Some 62
  else if c =? 47 then Some 63
  else None.

Definition pad_char : N := 61.

Fixpoint b64_encode (s : list N) : list N :=
  match s with
  | [] => []
  | [x] => [b64char (x / 4); b64char ((x mod 4) * 16); pad_char; pad_char]
  | [x; y] =>
      [b64char (x / 4); b64char ((x mod 4) * 16 + y / 16);
       b64char ((y mod 16) * 4); pad_char]
  | x :: y :: z :: r =>
      b64char (x / 4) :: b64char ((x mod 4) * 16 + y / 16)
      :: b64char ((y mod 16) * 4 + z / 64) :: b64char (z mod 64)
      :: b64_encode r
  end.

(** [btoa(s)]: throws [InvalidCharacterError] when a code unit exceeds
    0xFF. *)
Definition btoa (s : jsstring) : outcome jsstring :=
  if latin1b s then Ok (b64_encode s) else Throw.

Definition ascii_whitespace (c : N) : bool :=
  (c =? 9) || (c =? 10) || (c =? 12) || (c =? 13) || (c =? 32).

(** One or two [=] at the end are removed. *)
Fixpoint strip_end (d : list N) : list N :=
  match d with
  | [] => []
  | [a] => if a =? pad_char then [] else [a]
  | [a; b] =>
      if b =? pad_char then (if a =? pad_char then [] else [a]) else [a; b]
  | x :: r => x :: strip_end r
  end.

Definition strip_padding (d : list N) : list N :=
  if (N.of_nat (length d)) mod 4 =? 0 then strip_end d else d.

Fixpoint b64_decode (d : list N) : option (list N) :=
  match d with
  | [] => Some []
  | [_] => None
  | [a; b] =>
      match b64val a, b64val b with
      | Some a, Some b => Some [a * 4 + b / 16]
      | _, _ => None
      end
  | [a; b; c] =>
      match b64val a, b64val b, b64val c with
      | Some a, Some b, Some c =>
          Some [a * 4 + b / 16; (b mod 16) * 16 + c / 4]
      | _, _, _ => None
      end
  | a :: b :: c :: e :: r =>
      match b64val a, b64val b, b64val c, b64val e, b64_decode r with
      | Some a, Some b, Some c, Some e, Some t =>
          Some (a * 4 + b / 16 :: (b mod 16) * 16 + c / 4
                :: (c mod 4) * 64 + e :: t)
      | _, _, _, _, _ => None
      end
  end.

(** [atob(s)], the forgiving-base64 decode: ASCII whitespace is
    removed, one or two trailing [=] are dropped when the length is a
    multiple of four, and any other character outside the alphabet, or
    a length of 1 modulo 4, throws. *)
Definition atob (s : jsstring) : outcome jsstring :=
  match b64_decode (strip_padding (filter (fun c => negb (ascii_whitespace c)) s)) with
  | Some bytes => Ok bytes
  | None => Throw
  end.

(* ================================================================= *)
(** ** [TextEncoder.encode]: UTF-8 *)

Definition is_high_surrogate (c : N) : bool := (55296 <=? c) && (c <=? 56319).
Definition is_low_surrogate (c : N) : bool := (56320 <=? c) && (c <=? 57343).
Definition is_surrogate (c : N) : bool := (55296 <=? c) && (c <=? 57343).

Definition utf8_of_code_point (p : N) : list N :=
  if p <? 128 then [p]
  else if p <? 2048 then [192 + p / 64; 128 + p mod 64]
  else if p <? 65536 then
    [224 + p / 4096; 128 + (p / 64) mod 64; 128 + p mod 64]
  else
    [240 + p / 262144; 128 + (p / 4096) mod 64;
     128 + (p / 64) mod 64; 128 + p mod 64].

(** A surrogate pair encodes one code point; a lone surrogate is
    replaced by U+FFFD. *)
Fixpoint utf8_encode (s : jsstring) : list N :=
  match s with
  | [] => []
  | c :: r =>
      if is_high_surrogate c then
        match r with
        | d :: r' =>
            if is_low_surrogate d then
              utf8_of_code_point (65536 + (c - 55296) * 1024 + (d - 56320))
              ++ utf8_encode r'
            else utf8_of_code_point 65533 ++ utf8_encode r
        | [] => utf8_of_code_point 65533
        end
      else if is_low_surrogate c then utf8_of_code_point 65533 ++ utf8_encode r
      else utf8_of_code_point c ++ utf8_encode r
  end.

(* ================================================================= *)
(** ** SHA-256 and HMAC ([crypto.subtle] with [{name: "HMAC", hash: "SHA-256"}]) *)

Module SHA256.

(** Words of 32 bits. *)
Definition mask32 : N := 4294967295.
Definition add32 (a b : N) : N := N.land (a + b) mask32.
Definition rotr (n x : N) : N :=
  N.lor (N.shiftr x n) (N.land (N.shiftl x (32 - n)) mask32).
Definition not32 (x : N) : N := N.lxor x mask32.

Definition Ch (x y z : N) := N.lxor (N.land x y) (N.land (not32 x) z).
Definition Maj (x y z : N) :=
  N.lxor (N.lxor (N.land x y) (N.land x z)) (N.land y z).
Definition Sigma0 x := N.lxor (N.lxor (rotr 2 x) (rotr 13 x)) (rotr 22 x).
Definition Sigma1 x := N.lxor (N.lxor (rotr 6 x) (rotr 11 x)) (rotr 25 x).
Definition sigma0 x := N.lxor (N.lxor (rotr 7 x) (rotr 18 x)) (N.shiftr x 3).
Definition sigma1 x := N.lxor (N.lxor (rotr 17 x) (rotr 19 x)) (N.shiftr x 10).

(** The round constants and the initial hash value are the first 32
    bits of the fractional parts of the cube roots and of the square
    roots of the first primes. *)
Definition primes : list N :=
  [2; 3; 5; 7; 11; 13; 17; 19; 23; 29; 31; 37; 41; 43; 47; 53; 59; 61; 67; 71;
   73; 79; 83; 89; 97; 101; 103; 107; 109; 113; 127; 131; 137; 139; 149; 151;
   157; 163; 167; 173; 179; 181; 191; 193; 197; 199; 211; 223; 227; 229; 233;
   239; 241; 251; 257; 263; 269; 271; 277; 281; 283; 293; 307; 311].

(** The integer cube root of a number below [2 ^ (3 * bits)]. *)
Fixpoint cube_root (bits : nat) (n r : N) : N :=
  match bits with
  | O => r
  | S b =>
      let r' := r + 2 ^ N.of_nat b in
      cube_root b n (if r' * r' * r' <=? n then r' else r)
  end.

Definition K : list N :=
  Eval vm_compute in
    List.map (fun p => N.land (cube_root 35 (p * 2 ^ 96) 0) mask32) primes.

Definition H0 : list N :=
  Eval vm_compute in
    List.map (fun p => N.land (N.sqrt (p * 2 ^ 64)) mask32) (firstn 8 primes).

(** Padding: a 1 bit, zeros, and the bit length on 64 bits. *)
Definition be_bytes (n : nat) (x : N) : list N :=
  List.map (fun i => N.land (N.shiftr x (8 * N.of_nat i)) 255) (rev (seq 0 n)).

Definition pad (msg : list N) : list N :=
  let len := N.of_nat (length msg) in
  let zeros := (119 - len mod 64) mod 64 in
  msg ++ [128] ++ repeat 0 (N.to_nat zeros) ++ be_bytes 8 (8 * len).

Fixpoint words (bs : list N) : list N :=
  match bs with
  | a :: b :: c :: d :: r =>
      N.lor (N.shiftl (N.lor (N.shiftl (N.lor (N.shiftl a 8) b) 8) c) 8) d
      :: words r
  | _ => []
  end.

(** The message schedule, most recent word first. *)
Fixpoint schedule (n : nat) (ws : list N) : list N :=
  match n with
  | O => ws
  | S n' =>
      let w := add32 (add32 (sigma1 (nth 1 ws 0)) (nth 6 ws 0))
                     (add32 (sigma0 (nth 14 ws 0)) (nth 15 ws 0)) in
      schedule n' (w :: ws)
  end.

Definition round (st : list N) (kw : N * N) : list N :=
  match st with
  | [a; b; c; d; e; f; g; h] =>
      let t1 := add32 (add32 (add32 h (Sigma1 e)) (Ch e f g))
                      (add32 (fst kw) (snd kw)) in
      let t2 := add32 (Sigma0 a) (Maj a b c) in
      [add32 t1 t2; a; b; c; add32 d t1; e; f; g]
  | _ => st
  end.

Definition compress (h : list N) (block : list N) : list N :=
  let ws := rev (schedule 48 (rev (words block))) in
  let st := fold_left round (combine K ws) h in
  List.map (fun p => add32 (fst p) (snd p)) (combine h st).

Fixpoint blocks (n : nat) (h : list N) (bs : list N) : list N :=
  match n with
  | O => h
  | S n' =>
      match bs with
      | [] => h
      | _ => blocks n' (compress h (firstn 64 bs)) (skipn 64 bs)
      end
  end.

Definition hash (msg : list N) : list N :=
  let p := pad msg in
  flat_map (be_bytes 4) (blocks (length p) H0 p).

End SHA256.

Definition hmac_block (key : list N) : list N :=
  let k := if 64 <? N.of_nat (length key) then SHA256.hash key else key in
  k ++ repeat 0 (64 - length k)%nat.

Definition hmac_sha256 (key msg : list N) : list N :=
  let k := hmac_block key in
  SHA256.hash (List.map (N.lxor 92) k
               ++ SHA256.hash (List.map (N.lxor 54) k ++ msg)).

(** [crypto.subtle.importKey("raw", bytes, {name: "HMAC", hash:
    "SHA-256"}, ...)]: an empty key is a [DataError]. *)
Definition importKey (raw : list N) : outcome (list N) :=
  match raw with
  | [] => Throw
  | _ => Ok raw
  end.

(** [crypto.subtle.sign("HMAC", key, data)] *)
Definition subtle_sign (key data : list N) : list N := hmac_sha256 key data.

(** [crypto.subtle.verify("HMAC", key, signature, data)]: the tag is
    recomputed and compared with the signature. *)
Definition subtle_verify (key signature data : list N) : bool :=
  str_eqb signature (hmac_sha256 key data).

(* ================================================================= *)
(** ** JavaScript values and JSON *)

(** The values the program builds and reads: the JSON values and
    [undefined].  An object is the list of its own properties in
    property order (the keys of this program are identifiers; the
    reordering of integer-like keys is not modelled).  Numbers are the
    integers, [-0] being identified with [0]. *)
Inductive jsval : Type :=
| JUndef
| JNull
| JBool (b : bool)
| JNum (z : Z)
| JStr (s : jsstring)
| JArr (l : list jsval)
| JObj (l : list (jsstring * jsval)).

Definition max_safe : Z := 9007199254740991.
Definition safe_int (z : Z) : bool := (Z.abs z <=? max_safe)%Z.

(** Truthiness ([ToBoolean]). *)
Definition truthy (v : jsval) : bool :=
  match v with
  | JUndef | JNull => false
  | JBool b => b
  | JNum z => negb (z =? 0)%Z
  | JStr s => match s with [] => false | _ => true end
  | JArr _ | JObj _ => true
  end.

Fixpoint assoc {A} (k : jsstring) (l : list (jsstring * A)) : option A :=
  match l with
  | [] => None
  | (k', v) :: r => if str_eqb k k' then Some v else assoc k r
  end.

(** [o[k] = v] on the property list: an existing property keeps its
    place, a new one goes last. *)
Fixpoint obj_set (k : jsstring) (v : jsval) (o : list (jsstring * jsval))
  : list (jsstring * jsval) :=
  match o with
  | [] => [(k, v)]
  | (k', v') :: r =>
      if str_eqb k k' then (k', v) :: r else (k', v') :: obj_set k v r
  end.

(** [v.k], for the keys the program reads (none of them is a property
    inherited from a prototype): a [TypeError] on [undefined] and
    [null], the own property of an object, [undefined] otherwise. *)
Definition get_prop (v : jsval) (k : jsstring) : outcome jsval :=
  match v with
  | JUndef | JNull => Throw
  | JObj l => Ok (match assoc k l with Some x => x | None => JUndef end)
  | _ => Ok JUndef
  end.

(** [v?.k] *)
Definition get_prop_opt (v : jsval) (k : jsstring) : jsval :=
  match get_prop v k with
  | Ok x => x
  | _ => JUndef
  end.

(** *** [JSON.stringify] *)

Fixpoint uint_chars (d : Decimal.uint) : jsstring :=
  match d with
  | Decimal.Nil => []
  | Decimal.D0 d => 48 :: uint_chars d
  | Decimal.D1 d => 49 :: uint_chars d
  | Decimal.D2 d => 50 :: uint_chars d
  | Decimal.D3 d => 51 :: uint_chars d
  | Decimal.D4 d => 52 :: uint_chars d
  | Decimal.D5 d => 53 :: uint_chars d
  | Decimal.D6 d => 54 :: uint_chars d
  | Decimal.D7 d => 55 :: uint_chars d
  | Decimal.D8 d => 56 :: uint_chars d
  | Decimal.D9 d => 57 :: uint_chars d
  end.

Definition num_to_string (z : Z) : jsstring :=
  if (z <? 0)%Z then 45 :: uint_chars (N.to_uint (Z.abs_N z))
  else uint_chars (N.to_uint (Z.abs_N z)).

Definition hexdigit (d : N) : N := if d <? 10 then 48 + d else 87 + d.

Definition unicode_escape (c : N) : jsstring :=
  [92; 117; hexdigit (c / 4096); hexdigit ((c / 256) mod 16);
   hexdigit ((c / 16) mod 16); hexdigit (c mod 16)].

(** [QuoteJSONString] without the enclosing quotes. *)
Fixpoint quote_chars (s : jsstring) : jsstring :=
  match s with
  | [] => []
  | c :: r =>
      if c =? 8 then 92 :: 98 :: quote_chars r
      else if c =? 9 then 92 :: 116 :: quote_chars r
      else if c =? 10 then 92 :: 110 :: quote_chars r
      else if c =? 12 then 92 :: 102 :: quote_chars r
      else if c =? 13 then 92 :: 114 :: quote_chars r
      else if c =? 34 then 92 :: 34 :: quote_chars r
      else if c =? 92 then 92 :: 92 :: quote_chars r
      else if c <? 32 then unicode_escape c ++ quote_chars r
      else if is_high_surrogate c then
        match r with
        | d :: r' =>
            if is_low_surrogate d then c :: d :: quote_chars r'
            else unicode_escape c ++ quote_chars r
        | [] => unicode_escape c
        end
      else if is_low_surrogate c then unicode_escape c ++ quote_chars r
      else c :: quote_chars r
  end.

Definition quote (s : jsstring) : jsstring := 34 :: quote_chars s ++ [34].

(** [JSON.stringify(v)]: [None] is [undefined].  A property whose
    value is [undefined] is left out, an [undefined] element is
    written [null]. *)
Fixpoint stringify_elems (f : jsval -> outcome (option jsstring))
  (l : list jsval) : outcome (list jsstring) :=
  match l with
  | [] => Ok []
  | x :: r =>
      sx <- f x ;;
      sr <- stringify_elems f r ;;
      Ok (match sx with Some t => t | None => js "null" end :: sr)
  end.

Fixpoint stringify_members (f : jsval -> outcome (option jsstring))
  (l : list (jsstring * jsval)) : outcome (list jsstring) :=
  match l with
  | [] => Ok []
  | (k, x) :: r =>
      sx <- f x ;;
      sr <- stringify_members f r ;;
      Ok (match sx with
          | Some t => (quote k ++ 58 :: t) :: sr
          | None => sr
          end)
  end.

Fixpoint stringify (v : jsval) : outcome (option jsstring) :=
  match v with
  | JUndef => Ok None
  | JNull => Ok (Some (js "null"))
  | JBool b => Ok (Some (if b then js "true" else js "false"))
  | JNum z => if safe_int z then Ok (Some (num_to_string z)) else Unsupported
  | JStr s => Ok (Some (quote s))
  | JArr l =>
      parts <- stringify_elems stringify l ;;
      Ok (Some (91 :: join [44] parts ++ [93]))
  | JObj l =>
      parts <- stringify_members stringify l ;;
      Ok (Some (123 :: join [44] parts ++ [125]))
  end.

(** *** [JSON.parse] *)

Definition json_ws (c : N) : bool :=
  (c =? 32) || (c =? 9) || (c =? 10) || (c =? 13).

Fixpoint skip_ws (s : jsstring) : jsstring :=
  match s with
  | c :: r => if json_ws c then skip_ws r else s
  | [] => []
  end.

Definition hexval (c : N) : option N :=
  if (48 <=? c) && (c <=? 57) then Some (c - 48)
  else if (97 <=? c) && (c <=? 102) then Some (c - 87)
  else if (65 <=? c) && (c <=? 70) then Some (c - 55)
  else None.

Definition unescape (e : N) : option N :=
  if e =? 34 then Some 34
  else if e =? 92 then Some 92
  else if e =? 47 then Some 47
  else if e =? 98 then Some 8
  else if e =? 102 then Some 12
  else if e =? 110 then Some 10
  else if e =? 114 then Some 13
  else if e =? 116 then Some 9
  else None.

(** The characters of a string literal after its opening quote. *)
Fixpoint parse_string (s : jsstring) : outcome (jsstring * jsstring) :=
  match s with
  | [] => Throw
  | c :: r =>
      if c =? 34 then Ok ([], r)
      else if c =? 92 then
        match r with
        | [] => Throw
        | e :: r' =>
            if e =? 117 then
              match r' with
              | h1 :: h2 :: h3 :: h4 :: r'' =>
                  match hexval h1, hexval h2, hexval h3, hexval h4 with
                  | Some a, Some b, Some c, Some d =>
                      '(t, rest) <- parse_string r'' ;;
                      Ok (((a * 16 + b) * 16 + c) * 16 + d :: t, rest)
                  | _, _, _, _ => Throw
                  end
              | _ => Throw
              end
            else
              match unescape e with
              | Some ch =>
                  '(t, rest) <- parse_string r' ;;
                  Ok (ch :: t, rest)
              | None => Throw
              end
        end
      else if c <? 32 then Throw
      else
        '(t, rest) <- parse_string r ;;
        Ok (c :: t, rest)
  end.

Definition digit_of (c : N) : option (Decimal.uint -> Decimal.uint) :=
  if c =? 48 then Some Decimal.D0
  else if c =? 49 then Some Decimal.D1
  else if c =? 50 then Some Decimal.D2
  else if c =? 51 then Some Decimal.D3
  else if c =? 52 then Some Decimal.D4
  else if c =? 53 then Some Decimal.D5
  else if c =? 54 then Some Decimal.D6
  else if c =? 55 then Some Decimal.D7
  else if c =? 56 then Some Decimal.D8
  else if c =? 57 then Some Decimal.D9
  else None.

Fixpoint read_digits (s : jsstring) : Decimal.uint * jsstring :=
  match s with
  | [] => (Decimal.Nil, [])
  | c :: r =>
      match digit_of c with
      | Some D => let (d, rest) := read_digits r in (D d, rest)
      | None => (Decimal.Nil, s)
      end
  end.

(** The integer part of a JSON number: [0], or a digit run that does
    not start with [0]. *)
Definition normal_uint (d : Decimal.uint) : bool :=
  match d with
  | Decimal.Nil => false
  | Decimal.D0 Decimal.Nil => true
  | Decimal.D0 _ => false
  | _ => true
  end.

(** A number literal.  One with a fraction or an exponent, or beyond
    the safe integers, denotes a double that is not an integer of this
    development. *)
Definition parse_number (s : jsstring) : outcome (jsval * jsstring) :=
  let (neg, s1) :=
    match s with
    | c :: r => if c =? 45 then (true, r) else (false, s)
    | [] => (false, s)
    end in
  let (d, rest) := read_digits s1 in
  if normal_uint d then
    let more :=
      match rest with
      | c :: _ => (c =? 46) || (c =? 101) || (c =? 69)
      | [] => false
      end in
    let z := Z.of_N (N.of_uint d) in
    let z := if neg then (- z)%Z else z in
    if more then Unsupported
    else if safe_int z then Ok (JNum z, rest)
    else Unsupported
  else Throw.

(** The parser is recursive in a bound on the number of values it
    reads; [json_parse] starts it with twice the length of the text,
    beyond which the bound has no effect ([json_parse_bound]). *)
Fixpoint parse_value (fuel : nat) (s : jsstring) {struct fuel}
  : outcome (jsval * jsstring) :=
  match fuel with
  | O => Unsupported
  | S f =>
      match skip_ws s with
      | [] => Throw
      | c :: t =>
          if c =? 34 then
            '(str, r) <- parse_string t ;;
            Ok (JStr str, r)
          else if c =? 91 then
            match skip_ws t with
            | [] => Throw
            | c' :: t' =>
                if c' =? 93 then Ok (JArr [], t')
                else
                  '(l, r) <- parse_elements f t ;;
                  Ok (JArr l, r)
            end
          else if c =? 123 then
            match skip_ws t with
            | [] => Throw
            | c' :: t' =>
                if c' =? 125 then Ok (JObj [], t')
                else
                  '(l, r) <- parse_members f t ;;
                  Ok (JObj (fold_left (fun o kv => obj_set (fst kv) (snd kv) o) l []), r)
            end
          else if starts_with (js "true") (c :: t) then
            Ok (JBool true, skipn 4 (c :: t))
          else if starts_with (js "false") (c :: t) then
            Ok (JBool false, skipn 5 (c :: t))
          else if starts_with (js "null") (c :: t) then
            Ok (JNull, skipn 4 (c :: t))
          else parse_number (c :: t)
      end
  end
with parse_elements (fuel : nat) (s : jsstring) {struct fuel}
  : outcome (list jsval * jsstring) :=
  match fuel with
  | O => Unsupported
  | S f =>
      '(v, r) <- parse_value f s ;;
      match skip_ws r with
      | [] => Throw
      | c :: t =>
          if c =? 44 then
            '(l, r') <- parse_elements f t ;;
            Ok (v :: l, r')
          else if c =? 93 then Ok ([v], t)
          else Throw
      end
  end
with parse_members (fuel : nat) (s : jsstring) {struct fuel}
  : outcome (list (jsstring * jsval) * jsstring) :=
  match fuel with
  | O => Unsupported
  | S f =>
      match skip_ws s with
      | [] => Throw
      | q :: t =>
          if q =? 34 then
            '(k, r) <- parse_string t ;;
            match skip_ws r with
            | [] => Throw
            | c :: t2 =>
                if c =? 58 then
                  '(v, r2) <- parse_value f t2 ;;
                  match skip_ws r2 with
                  | [] => Throw
                  | c3 :: t3 =>
                      if c3 =? 44 then
                        '(l, r') <- parse_members f t3 ;;
                        Ok ((k, v) :: l, r')
                      else if c3 =? 125 then Ok ([(k, v)], t3)
                      else Throw
                  end
                else Throw
            end
          else Throw
      end
  end.

(** [JSON.parse(text)]: one value, then only white space.  The
    members of an object stay in the order of the text; the code puts
    the keys that are array indices first, which is not modelled: the
    statements that depend on the order of the members are for values
    without such keys ([plain_keys]). *)
Definition json_parse (text : jsstring) : outcome jsval :=
  '(v, r) <- parse_value (S (2 * length text)) text ;;
  match skip_ws r with
  | [] => Ok v
  | _ => Throw
  end.

(* ================================================================= *)
(** ** The signed-state codec *)

(** [const STRAVA_SCOPES = [...].join(",")] *)
Definition STRAVA_SCOPES : jsstring :=
  join (js ",")
    [ js "read"; js "read_all"; js "profile:read_all"; js "activity:read";
      js "activity:read_all"; js "activity:write" ].

Definition STRAVA_AUTHORIZE_URL : jsstring :=
  js "https://www.strava.com/oauth/authorize".
Definition STRAVA_TOKEN_URL : jsstring :=
  js "https://www.strava.com/oauth/token".

(** [async function encodeState(data: object, secret: string)].
    The signature is taken over the UTF-8 bytes of the JSON text, and
    both the text and the signature go through [btoa].  ([data] is an
    object, so [JSON.stringify] returns a string; for [undefined] the
    platform signs the empty text and encodes the word "undefined".) *)
Definition encodeState (data : jsval) (secret : jsstring) : outcome jsstring :=
  dataStr <- stringify data ;;
  key <- importKey (utf8_encode secret) ;;
  let signature :=
    subtle_sign key
      (utf8_encode (match dataStr with Some t => t | None => [] end)) in
  sigBase64 <- btoa signature ;;
  dataBase64 <- btoa (match dataStr with Some t => t | None => js "undefined" end) ;;
  Ok (dataBase64 ++ js "." ++ sigBase64).

(** [!s] for a string that may be [undefined]. *)
Definition absent (x : option jsstring) : bool :=
  match x with
  | None | Some [] => true
  | Some (_ :: _) => false
  end.

Definition the (x : option jsstring) : jsstring :=
  match x with
  | Some s => s
  | None => []
  end.

(** [async function decodeState(state: string, secret: string)]:
    [JNull] is the [null] the source returns. *)
Definition decodeState (state secret : jsstring) : outcome jsval :=
  try_catch
    (let parts := split_char 46 state in
     let dataBase64 := nth_error parts 0 in
     let sigBase64 := nth_error parts 1 in
     if absent dataBase64 || absent sigBase64 then Ok JNull
     else
       dataStr <- atob (the dataBase64) ;;
       key <- importKey (utf8_encode secret) ;;
       sigStr <- atob (the sigBase64) ;;
       let signature := List.map (fun c => c mod 256) sigStr in
       let valid := subtle_verify key signature (utf8_encode dataStr) in
       if negb valid then Ok JNull
       else json_parse dataStr)
    JNull.

(* ================================================================= *)
(** ** Requests, responses and the platform *)

(** A [URL] object: its query as the list of [searchParams], and the
    rest of its serialisation. *)
Record URL : Type := mkURL {
  url_base : jsstring;
  searchParams : list (jsstring * jsstring)
}.

(** [url.searchParams.set(k, v)]: the first pair named [k] takes the
    value and the others are removed; without one the pair is
    appended. *)
Fixpoint sp_set (k v : jsstring) (l : list (jsstring * jsstring))
  : list (jsstring * jsstring) :=
  match l with
  | [] => [(k, v)]
  | (k', v') :: r =>
      if str_eqb k k'
      then (k', v) :: filter (fun p => negb (str_eqb k (fst p))) r
      else (k', v') :: sp_set k v r
  end.

Definition url_set (k v : jsstring) (u : URL) : URL :=
  mkURL (url_base u) (sp_set k v (searchParams u)).

(** [params.get(k)], [c.req.query(k)], [c.req.header(k)] *)
Definition sp_get (k : jsstring) (l : list (jsstring * jsstring))
  : option jsstring := assoc k l.

(** The functions of the platform that are taken as given: the URL
    parser ([None] when [new URL(s)] throws) and the two constructors
    of [URLSearchParams], from a form-encoded text and from a parsed
    JSON body. *)
Record Platform : Type := mkPlatform {
  URL_parse : jsstring -> option URL;
  params_of_text : jsstring -> list (jsstring * jsstring);
  params_of_record : jsval -> outcome (list (jsstring * jsstring))
}.

Record Env : Type := mkEnv {
  STRAVA_CLIENT_ID : option jsstring;
  STRAVA_CLIENT_SECRET : option jsstring;
  OAUTH_STATE_SECRET : option jsstring
}.

(** A request as the handlers read it: headers by lower-case name,
    the decoded query parameters and the text of the body. *)
Record Request : Type := mkRequest {
  req_headers : list (jsstring * jsstring);
  req_query : list (jsstring * jsstring);
  req_body : jsstring
}.

Definition header (r : Request) (k : jsstring) := sp_get k (req_headers r).
Definition query (r : Request) (k : jsstring) := sp_get k (req_query r).
(** [await c.req.json()] *)
Definition req_json (r : Request) : outcome jsval := json_parse (req_body r).

(** The response of [fetch]: [ok] and the body. *)
Record FetchResponse : Type := mkFetchResponse {
  fetch_ok : bool;
  fetch_body : jsstring
}.

(** The responses of the handlers: [c.text(body)] and
    [c.json(body, status)], with the object given to [c.json];
    [c.redirect(url.toString())], with the URL whose serialisation is
    the [Location] of the 302; and the response the MCP transport
    makes of a request to [/mcp], with the access token the Strava
    client was built with. *)
Inductive response : Type :=
| RespText (status : Z) (body : jsstring)
| RespJson (status : Z) (body : jsval)
| RespRedirect (location : URL)
| RespTransport (accessToken : jsstring).

Definition status_of (r : response) : Z :=
  match r with
  | RespText s _ => s
  | RespJson s _ => s
  | RespRedirect _ => 302
  | RespTransport _ => 200
  end.

(** [a || b] on strings that may be [undefined]. *)
Definition or_else (a : option jsstring) (b : jsstring) : jsstring :=
  if absent a then b else the a.

Definition opt_str (x : option jsstring) : jsval :=
  match x with
  | Some s => JStr s
  | None => JUndef
  end.

Definition obj1 (k : string) (v : jsval) : jsval := JObj [(js k, v)].
Definition error_body (msg : string) : jsval := obj1 "error" (JStr (js msg)).

Section Handlers.

Variable P : Platform.
(** [fetch(url, {method: "POST", body: new URLSearchParams(...)})] *)
Variable fetch : jsstring -> list (jsstring * jsstring) -> outcome FetchResponse.

(** [app.get("/", ...)] *)
Definition health : outcome response :=
  Ok (RespText 200 (js "Strava MCP server")).

Definition base_url (r : Request) : jsstring :=
  let host := or_else (header r (js "host")) (js "localhost") in
  let protocol := if includes (js "localhost") host then js "http" else js "https" in
  protocol ++ js "://" ++ host.

Definition scopes_supported : jsval :=
  JArr (List.map JStr (split_char 44 STRAVA_SCOPES)).

(** [app.get("/.well-known/oauth-protected-resource", ...)] and its
    [/mcp] variant. *)
Definition protected_resource (r : Request) : outcome response :=
  let baseUrl := base_url r in
  Ok (RespJson 200
        (JObj [ (js "resource", JStr (baseUrl ++ js "/mcp"));
                (js "authorization_servers", JArr [JStr baseUrl]);
                (js "scopes_supported", scopes_supported) ])).

(** [app.get("/.well-known/oauth-authorization-server", ...)] *)
Definition authorization_server (r : Request) : outcome response :=
  let baseUrl := base_url r in
  Ok (RespJson 200
        (JObj [ (js "issuer", JStr baseUrl);
                (js "authorization_endpoint", JStr (baseUrl ++ js "/oauth/authorize"));
                (js "token_endpoint", JStr (baseUrl ++ js "/oauth/token"));
                (js "registration_endpoint", JStr (baseUrl ++ js "/oauth/register"));
                (js "scopes_supported", scopes_supported);
                (js "response_types_supported", JArr [JStr (js "code")]);
                (js "grant_types_supported",
                 JArr [JStr (js "authorization_code"); JStr (js "refresh_token")]);
                (js "token_endpoint_auth_methods_supported", JArr [JStr (js "none")]);
                (js "code_challenge_methods_supported", JArr [JStr (js "S256")]) ])).

(** [app.post("/oauth/register", ...)]; [uuid] is the value of
    [crypto.randomUUID()]. *)
Definition register (e : Env) (uuid : jsstring) (r : Request) : outcome response :=
  body <- req_json r ;;
  let clientId := uuid in
  uris <- get_prop body (js "redirect_uris") ;;
  Ok (RespJson 200
        (JObj [ (js "client_id", JStr clientId);
                (js "client_secret_expires_at", JNum 0);
                (js "redirect_uris", if truthy uris then uris else JArr []);
                (js "grant_types",
                 JArr [JStr (js "authorization_code"); JStr (js "refresh_token")]);
                (js "response_types", JArr [JStr (js "code")]);
                (js "token_endpoint_auth_method", JStr (js "none")) ])).

(** The tail both grant branches of the token endpoint share: the
    upstream response is checked and mapped to the token response.
    [failure] is the description of the [invalid_grant] error. *)
Definition token_result (failure : string) (tokenResponse : FetchResponse)
  : outcome response :=
  if negb (fetch_ok tokenResponse) then
    Ok (RespJson 400
          (JObj [ (js "error", JStr (js "invalid_grant"));
                  (js "error_description", JStr (js failure)) ]))
  else
    tokenData <- json_parse (fetch_body tokenResponse) ;;
    err <- get_prop tokenData (js "error") ;;
    if truthy err then Ok (RespJson 400 (JObj [(js "error", err)]))
    else
      let token_type := get_prop_opt tokenData (js "token_type") in
      Ok (RespJson 200
            (JObj [ (js "access_token", get_prop_opt tokenData (js "access_token"));
                    (js "token_type",
                     if truthy token_type then token_type else JStr (js "Bearer"));
                    (js "expires_in", get_prop_opt tokenData (js "expires_in"));
                    (js "refresh_token", get_prop_opt tokenData (js "refresh_token"));
                    (js "scope", JStr STRAVA_SCOPES) ])).

(** The [URLSearchParams] the token endpoint reads its fields from. *)
Definition token_params (r : Request) : outcome (list (jsstring * jsstring)) :=
  let contentType := or_else (header r (js "content-type")) [] in
  if includes (js "application/x-www-form-urlencoded") contentType then
    Ok (params_of_text P (req_body r))
  else
    body <- req_json r ;;
    params_of_record P body.

(** [app.post("/oauth/token", ...)] *)
Definition token (e : Env) (r : Request) : outcome response :=
  let clientId := STRAVA_CLIENT_ID e in
  let clientSecret := STRAVA_CLIENT_SECRET e in
  let stateSecret := OAUTH_STATE_SECRET e in
  if absent clientId || absent clientSecret || absent stateSecret then
    Ok (RespJson 500
          (JObj [ (js "error", JStr (js "server_error"));
                  (js "error_description", JStr (js "OAuth not configured")) ]))
  else
    params <- token_params r ;;
    let grantType := sp_get (js "grant_type") params in
    let code := sp_get (js "code") params in
    let refreshToken := sp_get (js "refresh_token") params in
    if match grantType with
       | Some g => str_eqb g (js "refresh_token")
       | None => false
       end
    then
      if absent refreshToken then
        Ok (RespJson 400
              (JObj [ (js "error", JStr (js "invalid_request"));
                      (js "error_description", JStr (js "Missing refresh_token")) ]))
      else
        body <-
          params_of_record P
            (JObj [ (js "client_id", JStr (the clientId));
                    (js "client_secret", JStr (the clientSecret));
                    (js "grant_type", JStr (js "refresh_token"));
                    (js "refresh_token", JStr (the refreshToken)) ]) ;;
        tokenResponse <- fetch STRAVA_TOKEN_URL body ;;
        token_result "Token refresh failed" tokenResponse
    else if negb match grantType with
                 | Some g => str_eqb g (js "authorization_code")
                 | None => false
                 end
    then Ok (RespJson 400 (error_body "unsupported_grant_type"))
    else if absent code then
      Ok (RespJson 400
            (JObj [ (js "error", JStr (js "invalid_request"));
                    (js "error_description", JStr (js "Missing code")) ]))
    else
      codeData <- decodeState (the code) (the stateSecret) ;;
      if negb (truthy codeData) then
        Ok (RespJson 400
              (JObj [ (js "error", JStr (js "invalid_grant"));
                      (js "error_description", JStr (js "Invalid code")) ]))
      else
        strava_code <- get_prop codeData (js "strava_code") ;;
        body <-
          params_of_record P
            (JObj [ (js "client_id", JStr (the clientId));
                    (js "client_secret", JStr (the clientSecret));
                    (js "code", strava_code);
                    (js "grant_type", JStr (js "authorization_code")) ]) ;;
        tokenResponse <- fetch STRAVA_TOKEN_URL body ;;
        token_result "Token exchange failed" tokenResponse.

(** [Date.now() - t > 10 * 60 * 1000] for a truthy [t]; the
    subtraction of a value that is not a number is a numeric
    coercion. *)
Definition older_than_ten_minutes (now : Z) (t : jsval) : outcome bool :=
  match t with
  | JNum ts => Ok (10 * 60 * 1000 <? now - ts)%Z
  | _ => Unsupported
  end.

(** [app.get("/oauth/authorize", ...)]; [now] is [Date.now()].
    [new URL(STRAVA_AUTHORIZE_URL)] is the URL of that constant, which
    has no query. *)
Definition authorize (e : Env) (now : Z) (r : Request) : outcome response :=
  let clientId := STRAVA_CLIENT_ID e in
  let stateSecret := OAUTH_STATE_SECRET e in
  if absent clientId || absent stateSecret then
    Ok (RespJson 500 (error_body "OAuth not configured"))
  else
    let ourCallbackUrl := base_url r ++ js "/oauth/callback" in
    let clientRedirectUri := query r (js "redirect_uri") in
    let clientState := query r (js "state") in
    state <-
      encodeState
        (JObj [ (js "redirect_uri", opt_str clientRedirectUri);
                (js "client_state", opt_str clientState);
                (js "timestamp", JNum now) ])
        (the stateSecret) ;;
    let authUrl := mkURL STRAVA_AUTHORIZE_URL [] in
    let authUrl := url_set (js "client_id") (the clientId) authUrl in
    let authUrl := url_set (js "response_type") (js "code") authUrl in
    let authUrl := url_set (js "redirect_uri") ourCallbackUrl authUrl in
    let authUrl := url_set (js "scope") STRAVA_SCOPES authUrl in
    let authUrl := url_set (js "state") state authUrl in
    let authUrl := url_set (js "approval_prompt") (js "auto") authUrl in
    Ok (RespRedirect authUrl).

(** [new URL(v)] for a truthy property value [v]: a string is
    parsed, anything else is first converted to a string. *)
Definition new_URL (v : jsval) : outcome URL :=
  match v with
  | JStr s =>
      match URL_parse P s with
      | Some u => Ok u
      | None => Throw
      end
  | _ => Unsupported
  end.

(** [searchParams.set(k, v)] with a property value [v]. *)
Definition url_set_val (k : jsstring) (v : jsval) (u : URL) : outcome URL :=
  match v with
  | JStr s => Ok (url_set k s u)
  | _ => Unsupported
  end.

(** The last step of the callback (the end of the handler, from
    the comment "Wrap the Strava code with our state" on): the code
    is wrapped and handed to the client, by a redirect when the
    state names a [redirect_uri], in a JSON body otherwise. *)
Definition deliver (stateData : jsval) (code stateSecret : jsstring)
  : outcome response :=
  wrappedCode <-
    encodeState (JObj [(js "strava_code", JStr code)]) stateSecret ;;
  redirect_uri <- get_prop stateData (js "redirect_uri") ;;
  if truthy redirect_uri then
    redirectUrl <- new_URL redirect_uri ;;
    let redirectUrl := url_set (js "code") wrappedCode redirectUrl in
    client_state <- get_prop stateData (js "client_state") ;;
    redirectUrl <-
      (if truthy client_state
       then url_set_val (js "state") client_state redirectUrl
       else Ok redirectUrl) ;;
    Ok (RespRedirect redirectUrl)
  else Ok (RespJson 200 (obj1 "code" (JStr wrappedCode))).

(** The branch of the callback for an upstream [error]: a redirect
    to the [redirect_uri] of the state when there is one, the error
    in a JSON body otherwise. *)
Definition report_error (error : jsstring) (errorDesc : jsstring)
  (state : option jsstring) (stateSecret : jsstring) : outcome response :=
  redirected <-
    (if negb (absent state) then
       stateData <- decodeState (the state) stateSecret ;;
       let redirect_uri := get_prop_opt stateData (js "redirect_uri") in
       if truthy redirect_uri then
         redirectUrl <- new_URL redirect_uri ;;
         let redirectUrl := url_set (js "error") error redirectUrl in
         client_state <- get_prop stateData (js "client_state") ;;
         redirectUrl <-
           (if truthy client_state
            then url_set_val (js "state") client_state redirectUrl
            else Ok redirectUrl) ;;
         Ok (Some (RespRedirect redirectUrl))
       else Ok None
     else Ok None) ;;
  match redirected with
  | Some resp => Ok resp
  | None =>
      Ok (RespJson 400
            (JObj [(js "error", JStr (js "OAuth error: " ++ errorDesc))]))
  end.

(** [app.get("/oauth/callback", ...)]; [now] is [Date.now()]. *)
Definition callback (e : Env) (now : Z) (r : Request) : outcome response :=
  let stateSecret := OAUTH_STATE_SECRET e in
  if absent stateSecret then
    Ok (RespJson 500 (error_body "OAuth not configured"))
  else
    let code := query r (js "code") in
    let state := query r (js "state") in
    let error := query r (js "error") in
    if negb (absent error) then
      let errorDesc := or_else (query r (js "error_description")) (the error) in
      report_error (the error) errorDesc state (the stateSecret)
    else if absent code || absent state then
      Ok (RespJson 400 (error_body "Missing code or state"))
    else
      stateData <- decodeState (the state) (the stateSecret) ;;
      if negb (truthy stateData) then
        Ok (RespJson 400 (error_body "Invalid state"))
      else
        timestamp <- get_prop stateData (js "timestamp") ;;
        expired <-
          (if truthy timestamp then older_than_ten_minutes now timestamp
           else Ok false) ;;
        if expired then Ok (RespJson 400 (error_body "State expired"))
        else deliver stateData (the code) (the stateSecret).

(** [app.post("/mcp", ...)]: without a token the JSON-RPC error with
    status 401; with one, the request goes to the MCP transport with
    a Strava client holding that token. *)
Definition mcp (r : Request) : outcome response :=
  let authHeader := header r (js "authorization") in
  let accessToken :=
    match authHeader with
    | Some h => Some (replace_first (js "Bearer ") [] h)
    | None => None
    end in
  if absent accessToken then
    Ok (RespJson 401
          (JObj [ (js "jsonrpc", JStr (js "2.0"));
                  (js "error",
                   JObj [ (js "code", JNum (-32001));
                          (js "message", JStr (js "Missing authorization token")) ]);
                  (js "id", JNull) ]))
  else Ok (RespTransport (the accessToken)).

(** [app.on(["GET", "DELETE"], "/mcp", ...)] *)
Definition mcp_not_allowed : outcome response :=
  Ok (RespJson 405
        (JObj [ (js "jsonrpc", JStr (js "2.0"));
                (js "error",
                 JObj [ (js "code", JNum (-32000));
                        (js "message",
                         JStr (js "Method not allowed in stateless mode")) ]);
                (js "id", JNull) ])).

(** The routes registered on [app]; [app_fetch] runs the handler of
    a route.  The handler of [POST /mcp] ends where it hands the
    request to the transport: what the tools then do with their
    client ([mcp_client]) is no part of [app_fetch]. *)
Inductive Route : Type :=
| RHealth
| RProtectedResource
| RProtectedResourceMcp
| RAuthorizationServer
| RRegister
| RToken
| RAuthorize
| RCallback
| RMcpPost
| RMcpOther.

Definition app_fetch (rt : Route) (e : Env) (now : Z) (uuid : jsstring) (r : Request)
  : outcome response :=
  match rt with
  | RHealth => health
  | RProtectedResource | RProtectedResourceMcp => protected_resource r
  | RAuthorizationServer => authorization_server r
  | RRegister => register e uuid r
  | RToken => token e r
  | RAuthorize => authorize e now r
  | RCallback => callback e now r
  | RMcpPost => mcp r
  | RMcpOther => mcp_not_allowed
  end.

End Handlers.

(* ================================================================= *)
(** ** The Strava client ([api.ts]) *)

(** [String(v)], the conversion of a template literal and of the
    [Error] constructor: an array is the join of its elements, with
    [null] and [undefined] elements empty.  An object has the
    [toString] of [Object.prototype], unless it has a member of that
    name: a member of an object of JSON is no function, [valueOf]
    gives no primitive value, and the conversion throws a
    [TypeError]. *)
Fixpoint to_string_elems (f : jsval -> outcome jsstring) (l : list jsval)
  : outcome (list jsstring) :=
  match l with
  | [] => Ok []
  | x :: r =>
      sx <- match x with
            | JUndef | JNull => Ok []
            | _ => f x
            end ;;
      sr <- to_string_elems f r ;;
      Ok (sx :: sr)
  end.

Fixpoint to_string (v : jsval) : outcome jsstring :=
  match v with
  | JUndef => Ok (js "undefined")
  | JNull => Ok (js "null")
  | JBool b => Ok (if b then js "true" else js "false")
  | JNum z => if safe_int z then Ok (num_to_string z) else Unsupported
  | JStr s => Ok s
  | JArr l =>
      parts <- to_string_elems to_string l ;;
      Ok (join (js ",") parts)
  | JObj l =>
      match assoc (js "toString") l with
      | Some _ => Throw
      | None => Ok (js "[object Object]")
      end
  end.

(** [n.toString()] and [`${n}`] for a number [n]. *)
Definition number_text (z : Z) : outcome jsstring := to_string (JNum z).

(** [URLSearchParams.prototype.toString]: the
    [application/x-www-form-urlencoded] serialisation of the UTF-8
    bytes of names and values.  Letters, digits and [*-._] stay, a
    space becomes [+], every other byte is [%] and two upper-case
    hexadecimal digits. *)
Definition form_plain (b : N) : bool :=
  ((48 <=? b) && (b <=? 57)) || ((65 <=? b) && (b <=? 90))
  || ((97 <=? b) && (b <=? 122))
  || (b =? 42) || (b =? 45) || (b =? 46) || (b =? 95).

Definition upper_hexdigit (d : N) : N := if d <? 10 then 48 + d else 55 + d.

Definition form_byte (b : N) : jsstring :=
  if b =? 32 then [43]
  else if form_plain b then [b]
  else [37; upper_hexdigit (b / 16); upper_hexdigit (b mod 16)].

Definition form_encode (s : jsstring) : jsstring :=
  flat_map form_byte (utf8_encode s).

Definition params_toString (params : list (jsstring * jsstring)) : jsstring :=
  join (js "&")
    (List.map (fun p => form_encode (fst p) ++ js "=" ++ form_encode (snd p)) params).

(** What a call throws: a [StravaAPIError], another [Error] with its
    message, or a value that is not an [Error]. *)
Inductive thrown : Type :=
| StravaAPIError (message : jsstring) (status : Z) (errors : jsval)
| ErrorInstance (message : jsstring)
| NonError (v : jsval).

(** The result of a call of the client: a value, a thrown value, or
    no answer of this development (see [Unsupported]). *)
Inductive result (A : Type) : Type :=
| Returned (a : A)
| Raised (e : thrown)
| NoAnswer.
Arguments Raised {A}.
Arguments NoAnswer {A}.

Definition result_bind {A B} (m : result A) (k : A -> result B) : result B :=
  match m with
  | Returned a => k a
  | Raised e => Raised e
  | NoAnswer => NoAnswer
  end.

(** The arguments of [fetch(url, {method, headers, body})] and the
    response, read in full: its status and the text of its body. *)
Record RequestInit : Type := mkInit {
  init_method : jsstring;
  init_headers : list (jsstring * jsstring);
  init_body : option jsstring
}.

Record Call : Type := mkCall {
  call_url : jsstring;
  call_init : RequestInit
}.

Record Response : Type := mkResponse {
  resp_status : Z;
  resp_text : jsstring
}.

(** [response.ok]: a status from 200 to 299. *)
Definition resp_ok (r : Response) : bool :=
  ((200 <=? resp_status r) && (resp_status r <=? 299))%Z.

(** [class StravaClient]; the constructor has a default [apiUrl]. *)
Record StravaClient : Type := mkStravaClient {
  accessToken : jsstring;
  apiUrl : jsstring
}.

Definition new_StravaClient (accessToken : jsstring) : StravaClient :=
  mkStravaClient accessToken (js "https://www.strava.com/api/v3").

(** [CreateActivityInput] of [types.ts]. *)
Record CreateActivityInput : Type := mkCreateActivityInput {
  input_name : jsstring;
  input_sport_type : jsstring;
  input_start_date_local : jsstring;
  input_elapsed_time : Z;
  input_description : option jsstring;
  input_distance : option Z;
  input_trainer : option bool;
  input_commute : option bool
}.

(** [if (x) params.set(k, x.toString())] for a number that may be
    [undefined]: [0] is not set. *)
Definition set_number (k : jsstring) (x : option Z)
  (params : list (jsstring * jsstring)) : outcome (list (jsstring * jsstring)) :=
  match x with
  | Some z =>
      if (z =? 0)%Z then Ok params
      else t <- number_text z ;; Ok (sp_set k t params)
  | None => Ok params
  end.

(** [if (x !== undefined) params.set(k, x ? "1" : "0")] *)
Definition set_flag (k : jsstring) (x : option bool)
  (params : list (jsstring * jsstring)) : list (jsstring * jsstring) :=
  match x with
  | Some b => sp_set k (if b then js "1" else js "0") params
  | None => params
  end.

(** [`${path}${query ? `?${query}` : ""}`] *)
Definition with_query (path query : jsstring) : jsstring :=
  match query with
  | [] => path
  | _ => path ++ js "?" ++ query
  end.

Section Client.

(** [fetch], the message of the [SyntaxError] that
    [response.json()] throws on a text, and the message of the
    [TypeError] of a conversion to a string that throws. *)
Variable fetch : Call -> result Response.
Variable syntax_error : jsstring -> jsstring.
Variable type_error : jsstring.

(** [private async request<T>(method, path, body?)].  The first
    component lists the calls of [fetch] the method makes.
    ([JSON.stringify] throws on no value of [jsval]:
    [stringify_returns].)  The constructor of [StravaAPIError] hands
    the message to [Error], which converts it to a string, outside
    the [try]: a conversion that throws is thrown by [request]. *)
Definition request (c : StravaClient) (method path : jsstring) (body : jsval)
  : list Call * result jsval :=
  let url := apiUrl c ++ path in
  match (if truthy body then stringify body else Ok None) with
  | Ok bodyText =>
      let call :=
        mkCall url
          (mkInit method
             [ (js "Authorization", js "Bearer " ++ accessToken c);
               (js "Content-Type", js "application/json") ]
             bodyText) in
      ([call],
       result_bind (fetch call) (fun response =>
       if negb (resp_ok response) then
         let errorText := resp_text response in
         let errorMessage :=
           js "Strava API error: " ++ num_to_string (resp_status response) in
         match
           try_catch
             (errorData <- json_parse errorText ;;
              message <- get_prop errorData (js "message") ;;
              errors <- get_prop errorData (js "errors") ;;
              Ok (if truthy message then message else JStr errorMessage, errors))
             (JStr (match errorText with [] => errorMessage | _ => errorText end),
              JUndef)
         with
         | Ok (errorMessage, errors) =>
             match to_string errorMessage with
             | Ok message =>
                 Raised (StravaAPIError message (resp_status response) errors)
             | Throw => Raised (ErrorInstance type_error)
             | Unsupported => NoAnswer
             end
         | _ => NoAnswer
         end
       else if (resp_status response =? 204)%Z then Returned (JObj [])
       else
         match json_parse (resp_text response) with
         | Ok v => Returned v
         | Throw => Raised (ErrorInstance (syntax_error (resp_text response)))
         | Unsupported => NoAnswer
         end))
  | _ => ([], NoAnswer)
  end.

(** A method whose path needs a conversion of numbers. *)
Definition request_at (c : StravaClient) (method : jsstring)
  (path : outcome jsstring) (body : jsval) : list Call * result jsval :=
  match path with
  | Ok p => request c method p body
  | _ => ([], NoAnswer)
  end.

Definition getAuthenticatedAthlete (c : StravaClient) :=
  request c (js "GET") (js "/athlete") JUndef.

Definition getActivity (c : StravaClient) (id : Z) (includeAllEfforts : bool) :=
  let params := if includeAllEfforts then js "?include_all_efforts=true" else [] in
  request_at c (js "GET")
    (t <- number_text id ;; Ok (js "/activities/" ++ t ++ params)) JUndef.

Definition listAthleteActivities (c : StravaClient)
  (before after page per_page : option Z) :=
  request_at c (js "GET")
    (params <- set_number (js "before") before [] ;;
     params <- set_number (js "after") after params ;;
     params <- set_number (js "page") page params ;;
     params <- set_number (js "per_page") per_page params ;;
     let query := params_toString params in
     Ok (with_query (js "/athlete/activities") query))
    JUndef.

Definition createActivity (c : StravaClient) (input : CreateActivityInput) :=
  request_at c (js "POST")
    (let params := sp_set (js "name") (input_name input) [] in
     let params := sp_set (js "sport_type") (input_sport_type input) params in
     let params :=
       sp_set (js "start_date_local") (input_start_date_local input) params in
     elapsed <- number_text (input_elapsed_time input) ;;
     let params := sp_set (js "elapsed_time") elapsed params in
     let params :=
       if absent (input_description input) then params
       else sp_set (js "description") (the (input_description input)) params in
     params <- set_number (js "distance") (input_distance input) params ;;
     let params := set_flag (js "trainer") (input_trainer input) params in
     let params := set_flag (js "commute") (input_commute input) params in
     Ok (js "/activities?" ++ params_toString params))
    JUndef.

Definition getClub (c : StravaClient) (id : Z) :=
  request_at c (js "GET") (t <- number_text id ;; Ok (js "/clubs/" ++ t)) JUndef.

Definition listAthleteClubs (c : StravaClient) (page per_page : option Z) :=
  request_at c (js "GET")
    (params <- set_number (js "page") page [] ;;
     params <- set_number (js "per_page") per_page params ;;
     let query := params_toString params in
     Ok (with_query (js "/athlete/clubs") query))
    JUndef.

Definition getGear (c : StravaClient) (id : jsstring) :=
  request c (js "GET") (js "/gear/" ++ id) JUndef.

End Client.

(* ================================================================= *)
(** ** The tools ([tools.ts]) *)

(** [JSON.stringify(v, null, 2)]: the members and elements of a
    container that is not empty go on lines of their own, indented by
    two spaces more than the container. *)
Fixpoint indent_members (f : jsval -> outcome (option jsstring))
  (l : list (jsstring * jsval)) : outcome (list jsstring) :=
  match l with
  | [] => Ok []
  | (k, x) :: r =>
      sx <- f x ;;
      sr <- indent_members f r ;;
      Ok (match sx with
          | Some t => (quote k ++ js ": " ++ t) :: sr
          | None => sr
          end)
  end.

Definition newline : jsstring := [10].

Fixpoint stringify_indent (indent : jsstring) (v : jsval) {struct v}
  : outcome (option jsstring) :=
  match v with
  | JArr l =>
      let stepback := indent in
      let indent := indent ++ js "  " in
      parts <- stringify_elems (stringify_indent indent) l ;;
      Ok (Some (match parts with
                | [] => js "[]"
                | _ => js "[" ++ newline ++ indent
                       ++ join (js "," ++ newline ++ indent) parts
                       ++ newline ++ stepback ++ js "]"
                end))
  | JObj l =>
      let stepback := indent in
      let indent := indent ++ js "  " in
      parts <- indent_members (stringify_indent indent) l ;;
      Ok (Some (match parts with
                | [] => js "{}"
                | _ => js "{" ++ newline ++ indent
                       ++ join (js "," ++ newline ++ indent) parts
                       ++ newline ++ stepback ++ js "}"
                end))
  | _ => stringify v
  end.

(** [function formatResult(data)] *)
Definition formatResult (data : jsval) : outcome (option jsstring) :=
  stringify_indent [] data.

(** [function formatDuration(seconds)] for a whole number of seconds:
    [Math.floor] of a quotient is the division that rounds down, [%]
    is the remainder with the sign of the dividend.  The quotients
    of the code are doubles: they have the integer part of the exact
    quotient for every number of seconds up to [max_safe]. *)
Definition formatDuration (seconds : Z) : jsstring :=
  let hours := (seconds / 3600)%Z in
  let minutes := (Z.rem seconds 3600 / 60)%Z in
  let secs := Z.rem seconds 60 in
  if (0 <? hours)%Z then
    num_to_string hours ++ js "h " ++ num_to_string minutes ++ js "m "
    ++ num_to_string secs ++ js "s"
  else if (0 <? minutes)%Z then
    num_to_string minutes ++ js "m " ++ num_to_string secs ++ js "s"
  else num_to_string secs ++ js "s".

(** [{ content: [{ type: "text", text }] }] *)
Definition text_content (text : jsval) : jsval :=
  JObj [ (js "content",
          JArr [JObj [ (js "type", JStr (js "text")); (js "text", text) ]]) ].

(** [function handleError(error)] *)
Definition handleError (error : thrown) : outcome jsval :=
  match error with
  | StravaAPIError error_message status errors =>
      st <- number_text status ;;
      let message := js "Strava API Error (" ++ st ++ js "): " ++ error_message in
      message <-
        (if truthy errors then
           t <- stringify errors ;;
           Ok (message ++ newline ++ js "Errors: "
               ++ match t with Some x => x | None => js "undefined" end)
         else Ok message) ;;
      Ok (text_content (JStr message))
  | ErrorInstance error_message =>
      Ok (text_content (JStr (js "Error: " ++ error_message)))
  | NonError v =>
      s <- to_string v ;;
      Ok (text_content (JStr (js "Error: " ++ s)))
  end.

Section Tools.

Variable fetch : Call -> result Response.
Variable syntax_error : jsstring -> jsstring.
Variable type_error : jsstring.

(** [catch (error) { return handleError(error) }]: what [handleError]
    throws, the [TypeError] of a conversion, is thrown by the handler
    of the tool. *)
Definition catch_error (error : thrown) : result jsval :=
  match handleError error with
  | Ok content => Returned content
  | Throw => Raised (ErrorInstance type_error)
  | Unsupported => NoAnswer
  end.

(** The handler of the tool [get_gear]: the call of the client and
    the formatting are inside [try], [handleError] is the [catch].
    An error thrown inside [try], by the client or by [formatResult],
    goes to the [catch].  ([formatResult] throws on no value of
    [jsval]: [formatResult_returns].) *)
Definition get_gear (client : StravaClient) (id : jsstring)
  : list Call * result jsval :=
  let (calls, gear) := getGear fetch syntax_error type_error client id in
  (calls,
   match gear with
   | Returned gear =>
       match formatResult gear with
       | Ok text =>
           Returned (text_content (match text with
                                   | Some t => JStr t
                                   | None => JUndef
                                   end))
       | Throw => catch_error (ErrorInstance type_error)
       | Unsupported => NoAnswer
       end
   | Raised error => catch_error error
   | NoAnswer => NoAnswer
   end).

End Tools.

(** The client the handler of [/mcp] builds for the tools,
    [new StravaClient(accessToken)], when the request has a token. *)
Definition mcp_client (r : Request) : option StravaClient :=
  let authHeader := header r (js "authorization") in
  let accessToken :=
    match authHeader with
    | Some h => Some (replace_first (js "Bearer ") [] h)
    | None => None
    end in
  if absent accessToken then None
  else Some (new_StravaClient (the accessToken)).

(* ================================================================= *)
(** ** A platform instance for the examples *)

(** The closed examples below run the handlers on concrete requests.
    They use this instance of the platform.  Its URL parser knows the
    redirect URI of the examples, which has no query, and rejects
    every other string; a string without a scheme is rejected by the
    platform as well.  Its [URLSearchParams] constructors cover the
    form texts without [%] and [+] (the examples send JSON bodies) and
    the records whose values are strings. *)
Definition sample_redirect_uri : jsstring := js "https://client.example/cb".

Definition sample_URL_parse (s : jsstring) : option URL :=
  if str_eqb s sample_redirect_uri then Some (mkURL s []) else None.

(** [k=v], cut at the first [=]. *)
Fixpoint sample_pair (s : jsstring) : jsstring * jsstring :=
  match s with
  | [] => ([], [])
  | c :: r =>
      if c =? 61 then ([], r)
      else let (k, v) := sample_pair r in (c :: k, v)
  end.

Definition sample_params_of_text (s : jsstring) : list (jsstring * jsstring) :=
  List.map sample_pair
    (filter (fun x => match x with [] => false | _ => true end) (split_char 38 s)).

Fixpoint sample_params_of_fields (l : list (jsstring * jsval))
  : outcome (list (jsstring * jsstring)) :=
  match l with
  | [] => Ok []
  | (k, JStr v) :: r =>
      t <- sample_params_of_fields r ;;
      Ok ((k, v) :: t)
  | _ => Unsupported
  end.

Definition sample_params_of_record (v : jsval) : outcome (list (jsstring * jsstring)) :=
  match v with
  | JObj l => sample_params_of_fields l
  | _ => Unsupported
  end.

Definition sample_platform : Platform :=
  mkPlatform sample_URL_parse sample_params_of_text sample_params_of_record.

(** An upstream that answers every exchange with the same response. *)
Definition stub_fetch (resp : FetchResponse)
  : jsstring -> list (jsstring * jsstring) -> outcome FetchResponse :=
  fun _ _ => Ok resp.

(** The requests and states of the examples. *)
Definition sample_env : Env :=
  mkEnv (Some (js "strava-client")) (Some (js "strava-secret"))
        (Some (js "state-secret")).

Definition token_of (o : outcome jsstring) : jsstring :=
  match o with
  | Ok t => t
  | _ => []
  end.

(** The payload [/oauth/authorize] signs for
    [?redirect_uri=https://client.example/cb&state=xyz] at time [ts]. *)
Definition sample_fields (ts : Z) : list (jsstring * jsval) :=
  [ (js "redirect_uri", JStr sample_redirect_uri);
    (js "client_state", JStr (js "xyz"));
    (js "timestamp", JNum ts) ].

Definition sample_state (ts : Z) : jsstring :=
  token_of (encodeState (JObj (sample_fields ts)) (js "state-secret")).

Definition get_request (q : list (jsstring * jsstring)) : Request :=
  mkRequest [(js "host", js "mcp.example")] q [].

Definition sample_now : Z := 1700000000000.

Definition text_of_value (v : jsval) : jsstring :=
  match stringify v with
  | Ok (Some t) => t
  | _ => []
  end.

Definition response_of (o : outcome response) : response :=
  match o with
  | Ok r => r
  | _ => RespText 0 []
  end.

(** A request with a JSON body. *)
Definition json_request (v : jsval) : Request :=
  mkRequest [(js "content-type", js "application/json")] [] (text_of_value v).

(** An upstream answer that reports the scope [read]. *)
Definition sample_token_data : jsval :=
  JObj [ (js "access_token", JStr (js "tok"));
         (js "token_type", JStr (js "Bearer"));
         (js "expires_in", JNum 21600);
         (js "refresh_token", JStr (js "r1"));
         (js "scope", JStr (js "read")) ].

Definition sample_upstream : FetchResponse :=
  mkFetchResponse true (text_of_value sample_token_data).

(** The wrapped code the callback makes of the upstream code
    [ABC123]. *)
Definition sample_wrapped : jsstring :=
  token_of (encodeState (JObj [(js "strava_code", JStr (js "ABC123"))])
              (js "state-secret")).

(** The state of an authorize request with an empty [state]
    parameter. *)
Definition empty_state_fields : list (jsstring * jsval) :=
  [ (js "redirect_uri", JStr sample_redirect_uri);
    (js "client_state", JStr []);
    (js "timestamp", JNum sample_now) ].

Definition empty_state_token : jsstring :=
  token_of (encodeState (JObj empty_state_fields) (js "state-secret")).

(** A state whose payload has no timestamp. *)
Definition untimed_fields : list (jsstring * jsval) :=
  [ (js "redirect_uri", JStr sample_redirect_uri);
    (js "client_state", JStr (js "xyz")) ].

Definition untimed_state : jsstring :=
  token_of (encodeState (JObj untimed_fields) (js "state-secret")).

(** The state [/oauth/authorize] signs for [?redirect_uri=/cb&state=xyz],
    a redirect URI without a scheme. *)
Definition relative_fields : list (jsstring * jsval) :=
  [ (js "redirect_uri", JStr (js "/cb"));
    (js "client_state", JStr (js "xyz"));
    (js "timestamp", JNum sample_now) ].

Definition relative_state : jsstring :=
  token_of (encodeState (JObj relative_fields) (js "state-secret")).

(** The payload of an authorize request with the state U+65E5 U+672C. *)
Definition C2_payload : jsval :=
  JObj [ (js "redirect_uri", JStr sample_redirect_uri);
         (js "client_state", JStr [26085; 26412]);
         (js "timestamp", JNum sample_now) ].

(** The client and the tool of the examples: a client for the token
    [tok], upstreams that answer every call with one response, and
    the responses of a missing record, of a gateway that answers with
    markup and of an error without body. *)
Definition stub_upstream (resp : Response) : Call -> result Response :=
  fun _ => Returned resp.

Definition sample_syntax_error : jsstring -> jsstring :=
  fun _ => js "Unexpected token".

Definition sample_type_error : jsstring :=
  js "Cannot convert object to primitive value".

Definition sample_client : StravaClient := new_StravaClient (js "tok").

Definition not_found_fields : list (jsstring * jsval) :=
  [ (js "message", JStr (js "Record Not Found"));
    (js "errors",
     JArr [JObj [ (js "resource", JStr (js "Gear"));
                  (js "field", JStr (js "id"));
                  (js "code", JStr (js "not found")) ]]) ].

Definition not_found : Response :=
  mkResponse 404 (text_of_value (JObj not_found_fields)).

Definition bad_gateway : Response :=
  mkResponse 502 (js "<html>Bad Gateway</html>").

Definition empty_error : Response := mkResponse 500 [].

(** An error whose [message] is an object with a member [toString]. *)
Definition unconvertible : Response :=
  mkResponse 400
    (text_of_value
       (JObj [(js "message", JObj [(js "toString", JNum 1)])])).

(** An upstream that cannot be reached: [fetch] throws. *)
Definition unreachable_upstream : Call -> result Response :=
  fun _ => Raised (ErrorInstance (js "fetch failed")).

(** An activity whose name has the characters that separate
    parameters. *)
Definition sample_activity : CreateActivityInput :=
  mkCreateActivityInput (js "Lunch & run=fun") (js "Run")
    (js "2024-01-15T10:00:00Z") 3600 (Some (js "a b")) (Some 0%Z)
    (Some false) None.

(** The state [/oauth/authorize] signs for [?state=xyz], without a
    redirect URI. *)
Definition untargeted_fields : list (jsstring * jsval) :=
  [ (js "client_state", JStr (js "xyz"));
    (js "timestamp", JNum sample_now) ].

Definition untargeted_state : jsstring :=
  token_of (encodeState (JObj untargeted_fields) (js "state-secret")).

(** The response of a refusal without [errors]. *)
Definition forbidden_fields : list (jsstring * jsval) :=
  [ (js "message", JStr (js "Forbidden")) ].

Definition forbidden : Response :=
  mkResponse 403 (text_of_value (JObj forbidden_fields)).

(** An upstream of the token endpoint that answers at the token URL
    only. *)
Definition token_url_only (resp : FetchResponse)
  : jsstring -> list (jsstring * jsstring) -> outcome FetchResponse :=
  fun url _ => if str_eqb url STRAVA_TOKEN_URL then Ok resp else Throw.

(** The two segments of the wrapped code of the examples. *)
Definition wrapped_data : jsstring := nth 0 (split_char 46 sample_wrapped) [].
Definition wrapped_tag : jsstring := nth 1 (split_char 46 sample_wrapped) [].

(** The answers of the upstream for a piece of gear, for a request
    without content and for an empty body. *)
Definition gear_fields : list (jsstring * jsval) :=
  [ (js "id", JStr (js "b1"));
    (js "primary", JBool true);
    (js "distance", JNum 1234567);
    (js "tags", JArr [JStr (js "road"); JNull]) ].

Definition gear_response : Response :=
  mkResponse 200 (text_of_value (JObj gear_fields)).

Definition no_content : Response := mkResponse 204 [].

Definition empty_ok : Response := mkResponse 200 [].

(* ================================================================= *)
(** ** Predicates used by the statements *)

Definition wf_stringb (s : jsstring) : bool := forallb (fun c => c <? 65536) s.

Fixpoint distinct (l : list jsstring) : bool :=
  match l with
  | [] => true
  | k :: r => negb (existsb (str_eqb k) r) && distinct r
  end.

(** The values [JSON.parse] can return: no [undefined], safe
    integers, strings of code units, objects without a repeated
    key. *)
Fixpoint json_value (v : jsval) : bool :=
  match v with
  | JUndef => false
  | JNull | JBool _ => true
  | JNum z => safe_int z
  | JStr s => wf_stringb s
  | JArr l => forallb json_value l
  | JObj l =>
      forallb (fun kv => wf_stringb (fst kv) && json_value (snd kv)) l
      && distinct (List.map fst l)
  end.

(** Every string and key of the value is in the Latin-1 range. *)
Fixpoint latin1_value (v : jsval) : bool :=
  match v with
  | JStr s => latin1b s
  | JArr l => forallb latin1_value l
  | JObj l => forallb (fun kv => latin1b (fst kv) && latin1_value (snd kv)) l
  | _ => true
  end.

(** A bound on the recursion of the parser on the text of a value. *)
Fixpoint size (v : jsval) : nat :=
  match v with
  | JArr l => S (fold_right (fun x n => S (size x + n)) O l)
  | JObj l => S (fold_right (fun kv n => S (size (snd kv) + n)) O l)
  | _ => 1
  end.

(** What may follow the text of a value in the text of a container. *)
Definition delimited (rest : jsstring) : Prop :=
  match rest with
  | [] => True
  | c :: _ => c = 44 \/ c = 93 \/ c = 125
  end.

Definition not_digit_first (rest : jsstring) : Prop :=
  match rest with
  | [] => True
  | c :: _ => digit_of c = None
  end.

(** The first character of the text of a value. *)
Definition value_start (t : jsstring) : Prop :=
  match t with
  | [] => False
  | c :: _ => json_ws c = false /\ c <> 93 /\ c <> 125
  end.

Definition size_elems (l : list jsval) : nat :=
  fold_right (fun x n => S (size x + n)) O l.
Definition size_members (l : list (jsstring * jsval)) : nat :=
  fold_right (fun kv n => S (size (snd kv) + n)) O l.

(** [t] is the text [JSON.stringify] writes for [v], and the parser
    reads [v] back from it, in front of any delimited rest. *)
Definition text_of (v : jsval) (t : jsstring) : Prop :=
  stringify v = Ok (Some t)
  /\ (size v <= length t)%nat
  /\ value_start t
  /\ (latin1_value v = true -> latin1b t = true)
  /\ forall fuel rest,
       (size v <= fuel)%nat -> delimited rest ->
       parse_value fuel (t ++ rest) = Ok (v, rest).

(** [k] is not a key of [acc]. *)
Definition fresh_for (acc : list (jsstring * jsval)) (k : jsstring) : bool :=
  negb (existsb (fun k' => str_eqb k k') (List.map fst acc)).

(** The characters of the base64 alphabet are neither white space
    nor the separator of a token. *)
Definition b64_text (c : N) : bool :=
  negb (ascii_whitespace c) && negb (c =? 46) && (c <? 256).

(** A character of the base64 alphabet, or the padding. *)
Definition base64_char (c : N) : bool :=
  match b64val c with
  | Some _ => true
  | None => c =? pad_char
  end.

(** Neither [&] nor [=], the separators of a query. *)
Definition query_char (c : N) : bool := negb (c =? 38) && negb (c =? 61).

(** The text of one parameter in [params_toString]. *)
Definition pair_text (p : jsstring * jsstring) : jsstring :=
  form_encode (fst p) ++ js "=" ++ form_encode (snd p).

(** [k=z] for an option that is set: a number other than [0]. *)
Definition shown (k : jsstring) (x : option Z) : list jsstring :=
  match x with
  | Some z => if (z =? 0)%Z then [] else [k ++ js "=" ++ num_to_string z]
  | None => []
  end.

(** A number that is absent or a safe integer. *)
Definition safe_option (x : option Z) : bool :=
  match x with
  | Some z => safe_int z
  | None => true
  end.

(** The number of seconds a formatted duration stands for: up to
    three numbers, each followed by its unit and a space. *)
Definition read_part (t : jsstring) (k : jsstring -> Z) : Z :=
  let (d, r) := read_digits t in
  match r with
  | u :: r' =>
      let unit := if u =? 104 then 3600%Z else if u =? 109 then 60%Z else 1%Z in
      (Z.of_N (N.of_uint d) * unit + k (skipn 1 r'))%Z
  | [] => 0%Z
  end.

Definition duration_value (t : jsstring) : Z :=
  read_part t (fun r => read_part r (fun r => read_part r (fun _ => 0%Z))).

(** A key that starts with a digit.  [JSON.parse] puts a key that is
    an array index before the other keys of its object; such a key
    starts with a digit. *)
Definition index_like (k : jsstring) : bool :=
  match k with
  | c :: _ => (48 <=? c) && (c <=? 57)
  | [] => false
  end.

(** No key of an object of the value starts with a digit: its
    members are in the order in which [JSON.parse] reads them. *)
Fixpoint plain_keys (v : jsval) : bool :=
  match v with
  | JArr l => forallb plain_keys l
  | JObj l =>
      forallb (fun kv => negb (index_like (fst kv)) && plain_keys (snd kv)) l
  | _ => true
  end.

(** No [undefined] inside, and numbers that are safe integers. *)
Fixpoint whole_value (v : jsval) : bool :=
  match v with
  | JUndef => false
  | JNum z => safe_int z
  | JArr l => forallb whole_value l
  | JObj l => forallb (fun kv => whole_value (snd kv)) l
  | _ => true
  end.

(** Not ASCII white space. *)
Definition not_whitespace (c : N) : bool := negb (ascii_whitespace c).

(** White space only. *)
Definition blank (s : jsstring) : bool := forallb json_ws s.

(** What may follow the text of a value in an indented text. *)
Definition closes (rest : jsstring) : Prop :=
  match rest with
  | [] => True
  | c :: _ => c = 44 \/ c = 93 \/ c = 125 \/ json_ws c = true
  end.

(** The indented text of [v] at every indentation, read back by the
    parser in front of any rest that closes it. *)
Definition indented (v : jsval) : Prop :=
  forall indent, blank indent = true ->
    exists t,
      stringify_indent indent v = Ok (Some t)
      /\ (size v <= length t)%nat
      /\ value_start t
      /\ forall fuel rest,
           (size v <= fuel)%nat -> closes rest ->
           parse_value fuel (t ++ rest) = Ok (v, rest).

(* ================================================================= *)
(** * Proofs *)

(** ** Strings *)

Lemma str_eqb_refl (s : jsstring) : str_eqb s s = true.
Proof.
  induction s as [|c s IH]; simpl; [reflexivity|].
  now rewrite N.eqb_refl, IH.
Qed.

Lemma str_eqb_eq (a b : jsstring) : str_eqb a b = true <-> a = b.
Proof.
  split; [|intros ->; apply str_eqb_refl].
  revert b; induction a as [|x a IH]; intros [|y b]; simpl; try discriminate; auto.
  intros H; apply andb_true_iff in H as [H1 H2].
  apply N.eqb_eq in H1; subst; f_equal; auto.
Qed.

Lemma str_eqb_neq (a b : jsstring) : str_eqb a b = false <-> a <> b.
Proof.
  rewrite <- str_eqb_eq. destruct (str_eqb a b); split; congruence.
Qed.

Lemma latin1b_spec (s : jsstring) : latin1b s = true <-> latin1 s.
Proof.
  unfold latin1b, latin1. rewrite forallb_forall, Forall_forall.
  split; intros H c Hc; specialize (H c Hc); now apply N.ltb_lt.
Qed.

Lemma latin1b_app (a b : jsstring) :
  latin1b (a ++ b) = latin1b a && latin1b b.
Proof. apply forallb_app. Qed.

(** Induction on a list three elements at a time. *)
Lemma list_ind3 (A : Type) (Q : list A -> Prop) :
  Q [] -> (forall x, Q [x]) -> (forall x y, Q [x; y]) ->
  (forall x y z r, Q r -> Q (x :: y :: z :: r)) ->
  forall l, Q l.
Proof.
  intros H0 H1 H2 H3.
  fix IH 1. intros [|x [|y [|z r]]].
  - exact H0.
  - apply H1.
  - apply H2.
  - apply H3, IH.
Qed.

(** ** Base64 *)

Ltac small_N i :=
  destruct i as [|i]; [|repeat (destruct i as [i|i|]; try lia)].

Lemma b64val_b64char (i : N) : i < 64 -> b64val (b64char i) = Some i.
Proof. intros H. small_N i; reflexivity. Qed.

Lemma b64char_plain (i : N) :
  (b64char i =? pad_char) = false /\ (b64char i =? 46) = false
  /\ ascii_whitespace (b64char i) = false /\ (b64char i <? 256) = true.
Proof.
  unfold b64char, pad_char, ascii_whitespace.
  repeat match goal with
         | |- context [if ?a <? ?b then _ else _] => destruct (N.ltb_spec a b)
         | |- context [if ?a =? ?b then _ else _] => destruct (N.eqb_spec a b)
         end;
    repeat split;
    repeat rewrite orb_false_iff; repeat split;
    try (apply N.eqb_neq; lia); try (apply N.ltb_lt; lia).
Qed.

Lemma strip_end_cons (c : N) (E : list N) :
  (c =? pad_char) = false -> strip_end (c :: E) = c :: strip_end E.
Proof.
  intros Hc. destruct E as [|e [|e' E]]; simpl; rewrite ?Hc; try reflexivity.
  now destruct (e =? pad_char).
Qed.

Lemma sextets (x y z : N) :
  x < 256 -> y < 256 -> z < 256 ->
  x / 4 < 64 /\ (x mod 4) * 16 + y / 16 < 64 /\ (y mod 16) * 4 + z / 64 < 64
  /\ z mod 64 < 64 /\ (x mod 4) * 16 < 64 /\ (y mod 16) * 4 < 64.
Proof. intros; repeat split; zify; Z.to_euclidean_division_equations; lia. Qed.

Lemma unsextets (x y z : N) :
  x < 256 -> y < 256 -> z < 256 ->
  x / 4 * 4 + ((x mod 4) * 16 + y / 16) / 16 = x
  /\ (((x mod 4) * 16 + y / 16) mod 16) * 16 + ((y mod 16) * 4 + z / 64) / 4 = y
  /\ (((y mod 16) * 4 + z / 64) mod 4) * 64 + z mod 64 = z.
Proof. intros; repeat split; zify; Z.to_euclidean_division_equations; lia. Qed.

Lemma b64_decode_encode (s : list N) :
  latin1 s -> b64_decode (strip_end (b64_encode s)) = Some s.
Proof.
  induction s as [|x|x y|x y z r IH] using list_ind3; intros Hs.
  - reflexivity.
  - apply Forall_cons_iff in Hs as [Hx _].
    destruct (sextets Hx Hx Hx) as (H1 & _ & _ & _ & H2 & _).
    cbn [b64_encode].
    rewrite !strip_end_cons by apply b64char_plain.
    cbn [strip_end]. rewrite N.eqb_refl.
    cbn [b64_decode]. rewrite !b64val_b64char by assumption.
    do 2 f_equal. zify; Z.to_euclidean_division_equations; lia.
  - apply Forall_cons_iff in Hs as [Hx Hs]. apply Forall_cons_iff in Hs as [Hy _].
    destruct (sextets Hx Hy Hy) as (H1 & H2 & _ & _ & _ & H3).
    cbn [b64_encode].
    rewrite !strip_end_cons by apply b64char_plain.
    cbn [strip_end]. rewrite N.eqb_refl.
    cbn [b64_decode]. rewrite !b64val_b64char by assumption.
    f_equal. f_equal; [|f_equal]; zify; Z.to_euclidean_division_equations; lia.
  - apply Forall_cons_iff in Hs as [Hx Hs]. apply Forall_cons_iff in Hs as [Hy Hs].
    apply Forall_cons_iff in Hs as [Hz Hs].
    destruct (sextets Hx Hy Hz) as (H1 & H2 & H3 & H4 & _).
    destruct (unsextets Hx Hy Hz) as (U1 & U2 & U3).
    cbn [b64_encode].
    rewrite !strip_end_cons by apply b64char_plain.
    cbn [b64_decode]. rewrite !b64val_b64char by assumption.
    rewrite (IH Hs), U1, U2, U3. reflexivity.
Qed.

Lemma b64_encode_length (s : list N) :
  exists k, length (b64_encode s) = (4 * k)%nat.
Proof.
  induction s as [|x|x y|x y z r [k IH]] using list_ind3.
  - now exists 0%nat.
  - now exists 1%nat.
  - now exists 1%nat.
  - exists (S k). cbn [b64_encode length]. rewrite IH. lia.
Qed.

Lemma b64_text_char (i : N) : b64_text (b64char i) = true.
Proof.
  unfold b64_text. destruct (b64char_plain i) as (_ & -> & -> & ->). reflexivity.
Qed.

Lemma b64_encode_text (s : list N) : forallb b64_text (b64_encode s) = true.
Proof.
  induction s as [|x|x y|x y z r IH] using list_ind3;
    cbn [b64_encode forallb]; rewrite ?b64_text_char; auto.
Qed.

Lemma filter_all (A : Type) (f : A -> bool) (l : list A) :
  forallb f l = true -> filter f l = l.
Proof.
  induction l as [|a l IH]; simpl; [reflexivity|].
  intros H. apply andb_true_iff in H as [-> H]. now rewrite IH.
Qed.

Lemma forallb_impl (A : Type) (f g : A -> bool) (l : list A) :
  (forall a, f a = true -> g a = true) -> forallb f l = true -> forallb g l = true.
Proof.
  intros Hfg. rewrite !forallb_forall. auto.
Qed.

(** [atob] undoes [btoa] on every string [btoa] accepts. *)
Lemma atob_b64_encode (s : jsstring) :
  latin1 s -> atob (b64_encode s) = Ok s.
Proof.
  intros Hs. unfold atob.
  rewrite filter_all.
  - unfold strip_padding. destruct (b64_encode_length s) as [k ->].
    replace (N.of_nat (4 * k) mod 4) with 0.
    + simpl. now rewrite b64_decode_encode.
    + rewrite Nat2N.inj_mul. symmetry. rewrite N.mul_comm. apply N.Div0.mod_mul.
  - eapply forallb_impl; [|apply b64_encode_text].
    intros a. unfold b64_text. intros H.
    apply andb_true_iff in H as [H _]. now apply andb_true_iff in H as [H _].
Qed.

Lemma b64_encode_no_dot (s : list N) :
  forallb (fun c => negb (c =? 46)) (b64_encode s) = true.
Proof.
  eapply forallb_impl; [|apply b64_encode_text].
  intros a. unfold b64_text. intros H.
  apply andb_true_iff in H as [H _]. now apply andb_true_iff in H as [_ H].
Qed.

Lemma b64_encode_nonempty (s : list N) : s <> [] -> b64_encode s <> [].
Proof. destruct s as [|x [|y [|z r]]]; simpl; congruence. Qed.

(** ** [split] *)

Lemma split_char_app (sep : N) (a b : jsstring) :
  forallb (fun c => negb (c =? sep)) a = true ->
  split_char sep (a ++ sep :: b) = a :: split_char sep b.
Proof.
  induction a as [|c a IH]; simpl; intros H.
  - now rewrite N.eqb_refl.
  - apply andb_true_iff in H as [Hc H].
    apply negb_true_iff in Hc. rewrite Hc, (IH H). reflexivity.
Qed.

Lemma split_char_last (sep : N) (a : jsstring) :
  forallb (fun c => negb (c =? sep)) a = true ->
  split_char sep a = [a].
Proof.
  induction a as [|c a IH]; simpl; intros H; [reflexivity|].
  apply andb_true_iff in H as [Hc H].
  apply negb_true_iff in Hc. rewrite Hc, (IH H). reflexivity.
Qed.

(** The first two segments of a token followed by anything. *)
Lemma split_token (a b : jsstring) (tail : option jsstring) :
  forallb (fun c => negb (c =? 46)) a = true ->
  forallb (fun c => negb (c =? 46)) b = true ->
  let s := a ++ 46 :: b ++ match tail with Some x => 46 :: x | None => [] end in
  nth_error (split_char 46 s) 0 = Some a /\ nth_error (split_char 46 s) 1 = Some b.
Proof.
  intros Ha Hb s. subst s. rewrite split_char_app by assumption.
  destruct tail as [x|].
  - rewrite split_char_app by assumption. now split.
  - rewrite List.app_nil_r, split_char_last by assumption. now split.
Qed.

(** ** JSON strings *)

Lemma hexval_hexdigit (d : N) : d < 16 -> hexval (hexdigit d) = Some d.
Proof. intros H. small_N d; reflexivity. Qed.

Lemma hex_digits (c : N) :
  c < 65536 ->
  c / 4096 < 16 /\ (c / 256) mod 16 < 16 /\ (c / 16) mod 16 < 16 /\ c mod 16 < 16
  /\ ((c / 4096 * 16 + (c / 256) mod 16) * 16 + (c / 16) mod 16) * 16 + c mod 16 = c.
Proof. intros; repeat split; zify; Z.to_euclidean_division_equations; lia. Qed.

Lemma parse_string_literal (c : N) (tail : jsstring) :
  c <> 34 -> c <> 92 -> 32 <= c ->
  parse_string (c :: tail) =
  ('(t, rest) <- parse_string tail ;; Ok (c :: t, rest)).
Proof.
  intros H1 H2 H3. cbn [parse_string].
  apply N.eqb_neq in H1, H2. rewrite H1, H2.
  destruct (N.ltb_spec c 32); [lia|reflexivity].
Qed.

Lemma parse_string_unicode (c : N) (tail : jsstring) :
  c < 65536 ->
  parse_string (unicode_escape c ++ tail) =
  ('(t, rest) <- parse_string tail ;; Ok (c :: t, rest)).
Proof.
  intros Hc. destruct (hex_digits Hc) as (H1 & H2 & H3 & H4 & H5).
  unfold unicode_escape. cbn [app parse_string N.eqb Pos.eqb].
  rewrite !hexval_hexdigit by assumption. rewrite H5. reflexivity.
Qed.

Lemma surrogate_literal (c : N) :
  is_surrogate c = true -> c <> 34 /\ c <> 92 /\ 32 <= c.
Proof.
  unfold is_surrogate. intros H. apply andb_true_iff in H as [H _].
  apply N.leb_le in H. lia.
Qed.

Lemma low_is_surrogate (c : N) : is_low_surrogate c = true -> is_surrogate c = true.
Proof.
  unfold is_low_surrogate, is_surrogate. intros H.
  apply andb_true_iff in H as [H1 H2]. apply N.leb_le in H1, H2.
  apply andb_true_iff; split; apply N.leb_le; lia.
Qed.

Lemma parse_quote_chars_bounded (n : nat) :
  forall (s rest : jsstring),
    (length s <= n)%nat -> wf_stringb s = true ->
    parse_string (quote_chars s ++ 34 :: rest) = Ok (s, rest).
Proof.
  induction n as [|n IH]; intros [|c r] rest Hlen Hwf;
    try reflexivity; [simpl in Hlen; lia|].
  simpl in Hlen. cbn [wf_stringb forallb] in Hwf.
  apply andb_true_iff in Hwf as [Hc Hr]. apply N.ltb_lt in Hc.
  assert (IHr : parse_string (quote_chars r ++ 34 :: rest) = Ok (r, rest))
    by (apply IH; [lia|exact Hr]).
  cbn [quote_chars].
  destruct (N.eqb_spec c 8) as [->|H8]; [cbn; now rewrite IHr|].
  destruct (N.eqb_spec c 9) as [->|H9]; [cbn; now rewrite IHr|].
  destruct (N.eqb_spec c 10) as [->|H10]; [cbn; now rewrite IHr|].
  destruct (N.eqb_spec c 12) as [->|H12]; [cbn; now rewrite IHr|].
  destruct (N.eqb_spec c 13) as [->|H13]; [cbn; now rewrite IHr|].
  destruct (N.eqb_spec c 34) as [->|H34]; [cbn; now rewrite IHr|].
  destruct (N.eqb_spec c 92) as [->|H92]; [cbn; now rewrite IHr|].
  destruct (N.ltb_spec c 32) as [H32|H32].
  { rewrite <- app_assoc, parse_string_unicode, IHr by assumption. reflexivity. }
  destruct (is_high_surrogate c) eqn:Hh.
  { destruct r as [|d r'].
    - rewrite parse_string_unicode by assumption. reflexivity.
    - destruct (is_low_surrogate d) eqn:Hl.
      + cbn [wf_stringb forallb] in Hr. apply andb_true_iff in Hr as [Hd Hr'].
        destruct (surrogate_literal d (low_is_surrogate d Hl)) as (D1 & D2 & D3).
        cbn [app]. rewrite parse_string_literal by assumption.
        rewrite parse_string_literal by assumption.
        rewrite IH; [reflexivity|simpl in Hlen; lia|exact Hr'].
      + rewrite <- app_assoc, parse_string_unicode, IHr by assumption. reflexivity. }
  destruct (is_low_surrogate c) eqn:Hl.
  { rewrite <- app_assoc, parse_string_unicode, IHr by assumption. reflexivity. }
  cbn [app]. rewrite parse_string_literal, IHr by assumption. reflexivity.
Qed.

(** [JSON.parse] reads back the string literal [JSON.stringify]
    writes. *)
Lemma parse_quote_chars (s rest : jsstring) :
  wf_stringb s = true ->
  parse_string (quote_chars s ++ 34 :: rest) = Ok (s, rest).
Proof. apply (@parse_quote_chars_bounded (length s)). lia. Qed.

Lemma hexdigit_latin1 (d : N) : d < 16 -> (hexdigit d <? 256) = true.
Proof. intros H. small_N d; reflexivity. Qed.

Lemma unicode_escape_latin1 (c : N) :
  c < 65536 -> latin1b (unicode_escape c) = true.
Proof.
  intros Hc. destruct (hex_digits Hc) as (H1 & H2 & H3 & H4 & _).
  unfold unicode_escape. cbn [latin1b forallb].
  rewrite !hexdigit_latin1 by assumption. reflexivity.
Qed.

Lemma quote_chars_latin1 (s : jsstring) :
  latin1b s = true -> latin1b (quote_chars s) = true.
Proof.
  induction s as [|c r IH]; [reflexivity|].
  cbn [latin1b forallb]. intros H. apply andb_true_iff in H as [Hc Hr].
  specialize (IH Hr). apply N.ltb_lt in Hc.
  assert (Hh : is_high_surrogate c = false).
  { unfold is_high_surrogate. destruct (N.leb_spec 55296 c); [lia|reflexivity]. }
  assert (Hl : is_low_surrogate c = false).
  { unfold is_low_surrogate. destruct (N.leb_spec 56320 c); [lia|reflexivity]. }
  cbn [quote_chars]. rewrite Hh, Hl.
  repeat match goal with
         | |- context [if ?a =? ?b then _ else _] => destruct (N.eqb_spec a b)
         | |- context [if ?a <? ?b then _ else _] => destruct (N.ltb_spec a b)
         end;
    try (cbn [latin1b forallb]; fold (latin1b (quote_chars r)); now rewrite IH).
  - rewrite latin1b_app, unicode_escape_latin1, IH by lia. reflexivity.
  - cbn [latin1b forallb]. fold (latin1b (quote_chars r)). rewrite IH.
    apply N.ltb_lt in Hc. now rewrite Hc.
Qed.

(** ** JSON numbers *)

Lemma read_digits_chars (d : Decimal.uint) (rest : jsstring) :
  not_digit_first rest -> read_digits (uint_chars d ++ rest) = (d, rest).
Proof.
  intros Hrest.
  induction d; cbn [uint_chars app]; try (cbn; now rewrite IHd).
  destruct rest as [|c rest]; [reflexivity|].
  cbn in *. now rewrite Hrest.
Qed.

Lemma unorm_fixed_normal (d : Decimal.uint) :
  Decimal.unorm d = d -> normal_uint d = true.
Proof.
  destruct d; try reflexivity; try discriminate.
  rewrite DecimalFacts.unorm_D0. unfold Decimal.unorm.
  destruct (Decimal.nzhead d) eqn:E; intros H; try discriminate.
  - now injection H as <-.
  - exfalso. eapply DecimalFacts.nzhead_nonzero; eauto.
Qed.

Lemma to_uint_normal (n : N) : normal_uint (N.to_uint n) = true.
Proof.
  apply unorm_fixed_normal.
  rewrite <- DecimalN.Unsigned.to_of, DecimalN.Unsigned.of_to. reflexivity.
Qed.

(** The first character of a normal digit run is a digit. *)
Lemma normal_first (d : Decimal.uint) :
  normal_uint d = true ->
  exists c t, uint_chars d = c :: t /\ 48 <= c <= 57.
Proof.
  destruct d; try discriminate; intros _; cbn [uint_chars];
    eexists; eexists; (split; [reflexivity|lia]).
Qed.

Lemma delimited_not_digit (rest : jsstring) :
  delimited rest -> not_digit_first rest.
Proof.
  destruct rest as [|c r]; [easy|]. intros [->| [->| ->]]; reflexivity.
Qed.

Lemma parse_number_unsigned (n : N) (rest : jsstring) :
  delimited rest -> safe_int (Z.of_N n) = true ->
  parse_number (uint_chars (N.to_uint n) ++ rest) = Ok (JNum (Z.of_N n), rest).
Proof.
  intros Hrest Hsafe. unfold parse_number.
  destruct (normal_first _ (to_uint_normal n)) as (c & t & E & Hc).
  rewrite E. cbn [app].
  destruct (N.eqb_spec c 45); [lia|].
  change (c :: t ++ rest) with ((c :: t) ++ rest). rewrite <- E.
  rewrite read_digits_chars by now apply delimited_not_digit.
  rewrite to_uint_normal, DecimalN.Unsigned.of_to, Hsafe.
  destruct rest as [|x r]; [reflexivity|].
  destruct Hrest as [->| [->| ->]]; reflexivity.
Qed.

Lemma parse_number_text (z : Z) (rest : jsstring) :
  delimited rest -> safe_int z = true ->
  parse_number (num_to_string z ++ rest) = Ok (JNum z, rest).
Proof.
  intros Hrest Hsafe. unfold num_to_string.
  destruct (Z.ltb_spec z 0) as [Hneg|Hpos].
  - unfold parse_number. cbn [app]. rewrite N.eqb_refl.
    rewrite read_digits_chars by now apply delimited_not_digit.
    rewrite to_uint_normal, DecimalN.Unsigned.of_to.
    replace (- Z.of_N (Z.abs_N z))%Z with z by lia.
    rewrite Hsafe.
    destruct rest as [|x r]; [reflexivity|].
    destruct Hrest as [->| [->| ->]]; reflexivity.
  - replace z with (Z.of_N (Z.abs_N z)) at 2 by lia.
    apply parse_number_unsigned; [assumption|].
    now replace (Z.of_N (Z.abs_N z)) with z by lia.
Qed.

Lemma uint_chars_latin1 (d : Decimal.uint) : latin1b (uint_chars d) = true.
Proof. induction d; cbn; auto. Qed.

Lemma num_to_string_latin1 (z : Z) : latin1b (num_to_string z) = true.
Proof.
  unfold num_to_string. destruct (z <? 0)%Z; cbn [latin1b forallb];
    apply uint_chars_latin1.
Qed.

(** The text of a number starts with a digit or a minus sign. *)
Lemma num_to_string_first (z : Z) :
  exists c t, num_to_string z = c :: t /\ (c = 45 \/ 48 <= c <= 57).
Proof.
  unfold num_to_string. destruct (z <? 0)%Z.
  - eexists; eexists; split; [reflexivity|now left].
  - destruct (normal_first _ (to_uint_normal (Z.abs_N z))) as (c & t & E & Hc).
    exists c, t. split; [assumption|now right].
Qed.

(** ** JSON values *)

(** Induction on a value, with the hypothesis for every element of an
    array and every property value of an object. *)
Lemma jsval_induction (Q : jsval -> Prop) :
  Q JUndef -> Q JNull -> (forall b, Q (JBool b)) -> (forall z, Q (JNum z)) ->
  (forall s, Q (JStr s)) ->
  (forall l, Forall Q l -> Q (JArr l)) ->
  (forall l, Forall (fun kv => Q (snd kv)) l -> Q (JObj l)) ->
  forall v, Q v.
Proof.
  intros HU HN HB HZ HS HA HO.
  fix IH 1. intros [| |b|z|s|l|l].
  - exact HU.
  - exact HN.
  - apply HB.
  - apply HZ.
  - apply HS.
  - apply HA. induction l as [|x l IHl]; constructor; [apply IH|exact IHl].
  - apply HO. induction l as [|[k x] l IHl]; constructor; [apply IH|exact IHl].
Qed.

Lemma skip_ws_start (t rest : jsstring) :
  value_start t -> skip_ws (t ++ rest) = t ++ rest.
Proof.
  destruct t as [|c t]; [contradiction|]. intros (H & _). cbn. now rewrite H.
Qed.

Lemma skip_ws_delimited (rest : jsstring) :
  delimited rest -> skip_ws rest = rest.
Proof.
  destruct rest as [|c r]; [reflexivity|]. intros [->| [->| ->]]; reflexivity.
Qed.

(** The literals of the source, evaluated. *)
Ltac eval_js :=
  repeat match goal with
         | |- context [js ?s] =>
             let v := eval vm_compute in (js s) in change (js s) with v
         end.

Lemma parse_value_number (f : nat) (c : N) (t : jsstring) :
  c = 45 \/ 48 <= c <= 57 ->
  parse_value (S f) (c :: t) = parse_number (c :: t).
Proof.
  intros Hc. cbn [parse_value skip_ws].
  assert (Hws : json_ws c = false).
  { unfold json_ws.
    repeat match goal with
           | |- context [?a =? ?b] => destruct (N.eqb_spec a b); [lia|]
           end. reflexivity. }
  rewrite Hws. eval_js. cbn [starts_with].
  repeat match goal with
         | |- context [?a =? ?b] => destruct (N.eqb_spec a b); [lia|]
         end.
  reflexivity.
Qed.

Lemma text_of_null : text_of JNull (js "null").
Proof.
  repeat split; cbn; try lia; try discriminate.
  intros [|f] rest Hf _; [lia|reflexivity].
Qed.

Lemma text_of_bool (b : bool) :
  text_of (JBool b) (if b then js "true" else js "false").
Proof.
  destruct b; (repeat split; cbn; try lia; try discriminate;
    intros [|f] rest Hf _; [lia|reflexivity]).
Qed.

Lemma text_of_num (z : Z) :
  safe_int z = true -> text_of (JNum z) (num_to_string z).
Proof.
  intros Hz. destruct (num_to_string_first z) as (c & t & E & Hc).
  split; [cbn; now rewrite Hz|].
  split; [rewrite E; cbn; lia|].
  split; [rewrite E; cbn; unfold json_ws;
          repeat match goal with
                 | |- context [?a =? ?b] => destruct (N.eqb_spec a b); [lia|]
                 end; repeat split; lia|].
  split; [intros _; apply num_to_string_latin1|].
  intros [|f] rest Hf Hrest; [cbn in Hf; lia|].
  rewrite E. cbn [app]. rewrite parse_value_number by assumption.
  change (c :: t ++ rest) with ((c :: t) ++ rest). rewrite <- E.
  now apply parse_number_text.
Qed.

Lemma text_of_str (s : jsstring) :
  wf_stringb s = true -> text_of (JStr s) (quote s).
Proof.
  intros Hs. unfold quote.
  split; [reflexivity|].
  split; [cbn; lia|].
  split; [cbn; repeat split; discriminate|].
  split.
  { cbn [latin1_value]. intros H. cbn [latin1b forallb].
    fold (latin1b (quote_chars s ++ [34])).
    rewrite latin1b_app, quote_chars_latin1 by assumption. reflexivity. }
  intros [|f] rest Hf _; [cbn in Hf; lia|].
  cbn [app parse_value skip_ws json_ws N.eqb Pos.eqb orb].
  rewrite <- app_assoc. cbn [app].
  rewrite parse_quote_chars by assumption. reflexivity.
Qed.

Lemma join_cons2 (sep x y : jsstring) (r : list jsstring) :
  join sep (x :: y :: r) = x ++ sep ++ join sep (y :: r).
Proof. reflexivity. Qed.

Lemma value_start_app (t u : jsstring) : value_start t -> value_start (t ++ u).
Proof. destruct t; [contradiction|exact (fun H => H)]. Qed.

Lemma text_of_elems (l : list jsval) :
  Forall (fun x => json_value x = true -> exists t, text_of x t) l ->
  forallb json_value l = true ->
  exists parts,
    stringify_elems stringify l = Ok parts
    /\ length parts = length l
    /\ (size_elems l <= length (join [44%N] parts) + 1)%nat
    /\ (l <> [] -> value_start (join [44] parts))
    /\ (forallb latin1_value l = true -> latin1b (join [44] parts) = true)
    /\ forall fuel rest,
         (size_elems l <= fuel)%nat -> l <> [] ->
         parse_elements fuel (join [44] parts ++ 93 :: rest) = Ok (l, rest).
Proof.
  induction l as [|x r IHr]; intros HF Hwf.
  { exists []. repeat split; cbn; try lia; congruence. }
  apply Forall_cons_iff in HF as [Hx HF].
  cbn [forallb] in Hwf. apply andb_true_iff in Hwf as [Hwx Hwr].
  destruct (Hx Hwx) as (tx & Sx & Lx & Vx & Ax & Px).
  destruct (IHr HF Hwr) as (ps & Sr & Lr & Zr & Vr & Ar & Pr).
  exists (tx :: ps).
  split; [cbn [stringify_elems]; rewrite Sx; cbn [bind]; rewrite Sr; reflexivity|].
  split; [cbn; now rewrite Lr|].
  destruct r as [|y r'].
  - destruct ps; [|discriminate]. cbn [join].
    split; [cbn in *; lia|].
    split; [intros _; exact Vx|].
    split; [cbn; intros H; apply andb_true_iff in H as [H _]; auto|].
    intros [|f] rest Hf _; [cbn in Hf; lia|].
    cbn [parse_elements]. rewrite Px; [|cbn in Hf; lia|cbn; auto].
    cbn. reflexivity.
  - destruct ps as [|p ps]; [discriminate|]. rewrite join_cons2.
    split.
    { change (size_elems (x :: y :: r')) with (S (size x + size_elems (y :: r'))).
      rewrite !length_app. cbn [length]. lia. }
    split; [intros _; now apply value_start_app|].
    split.
    { cbn [forallb]. intros H. apply andb_true_iff in H as [H1 H2].
      rewrite !latin1b_app, Ax, Ar by assumption. reflexivity. }
    intros [|f] rest Hf _; [cbn in Hf; lia|].
    change (size_elems (x :: y :: r')) with (S (size x + size_elems (y :: r'))) in Hf.
    cbn [parse_elements]. rewrite <- !app_assoc. cbn [app].
    rewrite Px; [|lia|cbn; auto]. cbn [bind skip_ws json_ws N.eqb Pos.eqb orb].
    rewrite Pr; [reflexivity|lia|discriminate].
Qed.

Lemma obj_set_fresh (k : jsstring) (v : jsval) (acc : list (jsstring * jsval)) :
  existsb (fun k' => str_eqb k k') (List.map fst acc) = false ->
  obj_set k v acc = acc ++ [(k, v)].
Proof.
  induction acc as [|[k' v'] acc IH]; cbn; [reflexivity|].
  intros H. apply orb_false_iff in H as [H1 H2]. rewrite H1, IH by assumption.
  reflexivity.
Qed.

Lemma str_eqb_sym (a b : jsstring) : str_eqb a b = str_eqb b a.
Proof.
  destruct (str_eqb a b) eqn:E.
  - apply str_eqb_eq in E. subst. symmetry. apply str_eqb_refl.
  - symmetry. apply str_eqb_neq. apply str_eqb_neq in E. congruence.
Qed.

Lemma fold_obj_set (l acc : list (jsstring * jsval)) :
  distinct (List.map fst l) = true ->
  forallb (fresh_for acc) (List.map fst l) = true ->
  fold_left (fun o kv => obj_set (fst kv) (snd kv) o) l acc = acc ++ l.
Proof.
  revert acc. induction l as [|[k v] l IH]; intros acc Hd Hf; cbn.
  - now rewrite List.app_nil_r.
  - cbn in Hd, Hf. apply andb_true_iff in Hd as [Hk Hd].
    apply andb_true_iff in Hf as [Hka Hf].
    unfold fresh_for in Hka. apply negb_true_iff in Hka.
    rewrite obj_set_fresh by assumption.
    rewrite IH; [now rewrite <- app_assoc|assumption|].
    apply negb_true_iff in Hk.
    clear IH Hd. induction l as [|[k' v'] l IHl]; [reflexivity|].
    cbn in *. apply andb_true_iff in Hf as [Hf1 Hf2].
    apply orb_false_iff in Hk as [Hk1 Hk2].
    rewrite IHl by assumption. rewrite andb_true_r.
    unfold fresh_for in *. rewrite map_app, existsb_app. cbn.
    apply negb_true_iff in Hf1. rewrite Hf1, str_eqb_sym, Hk1. reflexivity.
Qed.

Lemma text_of_members (l : list (jsstring * jsval)) :
  Forall (fun kv => json_value (snd kv) = true -> exists t, text_of (snd kv) t) l ->
  forallb (fun kv => wf_stringb (fst kv) && json_value (snd kv)) l = true ->
  exists parts,
    stringify_members stringify l = Ok parts
    /\ length parts = length l
    /\ (size_members l <= length (join [44%N] parts) + 1)%nat
    /\ (l <> [] -> exists t', join [44] parts = 34 :: t')
    /\ (forallb (fun kv => latin1b (fst kv) && latin1_value (snd kv)) l = true ->
        latin1b (join [44] parts) = true)
    /\ forall fuel rest,
         (size_members l <= fuel)%nat -> l <> [] ->
         parse_members fuel (join [44] parts ++ 125 :: rest) = Ok (l, rest).
Proof.
  induction l as [|[k x] r IHr]; intros HF Hwf.
  { exists []. repeat split; cbn; try lia; congruence. }
  apply Forall_cons_iff in HF as [Hx HF]. cbn [snd] in Hx.
  cbn [forallb fst snd] in Hwf. apply andb_true_iff in Hwf as [Hwx Hwr].
  apply andb_true_iff in Hwx as [Hwk Hwx].
  destruct (Hx Hwx) as (tx & Sx & Lx & Vx & Ax & Px).
  destruct (IHr HF Hwr) as (ps & Sr & Lr & Zr & Vr & Ar & Pr).
  exists ((quote k ++ 58 :: tx) :: ps).
  split; [cbn [stringify_members]; rewrite Sx; cbn [bind]; rewrite Sr; reflexivity|].
  split; [cbn; now rewrite Lr|].
  assert (Hlat : latin1b k = true -> latin1_value x = true ->
                 latin1b (quote k ++ 58 :: tx) = true).
  { intros Hk Hv. unfold quote. cbn [app latin1b forallb].
    fold (latin1b ((quote_chars k ++ [34]) ++ 58 :: tx)).
    rewrite !latin1b_app, quote_chars_latin1 by assumption.
    cbn [latin1b forallb]. fold (latin1b tx). now rewrite Ax. }
  assert (Hstep : forall f R,
             (size x <= f)%nat -> delimited R ->
             parse_members (S f) ((quote k ++ 58 :: tx) ++ R) =
             match skip_ws R with
             | [] => Throw
             | c3 :: t3 =>
                 if c3 =? 44 then
                   '(l, r') <- parse_members f t3 ;;
                   Ok ((k, x) :: l, r')
                 else if c3 =? 125 then Ok ([(k, x)], t3)
                 else Throw
             end).
  { intros f R Hf HR. unfold quote. cbn [app]. rewrite <- !app_assoc. cbn [app].
    cbn [parse_members skip_ws json_ws N.eqb Pos.eqb orb].
    rewrite parse_quote_chars by assumption.
    cbn [bind skip_ws json_ws N.eqb Pos.eqb orb].
    rewrite Px by assumption. reflexivity. }
  destruct r as [|[k' y] r'].
  - destruct ps; [|discriminate]. cbn [join].
    split; [unfold quote; rewrite length_app; cbn in *; lia|].
    split; [intros _; unfold quote; cbn [app]; eauto|].
    split.
    { cbn [forallb fst snd]. intros H. apply andb_true_iff in H as [H _].
      apply andb_true_iff in H as [H1 H2]. auto. }
    intros [|f] rest Hf _; [cbn in Hf; lia|].
    rewrite Hstep; [reflexivity|cbn in Hf; lia|cbn; auto].
  - destruct ps as [|p ps]; [discriminate|]. rewrite join_cons2.
    split.
    { change (size_members ((k, x) :: (k', y) :: r'))
        with (S (size x + size_members ((k', y) :: r'))).
      unfold quote. rewrite !length_app. cbn [length]. rewrite length_app. lia. }
    split; [intros _; unfold quote; cbn [app]; eauto|].
    split.
    { cbn [forallb fst snd]. intros H. apply andb_true_iff in H as [H1 H2].
      apply andb_true_iff in H1 as [H1 H3].
      rewrite latin1b_app, Hlat by assumption.
      rewrite latin1b_app. cbn [forallb fst snd] in Ar. rewrite Ar by assumption.
      reflexivity. }
    intros [|f] rest Hf _; [cbn in Hf; lia|].
    change (size_members ((k, x) :: (k', y) :: r'))
      with (S (size x + size_members ((k', y) :: r'))) in Hf.
    rewrite <- (app_assoc (quote k ++ 58 :: tx)).
    rewrite Hstep; [|lia|cbn; auto].
    rewrite <- app_assoc.
    cbn [app skip_ws json_ws N.eqb Pos.eqb orb].
    rewrite Pr; [reflexivity|lia|discriminate].
Qed.

Lemma fresh_for_nil (ks : list jsstring) : forallb (fresh_for []) ks = true.
Proof. induction ks; cbn; auto. Qed.

(** [JSON.parse] reads back what [JSON.stringify] writes. *)
Theorem stringify_text (v : jsval) :
  json_value v = true -> exists t, text_of v t.
Proof.
  induction v as [| |b|z|s|l IH|l IH] using jsval_induction; intros Hwf.
  - discriminate.
  - eexists; apply text_of_null.
  - eexists; apply text_of_bool.
  - eexists; now apply text_of_num.
  - eexists; now apply text_of_str.
  - cbn [json_value] in Hwf.
    destruct (text_of_elems IH Hwf) as (ps & Sl & Ll & Zl & Vl & Al & Pl).
    exists (91 :: join [44] ps ++ [93]).
    split; [cbn [stringify]; rewrite Sl; reflexivity|].
    split; [cbn [size length]; fold (size_elems l); rewrite length_app; cbn; lia|].
    split; [cbn; repeat split; discriminate|].
    split.
    { cbn [latin1_value]. intros H. cbn [latin1b forallb].
      fold (latin1b (join [44] ps ++ [93])). rewrite latin1b_app, Al by assumption.
      reflexivity. }
    intros [|f] rest Hf _; [cbn in Hf; lia|].
    cbn [size] in Hf. fold (size_elems l) in Hf.
    cbn [app parse_value skip_ws json_ws N.eqb Pos.eqb orb].
    rewrite <- app_assoc. cbn [app].
    destruct l as [|x l'].
    + destruct ps; [|discriminate]. reflexivity.
    + assert (Hne : x :: l' <> []) by discriminate.
      specialize (Vl Hne). rewrite skip_ws_start by assumption.
      destruct (join [44] ps) as [|c t'] eqn:E; [contradiction|].
      destruct Vl as (_ & V93 & _). cbn [app].
      apply N.eqb_neq in V93. rewrite V93.
      change (c :: t' ++ 93 :: rest) with ((c :: t') ++ 93 :: rest).
      rewrite Pl by (assumption || lia). reflexivity.
  - cbn [json_value] in Hwf. apply andb_true_iff in Hwf as [Hwf Hd].
    destruct (text_of_members IH Hwf) as (ps & Sl & Ll & Zl & Vl & Al & Pl).
    exists (123 :: join [44] ps ++ [125]).
    split; [cbn [stringify]; rewrite Sl; reflexivity|].
    split; [cbn [size length]; fold (size_members l); rewrite length_app; cbn; lia|].
    split; [cbn; repeat split; discriminate|].
    split.
    { cbn [latin1_value]. intros H. cbn [latin1b forallb].
      fold (latin1b (join [44] ps ++ [125])). rewrite latin1b_app, Al by assumption.
      reflexivity. }
    intros [|f] rest Hf _; [cbn in Hf; lia|].
    cbn [size] in Hf. fold (size_members l) in Hf.
    cbn [app parse_value skip_ws json_ws N.eqb Pos.eqb orb].
    rewrite <- app_assoc. cbn [app].
    destruct l as [|kx l'].
    + destruct ps; [|discriminate]. reflexivity.
    + assert (Hne : kx :: l' <> []) by discriminate.
      destruct (Vl Hne) as (t' & E).
      rewrite E. cbn [app skip_ws json_ws N.eqb Pos.eqb orb].
      change (34 :: t' ++ 125 :: rest) with ((34 :: t') ++ 125 :: rest).
      rewrite <- E, Pl by (assumption || lia). cbn [bind].
      rewrite fold_obj_set; [reflexivity|assumption|apply fresh_for_nil].
Qed.

Lemma json_parse_stringify (v : jsval) :
  json_value v = true ->
  exists t, stringify v = Ok (Some t) /\ t <> [] /\ json_parse t = Ok v
            /\ (latin1_value v = true -> latin1b t = true).
Proof.
  intros Hv. destruct (stringify_text v Hv) as (t & St & Lt & Vt & At & Pt).
  exists t. split; [assumption|].
  split; [destruct t; [contradiction|discriminate]|].
  split; [|assumption].
  unfold json_parse. specialize (Pt (S (2 * length t)) []).
  rewrite List.app_nil_r in Pt. rewrite Pt; [reflexivity|lia|exact I].
Qed.

(** ** The bound of the parser *)

Lemma skip_ws_length (s : jsstring) : (length (skip_ws s) <= length s)%nat.
Proof.
  induction s as [|c s IH]; cbn; [lia|]. destruct (json_ws c); cbn; lia.
Qed.

Lemma bind_ok (A B : Type) (m : outcome A) (k : A -> outcome B) (b : B) :
  bind m k = Ok b -> exists a, m = Ok a /\ k a = Ok b.
Proof. destruct m; cbn; try discriminate. eauto. Qed.

Lemma parse_string_consumes_bounded (n : nat) :
  forall s str r,
    (length s <= n)%nat -> parse_string s = Ok (str, r) ->
    (length r < length s)%nat.
Proof.
  induction n as [|n IH]; intros [|c s] str r Hn H;
    try discriminate; [cbn in Hn; lia|].
  cbn [length] in Hn. cbn [parse_string] in H.
  destruct (c =? 34); [injection H as _ <-; cbn; lia|].
  destruct (c =? 92).
  - destruct s as [|e s]; [discriminate|].
    destruct (e =? 117).
    + destruct s as [|h1 [|h2 [|h3 [|h4 s]]]]; try discriminate.
      destruct (hexval h1), (hexval h2), (hexval h3), (hexval h4); try discriminate.
      apply bind_ok in H as ([t rest] & H1 & H2). injection H2 as _ <-.
      apply IH in H1; cbn in *; lia.
    + destruct (unescape e); [|discriminate].
      apply bind_ok in H as ([t rest] & H1 & H2). injection H2 as _ <-.
      apply IH in H1; cbn in *; lia.
  - destruct (c <? 32); [discriminate|].
    apply bind_ok in H as ([t rest] & H1 & H2). injection H2 as _ <-.
    apply IH in H1; cbn in *; lia.
Qed.

Lemma parse_string_consumes (s str r : jsstring) :
  parse_string s = Ok (str, r) -> (length r < length s)%nat.
Proof. apply (@parse_string_consumes_bounded (length s)). lia. Qed.

Lemma read_digits_length (s : jsstring) :
  forall d r, read_digits s = (d, r) ->
              (length r <= length s)%nat
              /\ (d <> Decimal.Nil -> (length r < length s)%nat).
Proof.
  induction s as [|c s IH]; intros d r H; cbn [read_digits] in H.
  - injection H as <- <-. split; [lia|congruence].
  - destruct (digit_of c) as [D|].
    + destruct (read_digits s) as [d' r'] eqn:E. injection H as <- <-.
      destruct (IH _ _ eq_refl) as [L _]. cbn. split; intros; lia.
    + injection H as <- <-. split; [lia|congruence].
Qed.

Lemma parse_number_consumes (s : jsstring) (v : jsval) (r : jsstring) :
  parse_number s = Ok (v, r) -> (length r < length s)%nat.
Proof.
  unfold parse_number.
  destruct (match s with
            | [] => (false, s)
            | c :: r0 => if c =? 45 then (true, r0) else (false, s)
            end) as [neg s1] eqn:E1.
  assert (L1 : (length s1 <= length s)%nat).
  { destruct s as [|c s']; [injection E1 as _ <-; lia|].
    destruct (c =? 45); injection E1 as _ <-; cbn; lia. }
  destruct (read_digits s1) as [d rest] eqn:E2.
  destruct (read_digits_length _ E2) as [_ L2].
  destruct (normal_uint d) eqn:En; [|discriminate].
  assert (Hd : d <> Decimal.Nil) by (intros ->; discriminate).
  specialize (L2 Hd).
  destruct (match rest with
            | [] => false
            | c :: _ => (c =? 46) || (c =? 101) || (c =? 69)
            end); [discriminate|].
  destruct (safe_int _); [|discriminate].
  intros H. injection H as _ <-. lia.
Qed.

Lemma starts_with_length (p s : jsstring) :
  starts_with p s = true -> (length p <= length s)%nat.
Proof.
  revert s. induction p as [|x p IH]; intros [|y s] H; cbn in *;
    try lia; try discriminate.
  apply andb_true_iff in H as [_ H]. apply IH in H. lia.
Qed.

Lemma skipn_result (n : nat) (s r : jsstring) (v w : jsval) :
  Ok (w, skipn n s) = Ok (v, r) -> length r = (length s - n)%nat.
Proof. intros H. injection H as _ <-. apply length_skipn. Qed.

(** A value, a list of elements and a list of members each take at
    least one character. *)
Lemma parse_consumes (f : nat) :
  (forall s v r, parse_value f s = Ok (v, r) -> (length r < length s)%nat)
  /\ (forall s l r, parse_elements f s = Ok (l, r) -> (length r < length s)%nat)
  /\ (forall s l r, parse_members f s = Ok (l, r) -> (length r < length s)%nat).
Proof.
  induction f as [|f (IHv & IHe & IHm)]; [repeat split; discriminate|].
  split; [|split].
  - intros s v r H. cbn [parse_value] in H.
    pose proof (skip_ws_length s) as Ls.
    destruct (skip_ws s) as [|c t]; [discriminate|]. cbn [length] in Ls.
    destruct (c =? 34).
    { apply bind_ok in H as ([str r'] & H1 & H2). injection H2 as _ <-.
      apply parse_string_consumes in H1. lia. }
    destruct (c =? 91).
    { pose proof (skip_ws_length t) as Lt.
      destruct (skip_ws t) as [|c' t']; [discriminate|]. cbn [length] in Lt.
      destruct (c' =? 93); [injection H as _ <-; lia|].
      apply bind_ok in H as ([l r'] & H1 & H2). injection H2 as _ <-.
      apply IHe in H1. lia. }
    destruct (c =? 123).
    { pose proof (skip_ws_length t) as Lt.
      destruct (skip_ws t) as [|c' t']; [discriminate|]. cbn [length] in Lt.
      destruct (c' =? 125); [injection H as _ <-; lia|].
      apply bind_ok in H as ([l r'] & H1 & H2). injection H2 as _ <-.
      apply IHm in H1. lia. }
    destruct (starts_with (js "true") (c :: t)) eqn:E1.
    { apply starts_with_length in E1. apply skipn_result in H.
      cbn in *. lia. }
    destruct (starts_with (js "false") (c :: t)) eqn:E2.
    { apply starts_with_length in E2. apply skipn_result in H.
      cbn in *. lia. }
    destruct (starts_with (js "null") (c :: t)) eqn:E3.
    { apply starts_with_length in E3. apply skipn_result in H.
      cbn in *. lia. }
    apply parse_number_consumes in H. cbn [length] in H. lia.
  - intros s l r H. cbn [parse_elements] in H.
    apply bind_ok in H as ([v r1] & H1 & H2). apply IHv in H1.
    pose proof (skip_ws_length r1) as L1.
    destruct (skip_ws r1) as [|c t]; [discriminate|]. cbn [length] in L1.
    destruct (c =? 44).
    { apply bind_ok in H2 as ([l' r'] & H3 & H4). injection H4 as _ <-.
      apply IHe in H3. lia. }
    destruct (c =? 93); [injection H2 as _ <-; lia|discriminate].
  - intros s l r H. cbn [parse_members] in H.
    pose proof (skip_ws_length s) as Ls.
    destruct (skip_ws s) as [|q t]; [discriminate|]. cbn [length] in Ls.
    destruct (q =? 34); [|discriminate].
    apply bind_ok in H as ([k r1] & H1 & H2). apply parse_string_consumes in H1.
    pose proof (skip_ws_length r1) as L1.
    destruct (skip_ws r1) as [|c t2]; [discriminate|]. cbn [length] in L1.
    destruct (c =? 58); [|discriminate].
    apply bind_ok in H2 as ([v r2] & H3 & H4). apply IHv in H3.
    pose proof (skip_ws_length r2) as L2.
    destruct (skip_ws r2) as [|c3 t3]; [discriminate|]. cbn [length] in L2.
    destruct (c3 =? 44).
    { apply bind_ok in H4 as ([l' r'] & H5 & H6). injection H6 as _ <-.
      apply IHm in H5. lia. }
    destruct (c3 =? 125); [injection H4 as _ <-; lia|discriminate].
Qed.

Lemma parse_elements_S (f : nat) (s : jsstring) :
  parse_elements (S f) s =
  ('(v, r) <- parse_value f s ;;
   match skip_ws r with
   | [] => Throw
   | c :: t =>
       if c =? 44 then
         '(l, r') <- parse_elements f t ;;
         Ok (v :: l, r')
       else if c =? 93 then Ok ([v], t)
       else Throw
   end).
Proof. reflexivity. Qed.

Lemma parse_members_S (f : nat) (s : jsstring) :
  parse_members (S f) s =
  match skip_ws s with
  | [] => Throw
  | q :: t =>
      if q =? 34 then
        '(k, r) <- parse_string t ;;
        match skip_ws r with
        | [] => Throw
        | c :: t2 =>
            if c =? 58 then
              '(v, r2) <- parse_value f t2 ;;
              match skip_ws r2 with
              | [] => Throw
              | c3 :: t3 =>
                  if c3 =? 44 then
                    '(l, r') <- parse_members f t3 ;;
                    Ok ((k, v) :: l, r')
                  else if c3 =? 125 then Ok ([(k, v)], t3)
                  else Throw
              end
            else Throw
        end
      else Throw
  end.
Proof. reflexivity. Qed.

(** Beyond twice the length of the text the bound has no effect. *)
Lemma parse_stable (f : nat) :
  (forall s, (2 * length s < f)%nat -> parse_value (S f) s = parse_value f s)
  /\ (forall s, (2 * length s + 1 < f)%nat ->
                parse_elements (S f) s = parse_elements f s)
  /\ (forall s, (2 * length s + 1 < f)%nat ->
                parse_members (S f) s = parse_members f s).
Proof.
  induction f as [|f (IHv & IHe & IHm)]; [repeat split; intros; lia|].
  destruct (parse_consumes f) as (Cv & Ce & Cm).
  split; [|split].
  - intros s Hs. cbn [parse_value].
    pose proof (skip_ws_length s) as Ls.
    destruct (skip_ws s) as [|c t]; [reflexivity|]. cbn [length] in Ls.
    destruct (c =? 34); [reflexivity|].
    pose proof (skip_ws_length t) as Lt.
    destruct (c =? 91).
    { destruct (skip_ws t) as [|c' t']; [reflexivity|].
      destruct (c' =? 93); [reflexivity|]. rewrite (IHe t) by lia. reflexivity. }
    destruct (c =? 123); [|reflexivity].
    destruct (skip_ws t) as [|c' t']; [reflexivity|].
    destruct (c' =? 125); [reflexivity|]. rewrite (IHm t) by lia. reflexivity.
  - intros s Hs. rewrite (parse_elements_S (S f)), (parse_elements_S f).
    rewrite (IHv s) by lia.
    destruct (parse_value f s) as [[v r1]| |] eqn:E; cbn [bind]; try reflexivity.
    apply Cv in E. pose proof (skip_ws_length r1) as L1.
    destruct (skip_ws r1) as [|c t]; [reflexivity|]. cbn [length] in L1.
    destruct (c =? 44); [|reflexivity]. rewrite (IHe t) by lia. reflexivity.
  - intros s Hs. rewrite (parse_members_S (S f)), (parse_members_S f).
    pose proof (skip_ws_length s) as Ls.
    destruct (skip_ws s) as [|q t]; [reflexivity|]. cbn [length] in Ls.
    destruct (q =? 34); [|reflexivity].
    destruct (parse_string t) as [[k r1]| |] eqn:E1; cbn [bind]; try reflexivity.
    apply parse_string_consumes in E1. pose proof (skip_ws_length r1) as L1.
    destruct (skip_ws r1) as [|c t2]; [reflexivity|]. cbn [length] in L1.
    destruct (c =? 58); [|reflexivity]. rewrite (IHv t2) by lia.
    destruct (parse_value f t2) as [[v r2]| |] eqn:E2; cbn [bind]; try reflexivity.
    apply Cv in E2. pose proof (skip_ws_length r2) as L2.
    destruct (skip_ws r2) as [|c3 t3]; [reflexivity|]. cbn [length] in L2.
    destruct (c3 =? 44); [|reflexivity]. rewrite (IHm t3) by lia. reflexivity.
Qed.

(** [json_parse] does not depend on its bound: every larger one
    gives the same outcome. *)
Theorem json_parse_bound (text : jsstring) (f : nat) :
  (2 * length text < f)%nat ->
  ('(v, r) <- parse_value f text ;;
   match skip_ws r with
   | [] => Ok v
   | _ => Throw
   end) = json_parse text.
Proof.
  intros Hf. unfold json_parse.
  replace (parse_value f text) with (parse_value (S (2 * length text)) text);
    [reflexivity|].
  induction Hf as [|f Hf IH]; [reflexivity|].
  rewrite IH. symmetry. apply parse_stable. lia.
Qed.

(** ** The tag *)

Lemma be_bytes_latin1 (n : nat) (x : N) : latin1b (SHA256.be_bytes n x) = true.
Proof.
  unfold SHA256.be_bytes, latin1b. rewrite forallb_forall.
  intros b Hb. apply in_map_iff in Hb as (i & <- & _).
  apply N.ltb_lt. change 255 with (N.ones 8). rewrite N.land_ones.
  apply N.mod_lt. discriminate.
Qed.

Lemma hash_latin1 (msg : list N) : latin1b (SHA256.hash msg) = true.
Proof.
  unfold SHA256.hash. induction (SHA256.blocks _ _ _) as [|w ws IH]; [reflexivity|].
  cbn [flat_map]. now rewrite latin1b_app, be_bytes_latin1.
Qed.

Lemma round_length (st : list N) (kw : N * N) :
  length st = 8%nat -> length (SHA256.round st kw) = 8%nat.
Proof.
  do 9 (destruct st as [|? st]; try discriminate). reflexivity.
Qed.

Lemma compress_length (h block : list N) :
  length h = 8%nat -> length (SHA256.compress h block) = 8%nat.
Proof.
  intros Hh. unfold SHA256.compress.
  rewrite length_map, length_combine.
  assert (H : forall kws st, length st = 8%nat ->
                             length (fold_left SHA256.round kws st) = 8%nat).
  { induction kws as [|kw kws IH]; intros st Hst; [assumption|].
    cbn [fold_left]. apply IH. now apply round_length. }
  rewrite H by assumption. rewrite Hh. reflexivity.
Qed.

Lemma blocks_length (n : nat) :
  forall h bs, length h = 8%nat -> length (SHA256.blocks n h bs) = 8%nat.
Proof.
  induction n as [|n IH]; intros h bs Hh; [assumption|].
  cbn [SHA256.blocks]. destruct bs; [assumption|].
  apply IH. now apply compress_length.
Qed.

(** A SHA-256 digest, and so an HMAC tag, has 32 bytes. *)
Lemma hash_length (msg : list N) : length (SHA256.hash msg) = 32%nat.
Proof.
  unfold SHA256.hash.
  pose proof (blocks_length (length (SHA256.pad msg)) SHA256.H0 (SHA256.pad msg) eq_refl) as H.
  destruct (SHA256.blocks _ _ _) as [|a ws]; [discriminate|].
  do 8 (destruct ws as [|? ws]; try discriminate). reflexivity.
Qed.

Lemma hmac_latin1 (key msg : list N) : latin1b (hmac_sha256 key msg) = true.
Proof. apply hash_latin1. Qed.

Lemma hmac_nonempty (key msg : list N) : hmac_sha256 key msg <> [].
Proof.
  unfold hmac_sha256. intros H.
  pose proof (hash_length (List.map (N.lxor 92) (hmac_block key)
     ++ SHA256.hash (List.map (N.lxor 54) (hmac_block key) ++ msg))) as L.
  rewrite H in L. discriminate.
Qed.

Lemma utf8_of_code_point_nonempty (p : N) : utf8_of_code_point p <> [].
Proof.
  unfold utf8_of_code_point.
  repeat match goal with |- context [if ?b then _ else _] => destruct b end;
    discriminate.
Qed.

Lemma utf8_encode_nonempty (s : jsstring) : s <> [] -> utf8_encode s <> [].
Proof.
  destruct s as [|c r]; [congruence|]. intros _. cbn [utf8_encode].
  assert (H : forall p t, utf8_of_code_point p ++ t <> []).
  { intros p t E. apply app_eq_nil in E as [E _].
    now apply utf8_of_code_point_nonempty in E. }
  repeat match goal with
         | |- context [if ?b then _ else _] => destruct b
         | |- context [match ?l with [] => _ | _ :: _ => _ end] => destruct l
         end; try apply H; apply utf8_of_code_point_nonempty.
Qed.

Lemma importKey_nonempty (raw : list N) : raw <> [] -> importKey raw = Ok raw.
Proof. destruct raw; [congruence|reflexivity]. Qed.

Lemma mod256_latin1 (s : list N) :
  latin1b s = true -> List.map (fun c => c mod 256) s = s.
Proof.
  induction s as [|c s IH]; [reflexivity|]. cbn. intros H.
  apply andb_true_iff in H as [Hc Hs]. apply N.ltb_lt in Hc.
  rewrite N.mod_small, IH by assumption. reflexivity.
Qed.

Lemma btoa_latin1 (s : jsstring) : latin1b s = true -> btoa s = Ok (b64_encode s).
Proof. unfold btoa. now intros ->. Qed.

Lemma atob_btoa (s : jsstring) :
  latin1b s = true -> atob (b64_encode s) = Ok s.
Proof. intros H. now apply atob_b64_encode, latin1b_spec. Qed.

Lemma absent_some (s : jsstring) : s <> [] -> absent (Some s) = false.
Proof. destruct s; [congruence|reflexivity]. Qed.

(** ** The codec *)

(** The token of a text [t] under [secret], with or without further
    segments. *)
Lemma decodeState_token (t secret : jsstring) (tail : option jsstring) :
  t <> [] -> latin1b t = true -> secret <> [] ->
  decodeState
    (b64_encode t ++ 46 ::
     b64_encode (hmac_sha256 (utf8_encode secret) (utf8_encode t))
     ++ match tail with Some x => 46 :: x | None => [] end)
    secret
  = try_catch (json_parse t) JNull.
Proof.
  intros Ht Hl Hs. unfold decodeState. cbv zeta.
  destruct (@split_token
              (b64_encode t)
              (b64_encode (hmac_sha256 (utf8_encode secret) (utf8_encode t)))
              tail (b64_encode_no_dot _) (b64_encode_no_dot _)) as [-> ->].
  rewrite !absent_some
    by (apply b64_encode_nonempty; (assumption || apply hmac_nonempty)).
  cbn [orb the].
  rewrite atob_btoa by assumption. cbn [bind].
  rewrite importKey_nonempty by now apply utf8_encode_nonempty. cbn [bind].
  rewrite atob_btoa by apply hmac_latin1. cbn [bind].
  rewrite mod256_latin1 by apply hmac_latin1.
  unfold subtle_verify. rewrite str_eqb_refl. reflexivity.
Qed.

Lemma encodeState_text (data : jsval) (t secret : jsstring) :
  stringify data = Ok (Some t) -> latin1b t = true -> secret <> [] ->
  encodeState data secret =
  Ok (b64_encode t ++ 46 ::
      b64_encode (hmac_sha256 (utf8_encode secret) (utf8_encode t))).
Proof.
  intros St Hl Hs. unfold encodeState. rewrite St. cbn [bind].
  rewrite importKey_nonempty by now apply utf8_encode_nonempty. cbn [bind].
  unfold subtle_sign. rewrite btoa_latin1 by apply hmac_latin1. cbn [bind].
  rewrite btoa_latin1 by assumption. reflexivity.
Qed.

(** Decoding undoes encoding on the payloads that are JSON values
    with Latin-1 strings, under a secret that is not empty; further
    segments after the token change nothing. *)
Theorem decode_encode (data : jsval) (secret : jsstring) :
  json_value data = true -> latin1_value data = true -> secret <> [] ->
  exists token,
    encodeState data secret = Ok token
    /\ decodeState token secret = Ok data
    /\ forall X, decodeState (token ++ js "." ++ X) secret = Ok data.
Proof.
  intros Hv Hl Hs.
  destruct (json_parse_stringify data Hv) as (t & St & Ht & Pt & Lt).
  specialize (Lt Hl).
  exists (b64_encode t ++ 46 ::
          b64_encode (hmac_sha256 (utf8_encode secret) (utf8_encode t))).
  split; [apply encodeState_text; assumption|].
  split.
  - pose proof (decodeState_token None Ht Lt Hs) as D.
    rewrite List.app_nil_r in D. rewrite D, Pt. reflexivity.
  - intros X. pose proof (decodeState_token (Some X) Ht Lt Hs) as D.
    change (js "." ++ X) with (46 :: X).
    rewrite <- app_assoc. cbn [app].
    rewrite D, Pt. reflexivity.
Qed.

(** ** Search parameters *)

Lemma sp_get_filter (k k' : jsstring) (l : list (jsstring * jsstring)) :
  k <> k' ->
  sp_get k' (filter (fun p => negb (str_eqb k (fst p))) l) = sp_get k' l.
Proof.
  intros Hk. induction l as [|[a v] l IH]; [reflexivity|].
  cbn [filter fst]. destruct (str_eqb k a) eqn:E; cbn [negb].
  - apply str_eqb_eq in E. subst a. unfold sp_get in *. cbn [assoc].
    assert (H : str_eqb k' k = false) by (apply str_eqb_neq; congruence).
    now rewrite H.
  - unfold sp_get in *. cbn [assoc]. now rewrite IH.
Qed.

Lemma sp_get_set_same (k v : jsstring) (l : list (jsstring * jsstring)) :
  sp_get k (sp_set k v l) = Some v.
Proof.
  unfold sp_get. induction l as [|[a w] l IH]; cbn.
  - now rewrite str_eqb_refl.
  - destruct (str_eqb k a) eqn:E; cbn; now rewrite E.
Qed.

Lemma sp_get_set_other (k k' v : jsstring) (l : list (jsstring * jsstring)) :
  k <> k' -> sp_get k' (sp_set k v l) = sp_get k' l.
Proof.
  intros Hk. assert (H : str_eqb k' k = false) by (apply str_eqb_neq; congruence).
  induction l as [|[a w] l IH]; unfold sp_get in *; cbn.
  - now rewrite H.
  - destruct (str_eqb k a) eqn:E; cbn.
    + apply str_eqb_eq in E. subst a. rewrite H.
      now apply (sp_get_filter (k := k) (k' := k')).
    + now rewrite IH.
Qed.

(** ** The handlers *)

Lemma latin1b_wf (s : jsstring) : latin1b s = true -> wf_stringb s = true.
Proof.
  apply forallb_impl. intros c H. apply N.ltb_lt in H. apply N.ltb_lt. lia.
Qed.

Lemma absent_the (x : option jsstring) :
  absent x = false -> exists s, x = Some s /\ s <> [] /\ the x = s.
Proof.
  destruct x as [[|c s]|]; try discriminate. intros _.
  eexists; repeat split; discriminate.
Qed.

(** The wrapped code of a Latin-1 code decodes to that code. *)
Lemma wrapped_code (code secret : jsstring) :
  latin1b code = true -> secret <> [] ->
  exists W,
    encodeState (JObj [(js "strava_code", JStr code)]) secret = Ok W
    /\ decodeState W secret = Ok (JObj [(js "strava_code", JStr code)]).
Proof.
  intros Hc Hs.
  destruct (@decode_encode (JObj [(js "strava_code", JStr code)]) secret)
    as (W & HE & HD & _); [| |assumption|eauto].
  - cbn [json_value forallb fst snd List.map]. rewrite (latin1b_wf _ Hc). reflexivity.
  - cbn [latin1_value forallb fst snd]. rewrite Hc. reflexivity.
Qed.

(** The state of an authorize request with Latin-1 parameters decodes
    to the payload the handler signed. *)
Lemma authorize_state (R X secret : jsstring) (now : Z) :
  latin1b R = true -> latin1b X = true -> safe_int now = true -> secret <> [] ->
  let payload := JObj [ (js "redirect_uri", JStr R); (js "client_state", JStr X);
                        (js "timestamp", JNum now) ] in
  exists S,
    encodeState payload secret = Ok S /\ decodeState S secret = Ok payload.
Proof.
  intros HR HX Hn Hs payload.
  destruct (@decode_encode payload secret) as (S & HE & HD & _);
    [| |assumption|eauto].
  - cbn [payload json_value forallb fst snd List.map].
    rewrite (latin1b_wf _ HR), (latin1b_wf _ HX), Hn. reflexivity.
  - cbn [payload latin1_value forallb fst snd]. rewrite HR, HX. reflexivity.
Qed.

Lemma decodeState_empty_state (secret : jsstring) : decodeState [] secret = Ok JNull.
Proof. reflexivity. Qed.

(** A state that decodes to an object is not empty. *)
Lemma decoded_nonempty (state secret : jsstring) (fields : list (jsstring * jsval)) :
  decodeState state secret = Ok (JObj fields) -> state <> [].
Proof.
  intros H ->. rewrite decodeState_empty_state in H. discriminate.
Qed.

(** The callback on a request without upstream error, with a code and
    a state that decodes to an object: the expiry check, then the
    delivery. *)
Lemma callback_checked (P : Platform) (e : Env) (now : Z) (r : Request)
  (ss code state : jsstring) (fields : list (jsstring * jsval)) :
  OAUTH_STATE_SECRET e = Some ss -> ss <> [] ->
  absent (query r (js "error")) = true ->
  query r (js "code") = Some code -> code <> [] ->
  query r (js "state") = Some state ->
  decodeState state ss = Ok (JObj fields) ->
  callback P e now r =
  (let timestamp :=
     match assoc (js "timestamp") fields with Some x => x | None => JUndef end in
   expired <- (if truthy timestamp then older_than_ten_minutes now timestamp
               else Ok false) ;;
   if expired then Ok (RespJson 400 (error_body "State expired"))
   else deliver P (JObj fields) code ss).
Proof.
  intros Hss Hs Herr Hcode Hc Hstate Hdec.
  pose proof (@decoded_nonempty _ _ _ Hdec) as Hst.
  unfold callback. cbv zeta.
  rewrite Hss, Herr, Hcode, Hstate.
  rewrite !absent_some by assumption.
  cbn [negb orb the]. rewrite Hdec. reflexivity.
Qed.

Lemma deliver_not_error (P : Platform) (d : jsval) (code ss : jsstring) (b : jsval) :
  deliver P d code ss <> Ok (RespJson 400 b).
Proof.
  unfold deliver.
  destruct (encodeState _ _); cbn [bind]; try discriminate.
  destruct (get_prop d _); cbn [bind]; try discriminate.
  destruct (truthy _); [|discriminate].
  destruct (new_URL _ _); cbn [bind]; try discriminate.
  destruct (get_prop d _); cbn [bind]; try discriminate.
  destruct (truthy _); [|discriminate].
  destruct (url_set_val _ _ _); cbn [bind]; discriminate.
Qed.

(** C3. Expiry boundary at the callback, for a request without
    upstream error, with a code and a validly signed Authorize State.
    A timestamp of [now - 10*60*1000 - 1] that is not 0 is rejected
    with the state-expired error of status 400.  A timestamp of
    [now - 9*60*1000] is accepted, and a code within U+00FF is
    wrapped: the answer carries a code [W] that decodes under the
    state secret to [{ strava_code: code }], in a redirect to the
    [redirect_uri] of the state when the URL parser accepts it (with
    the [client_state] of the state when that is not empty), and in a
    JSON body of status 200 when the state has no [redirect_uri] or an
    empty one. *)
Theorem C3_expiry_boundary (P : Platform) (e : Env) (now : Z) (r : Request)
  (ss code state : jsstring) (fields : list (jsstring * jsval)) :
  OAUTH_STATE_SECRET e = Some ss -> ss <> [] ->
  absent (query r (js "error")) = true ->
  query r (js "code") = Some code -> code <> [] ->
  query r (js "state") = Some state ->
  decodeState state ss = Ok (JObj fields) ->
  (assoc (js "timestamp") fields = Some (JNum (now - 10 * 60 * 1000 - 1)) ->
   (now - 10 * 60 * 1000 - 1 <> 0)%Z ->
   callback P e now r = Ok (RespJson 400 (error_body "State expired")))
  /\ (assoc (js "timestamp") fields = Some (JNum (now - 9 * 60 * 1000)) ->
      latin1b code = true ->
      exists W,
        encodeState (JObj [(js "strava_code", JStr code)]) ss = Ok W
        /\ decodeState W ss = Ok (JObj [(js "strava_code", JStr code)])
        /\ (forall R u,
              assoc (js "redirect_uri") fields = Some (JStr R) -> R <> [] ->
              URL_parse P R = Some u ->
              (forall X,
                 assoc (js "client_state") fields = Some (JStr X) -> X <> [] ->
                 callback P e now r
                 = Ok (RespRedirect
                         (url_set (js "state") X (url_set (js "code") W u))))
              /\ (truthy (match assoc (js "client_state") fields with
                          | Some x => x
                          | None => JUndef
                          end) = false ->
                  callback P e now r
                  = Ok (RespRedirect (url_set (js "code") W u))))
        /\ (truthy (match assoc (js "redirect_uri") fields with
                    | Some x => x
                    | None => JUndef
                    end) = false ->
            callback P e now r = Ok (RespJson 200 (obj1 "code" (JStr W))))).
Proof.
  intros Hss Hs Herr Hcode Hc Hstate Hdec.
  rewrite (callback_checked P e now r Hss Hs Herr Hcode Hc Hstate Hdec).
  split; intros Hts.
  - intros Hnz. rewrite Hts. cbv zeta. cbn [truthy].
    apply Z.eqb_neq in Hnz. rewrite Hnz. cbn [negb older_than_ten_minutes bind].
    replace (10 * 60 * 1000 <? now - (now - 10 * 60 * 1000 - 1))%Z with true
      by (symmetry; apply Z.ltb_lt; lia).
    reflexivity.
  - intros Lc. rewrite Hts. cbv zeta. cbn [truthy].
    assert (E : (if negb (now - 9 * 60 * 1000 =? 0)%Z
                 then older_than_ten_minutes now (JNum (now - 9 * 60 * 1000))
                 else Ok false) = Ok false).
    { destruct (negb _); [|reflexivity]. cbn [older_than_ten_minutes].
      f_equal. apply Z.ltb_ge. lia. }
    rewrite E. cbn [bind].
    destruct (@wrapped_code code ss Lc Hs) as (W & HW & HD).
    exists W. split; [exact HW|]. split; [exact HD|].
    unfold deliver. rewrite HW. cbn [bind get_prop]. split.
    + intros R u HR HRne Hu. rewrite HR.
      destruct R as [|c R]; [congruence|]. cbn [truthy new_URL].
      rewrite Hu. cbn [bind]. split.
      * intros X HX HXne. rewrite HX.
        destruct X as [|c' X]; [congruence|]. reflexivity.
      * intros HX. rewrite HX. reflexivity.
    + intros HR. rewrite HR. reflexivity.
Qed.

(** C4. A callback request without upstream error that
    carries a validly signed Authorize State whose timestamp is not 0
    and more than ten minutes old is answered with the state-expired
    error of status 400 when the code is present; when the code is
    absent the answer is the missing-code-or-state error of status
    400, since the handler checks the parameters before it decodes the
    state. *)
Theorem C4_expired_state (P : Platform) (e : Env) (now : Z) (r : Request)
  (ss state : jsstring) (fields : list (jsstring * jsval)) (ts : Z) :
  OAUTH_STATE_SECRET e = Some ss -> ss <> [] ->
  absent (query r (js "error")) = true ->
  query r (js "state") = Some state ->
  decodeState state ss = Ok (JObj fields) ->
  assoc (js "timestamp") fields = Some (JNum ts) ->
  ts <> 0%Z -> (10 * 60 * 1000 < now - ts)%Z ->
  (forall code, query r (js "code") = Some code -> code <> [] ->
     callback P e now r = Ok (RespJson 400 (error_body "State expired")))
  /\ (absent (query r (js "code")) = true ->
      callback P e now r = Ok (RespJson 400 (error_body "Missing code or state"))).
Proof.
  intros Hss Hs Herr Hstate Hdec Hts Hnz Hold. split.
  - intros code Hcode Hc.
    rewrite (callback_checked P e now r Hss Hs Herr Hcode Hc Hstate Hdec).
    rewrite Hts. cbv zeta. cbn [truthy].
    apply Z.eqb_neq in Hnz. rewrite Hnz. cbn [negb older_than_ten_minutes bind].
    apply Z.ltb_lt in Hold. rewrite Hold. reflexivity.
  - intros Hcode. unfold callback. cbv zeta. rewrite Hss, Herr, Hcode.
    rewrite absent_some by assumption. reflexivity.
Qed.

(** The callback on a request with an upstream error. *)
Lemma callback_error (P : Platform) (e : Env) (now : Z) (r : Request)
  (ss err : jsstring) :
  OAUTH_STATE_SECRET e = Some ss -> ss <> [] ->
  query r (js "error") = Some err -> err <> [] ->
  callback P e now r =
  report_error P err (or_else (query r (js "error_description")) err)
    (query r (js "state")) ss.
Proof.
  intros Hss Hs Herr He. unfold callback. cbv zeta.
  rewrite Hss, Herr. rewrite !absent_some by assumption. reflexivity.
Qed.

Lemma report_error_not_expired (P : Platform) (err desc : jsstring)
  (state : option jsstring) (ss : jsstring) :
  report_error P err desc state ss <> Ok (RespJson 400 (error_body "State expired")).
Proof.
  unfold report_error.
  destruct (if negb (absent state) then _ else _) as [[resp|]| |] eqn:E;
    cbn [bind]; try discriminate.
  destruct (negb (absent state)); [|discriminate].
  destruct (decodeState _ ss) as [data| |]; cbn [bind] in E; try discriminate.
  destruct (truthy _); [|discriminate].
  destruct (new_URL P _); cbn [bind] in E; try discriminate.
  destruct (get_prop data _); cbn [bind] in E; try discriminate.
  destruct (truthy _); cbn [bind] in E.
  - destruct (url_set_val _ _ _); cbn [bind] in E; try discriminate.
    injection E as <-. discriminate.
  - injection E as <-. discriminate.
Qed.

(** C8. A validly signed Authorize State whose payload has no
    timestamp, or the timestamp 0, passes the callback at any time:
    the expiry check is skipped, so that no request with this state is
    answered with the state-expired error, and a request with a code
    and without upstream error goes on to the wrapping of the code. *)
Theorem C8_no_timestamp (P : Platform) (e : Env) (now : Z) (r : Request)
  (ss state : jsstring) (fields : list (jsstring * jsval)) :
  OAUTH_STATE_SECRET e = Some ss -> ss <> [] ->
  query r (js "state") = Some state ->
  decodeState state ss = Ok (JObj fields) ->
  assoc (js "timestamp") fields = None
  \/ assoc (js "timestamp") fields = Some (JNum 0) ->
  callback P e now r <> Ok (RespJson 400 (error_body "State expired"))
  /\ forall code,
       absent (query r (js "error")) = true ->
       query r (js "code") = Some code -> code <> [] ->
       callback P e now r = deliver P (JObj fields) code ss.
Proof.
  intros Hss Hs Hstate Hdec Hts.
  assert (E : truthy (match assoc (js "timestamp") fields with
                      | Some x => x
                      | None => JUndef
                      end) = false)
    by (destruct Hts as [-> | ->]; reflexivity).
  assert (Hdel : forall code,
             absent (query r (js "error")) = true ->
             query r (js "code") = Some code -> code <> [] ->
             callback P e now r = deliver P (JObj fields) code ss).
  { intros code Herr Hcode Hc.
    rewrite (callback_checked P e now r Hss Hs Herr Hcode Hc Hstate Hdec).
    cbv zeta. rewrite E. reflexivity. }
  split; [|exact Hdel].
  destruct (absent (query r (js "error"))) eqn:Herr.
  - destruct (query r (js "code")) as [[|c code]|] eqn:Hcode.
    + unfold callback. cbv zeta. rewrite Hss, Herr, Hcode.
      rewrite absent_some by assumption. discriminate.
    + rewrite (Hdel (c :: code) eq_refl eq_refl) by discriminate.
      apply deliver_not_error.
    + unfold callback. cbv zeta. rewrite Hss, Herr, Hcode.
      rewrite absent_some by assumption. discriminate.
  - destruct (absent_the _ Herr) as (err & Hq & Hne & _).
    rewrite (callback_error P e now r Hss Hs Hq Hne).
    apply report_error_not_expired.
Qed.

(** C7. On an upstream error the callback still decodes the state:
    when the state decodes to a payload whose [redirect_uri] is a
    string, not empty, that the URL parser accepts, the answer is a
    redirect to it that carries the error, and the client state when
    the payload has one; the error is answered in a body of status 400
    only when there is no state or the decoded state gives no
    [redirect_uri]. *)
Theorem C7_error_redirect (P : Platform) (e : Env) (now : Z) (r : Request)
  (ss err : jsstring) :
  OAUTH_STATE_SECRET e = Some ss -> ss <> [] ->
  query r (js "error") = Some err -> err <> [] ->
  (forall state fields uri u,
     query r (js "state") = Some state ->
     decodeState state ss = Ok (JObj fields) ->
     assoc (js "redirect_uri") fields = Some (JStr uri) -> uri <> [] ->
     URL_parse P uri = Some u ->
     (forall cs, assoc (js "client_state") fields = Some (JStr cs) -> cs <> [] ->
        callback P e now r =
        Ok (RespRedirect (url_set (js "state") cs (url_set (js "error") err u))))
     /\ (truthy (match assoc (js "client_state") fields with
                 | Some x => x
                 | None => JUndef
                 end) = false ->
         callback P e now r = Ok (RespRedirect (url_set (js "error") err u))))
  /\ (forall body,
        callback P e now r = Ok (RespJson 400 body) ->
        absent (query r (js "state")) = true
        \/ exists data,
             decodeState (the (query r (js "state"))) ss = Ok data
             /\ truthy (get_prop_opt data (js "redirect_uri")) = false).
Proof.
  intros Hss Hs Herr He.
  rewrite (callback_error P e now r Hss Hs Herr He).
  split.
  - intros state fields uri u Hstate Hdec Huri Hu Hparse.
    pose proof (@decoded_nonempty _ _ _ Hdec) as Hst.
    unfold report_error. rewrite Hstate.
    rewrite absent_some by assumption. cbn [negb the].
    rewrite Hdec. cbn [bind]. unfold get_prop_opt. cbn [get_prop].
    rewrite Huri. cbn [truthy].
    destruct uri as [|c uri]; [congruence|].
    cbn [new_URL]. rewrite Hparse. cbn [bind].
    split.
    + intros cs Hcs Hne. rewrite Hcs. cbn [truthy].
      destruct cs as [|c' cs]; [congruence|]. reflexivity.
    + intros Hf. rewrite Hf. reflexivity.
  - intros body H. unfold report_error in H.
    destruct (absent (query r (js "state"))) eqn:Hab; [now left|right].
    cbn [negb] in H.
    destruct (decodeState _ ss) as [data| |] eqn:Hdec; cbn [bind] in H;
      try discriminate.
    exists data. split; [reflexivity|].
    destruct (truthy (get_prop_opt data (js "redirect_uri"))); [|reflexivity].
    exfalso.
    destruct (new_URL P _); cbn [bind] in H; try discriminate.
    destruct (get_prop data _); cbn [bind] in H; try discriminate.
    destruct (truthy _); cbn [bind] in H; try discriminate.
    destruct (url_set_val _ _ _); cbn [bind] in H; discriminate.
Qed.

(** C5. Each OAuth endpoint answers with the configuration
    error of status 500 when a secret it reads is absent: the token
    endpoint for any of the three secrets, the authorize endpoint for
    the client id and the state secret, the callback for the state
    secret.  The registration endpoint reads no secret and answers the
    same under every configuration, and so do the health and metadata
    endpoints, with status 200. *)
Theorem C5_configuration (P : Platform)
  (fetch : jsstring -> list (jsstring * jsstring) -> outcome FetchResponse)
  (e : Env) (now : Z) (uuid : jsstring) (r : Request) :
  (absent (STRAVA_CLIENT_ID e) || absent (STRAVA_CLIENT_SECRET e)
   || absent (OAUTH_STATE_SECRET e) = true ->
   app_fetch P fetch RToken e now uuid r =
   Ok (RespJson 500
         (JObj [ (js "error", JStr (js "server_error"));
                 (js "error_description", JStr (js "OAuth not configured")) ])))
  /\ (absent (STRAVA_CLIENT_ID e) || absent (OAUTH_STATE_SECRET e) = true ->
      app_fetch P fetch RAuthorize e now uuid r =
      Ok (RespJson 500 (error_body "OAuth not configured")))
  /\ (absent (OAUTH_STATE_SECRET e) = true ->
      app_fetch P fetch RCallback e now uuid r =
      Ok (RespJson 500 (error_body "OAuth not configured")))
  /\ (forall e', app_fetch P fetch RRegister e now uuid r
                 = app_fetch P fetch RRegister e' now uuid r)
  /\ (forall rt,
        In rt [RHealth; RProtectedResource; RProtectedResourceMcp;
               RAuthorizationServer] ->
        exists resp, app_fetch P fetch rt e now uuid r = Ok resp
                     /\ status_of resp = 200%Z).
Proof.
  repeat split.
  - intros H. cbn [app_fetch]. unfold token. cbv zeta. now rewrite H.
  - intros H. cbn [app_fetch]. unfold authorize. cbv zeta. now rewrite H.
  - intros H. cbn [app_fetch]. unfold callback. cbv zeta. now rewrite H.
  - intros rt [<-|[<-|[<-|[<-|[]]]]]; cbn [app_fetch]; eexists; split; reflexivity.
Qed.

Lemma replace_first_absent (p r s : jsstring) :
  p <> [] -> includes p s = false -> replace_first p r s = s.
Proof.
  intros Hp. induction s as [|c s IH]; cbn [includes replace_first]; intros H.
  - apply orb_false_iff in H as [H _]. now rewrite H.
  - apply orb_false_iff in H as [H1 H2]. rewrite H1, IH by assumption. reflexivity.
Qed.

(** C9. [POST /mcp] answers 401 exactly when the [Authorization]
    header is absent or is empty once the first occurrence of
    "Bearer " is removed.  Every other header is accepted, and what
    is left of it is the credential handed on: a header without
    "Bearer ", such as "Basic xyz", is handed on as it is. *)
Theorem C9_bearer_guard (r : Request) :
  let token :=
    match header r (js "authorization") with
    | Some h => Some (replace_first (js "Bearer ") [] h)
    | None => None
    end in
  ((exists resp, mcp r = Ok resp /\ status_of resp = 401%Z)
   <-> header r (js "authorization") = None \/ token = Some [])
  /\ (forall t, token = Some t -> t <> [] -> mcp r = Ok (RespTransport t))
  /\ (forall h, header r (js "authorization") = Some h -> h <> [] ->
        includes (js "Bearer ") h = false -> mcp r = Ok (RespTransport h)).
Proof.
  intros token. unfold mcp. cbv zeta. fold token.
  assert (Hcases : (header r (js "authorization") = None \/ token = Some [])
                   \/ exists t, token = Some t /\ t <> []).
  { subst token. destruct (header r (js "authorization")) as [h|]; [|now left; left].
    destruct (replace_first (js "Bearer ") [] h) as [|c t] eqn:E.
    - left; right. reflexivity.
    - right. eexists; split; [reflexivity|discriminate]. }
  split; [|split].
  - split.
    + intros (resp & H & Hst).
      destruct Hcases as [Hc|(t & Ht & Hne)]; [assumption|].
      rewrite Ht, absent_some in H by assumption.
      injection H as <-. discriminate.
    + intros [Hn|Ht].
      * subst token. rewrite Hn. eexists; split; reflexivity.
      * rewrite Ht. eexists; split; reflexivity.
  - intros t Ht Hne. rewrite Ht, absent_some by assumption. reflexivity.
  - intros h Hh Hne Hinc. subst token. rewrite Hh.
    rewrite replace_first_absent by (assumption || discriminate).
    rewrite absent_some by assumption. reflexivity.
Qed.

(** ** The token endpoint *)

Lemma token_result_ok (failure : string) (resp : FetchResponse)
  (tokenData err : jsval) :
  fetch_ok resp = true ->
  json_parse (fetch_body resp) = Ok tokenData ->
  get_prop tokenData (js "error") = Ok err -> truthy err = false ->
  token_result failure resp =
  Ok (RespJson 200
        (JObj [ (js "access_token", get_prop_opt tokenData (js "access_token"));
                (js "token_type",
                 if truthy (get_prop_opt tokenData (js "token_type"))
                 then get_prop_opt tokenData (js "token_type")
                 else JStr (js "Bearer"));
                (js "expires_in", get_prop_opt tokenData (js "expires_in"));
                (js "refresh_token", get_prop_opt tokenData (js "refresh_token"));
                (js "scope", JStr STRAVA_SCOPES) ])).
Proof.
  intros Hok Hjson Herr Hf. unfold token_result.
  rewrite Hok, Hjson. cbn [negb bind]. rewrite Herr. cbn [bind]. now rewrite Hf.
Qed.

Lemma token_result_scope (failure : string) (resp : FetchResponse) (out : response) :
  token_result failure resp = Ok out -> status_of out = 200%Z ->
  exists body, out = RespJson 200 body
               /\ get_prop body (js "scope") = Ok (JStr STRAVA_SCOPES).
Proof.
  unfold token_result. intros H Hst.
  destruct (fetch_ok resp); cbn [negb] in H;
    [|injection H as <-; discriminate].
  destruct (json_parse _) as [td| |]; cbn [bind] in H; try discriminate.
  destruct (get_prop td _) as [err| |]; cbn [bind] in H; try discriminate.
  destruct (truthy err); injection H as <-; [discriminate|].
  eexists; split; reflexivity.
Qed.

(** C6. Every answer of status 200 of the token endpoint, for either
    grant type and whatever the upstream reports, has the fixed scope
    string of the server in its [scope] field. *)
Theorem C6_fixed_scope (P : Platform)
  (fetch : jsstring -> list (jsstring * jsstring) -> outcome FetchResponse)
  (e : Env) (r : Request) (out : response) :
  token P fetch e r = Ok out -> status_of out = 200%Z ->
  exists body, out = RespJson 200 body
               /\ get_prop body (js "scope") = Ok (JStr STRAVA_SCOPES).
Proof.
  unfold token. cbv zeta. intros H Hst.
  destruct (absent _ || absent _ || absent _);
    [injection H as <-; discriminate|].
  destruct (token_params P r) as [params| |]; cbn [bind] in H; try discriminate.
  destruct (match sp_get (js "grant_type") params with
            | Some g => str_eqb g (js "refresh_token")
            | None => false
            end).
  - destruct (absent _); [injection H as <-; discriminate|].
    destruct (params_of_record P _); cbn [bind] in H; try discriminate.
    destruct (fetch _ _); cbn [bind] in H; try discriminate.
    eapply token_result_scope; eassumption.
  - destruct (negb _); [injection H as <-; discriminate|].
    destruct (absent _); [injection H as <-; discriminate|].
    destruct (decodeState _ _) as [cd| |]; cbn [bind] in H; try discriminate.
    destruct (negb (truthy cd)); [injection H as <-; discriminate|].
    destruct (get_prop cd _); cbn [bind] in H; try discriminate.
    destruct (params_of_record P _); cbn [bind] in H; try discriminate.
    destruct (fetch _ _); cbn [bind] in H; try discriminate.
    eapply token_result_scope; eassumption.
Qed.

(** ** Tokens *)

(** What a token is when the encoder returns one. *)
Lemma encodeState_inv (data : jsval) (secret token : jsstring) :
  json_value data = true -> encodeState data secret = Ok token ->
  exists t,
    t <> [] /\ json_parse t = Ok data /\ latin1b t = true /\ secret <> []
    /\ token = b64_encode t ++ 46 ::
               b64_encode (hmac_sha256 (utf8_encode secret) (utf8_encode t)).
Proof.
  intros Hv H.
  destruct (json_parse_stringify data Hv) as (t & St & Ht & Pt & _).
  exists t. unfold encodeState in H. rewrite St in H. cbn [bind] in H.
  assert (Hs : secret <> []).
  { intros ->. cbn [utf8_encode importKey bind] in H. discriminate. }
  rewrite importKey_nonempty in H by now apply utf8_encode_nonempty.
  cbn [bind] in H. unfold subtle_sign in H.
  rewrite btoa_latin1 in H by apply hmac_latin1. cbn [bind] in H.
  unfold btoa in H. destruct (latin1b t) eqn:Hl; [|discriminate].
  cbn [bind] in H. apply (f_equal token_of) in H. cbn [token_of] in H.
  subst token. auto.
Qed.

Lemma encodeState_non_latin1 (data : jsval) (t secret : jsstring) :
  stringify data = Ok (Some t) -> latin1b t = false -> secret <> [] ->
  encodeState data secret = Throw.
Proof.
  intros St Hl Hs. unfold encodeState. rewrite St. cbn [bind].
  rewrite importKey_nonempty by now apply utf8_encode_nonempty. cbn [bind].
  unfold subtle_sign. rewrite btoa_latin1 by apply hmac_latin1. cbn [bind].
  unfold btoa. now rewrite Hl.
Qed.

(** C2. The payload of an authorize request whose [state] parameter
    has characters beyond U+00FF is a JSON object, and [encodeState]
    throws on it ([btoa] rejects the JSON text): there is no token to
    decode, so the round trip of the codec fails for this payload. *)
Theorem C2_encode_throws :
  json_value C2_payload = true
  /\ encodeState C2_payload (js "state-secret") = Throw
  /\ authorize sample_env sample_now
       (get_request [ (js "redirect_uri", sample_redirect_uri);
                      (js "state", [26085; 26412]) ]) = Throw.
Proof. split; [|split]; vm_compute; reflexivity. Qed.

(** C10. [decodeState] reads the first two segments of a token only.
    For a JSON payload whose JSON text is within U+00FF and a secret
    that is not empty, [encodeState] returns a token, and whatever
    follows that token after a further ".", the payload is decoded
    all the same; and so it is for every token that [encodeState]
    returns for a JSON payload. *)
Theorem C10_extra_segments (payload : jsval) (t secret : jsstring) :
  json_value payload = true ->
  stringify payload = Ok (Some t) ->
  (latin1b t = true -> secret <> [] ->
   exists token,
     encodeState payload secret = Ok token
     /\ forall X, decodeState (token ++ js "." ++ X) secret = Ok payload)
  /\ (forall token X,
        encodeState payload secret = Ok token ->
        decodeState (token ++ js "." ++ X) secret = Ok payload).
Proof.
  intros Hv St.
  assert (G : forall token X,
             encodeState payload secret = Ok token ->
             decodeState (token ++ js "." ++ X) secret = Ok payload).
  { intros token X H.
    destruct (encodeState_inv _ _ Hv H) as (t' & Ht & Pt & Lt & Hs & ->).
    pose proof (decodeState_token (Some X) Ht Lt Hs) as D.
    change (js "." ++ X) with (46 :: X).
    rewrite <- app_assoc. cbn [app]. rewrite D, Pt. reflexivity. }
  split; [|exact G].
  intros Lt Hs.
  exists (b64_encode t ++ 46 ::
          b64_encode (hmac_sha256 (utf8_encode secret) (utf8_encode t))).
  assert (E := encodeState_text payload St Lt Hs).
  split; [exact E|]. intros X. apply G. exact E.
Qed.

(** ** The delegation round trip *)

Lemma authorize_redirect (e : Env) (now : Z) (r : Request)
  (cid ss R X S : jsstring) :
  STRAVA_CLIENT_ID e = Some cid -> cid <> [] ->
  OAUTH_STATE_SECRET e = Some ss -> ss <> [] ->
  query r (js "redirect_uri") = Some R -> query r (js "state") = Some X ->
  encodeState (JObj [ (js "redirect_uri", JStr R); (js "client_state", JStr X);
                      (js "timestamp", JNum now) ]) ss = Ok S ->
  exists authUrl,
    authorize e now r = Ok (RespRedirect authUrl)
    /\ url_base authUrl = STRAVA_AUTHORIZE_URL
    /\ sp_get (js "state") (searchParams authUrl) = Some S.
Proof.
  intros Hcid Hc Hss Hs HR HX HS. unfold authorize. cbv zeta.
  rewrite Hcid, Hss, HR, HX. rewrite !absent_some by assumption.
  cbn [orb the opt_str]. rewrite HS. cbn [bind].
  eexists. split; [reflexivity|]. split; reflexivity.
Qed.

Lemma deliver_redirect (P : Platform) (fields : list (jsstring * jsval))
  (code ss R X W : jsstring) (u : URL) :
  encodeState (JObj [(js "strava_code", JStr code)]) ss = Ok W ->
  assoc (js "redirect_uri") fields = Some (JStr R) -> R <> [] ->
  URL_parse P R = Some u ->
  assoc (js "client_state") fields = Some (JStr X) -> X <> [] ->
  deliver P (JObj fields) code ss =
  Ok (RespRedirect (url_set (js "state") X (url_set (js "code") W u))).
Proof.
  intros HW HR HRne Hu HX HXne. unfold deliver. rewrite HW. cbn [bind get_prop].
  rewrite HR. destruct R as [|c R]; [congruence|]. cbn [truthy new_URL].
  rewrite Hu. cbn [bind]. rewrite HX.
  destruct X as [|c' X]; [congruence|]. reflexivity.
Qed.

Lemma token_authorization_code (P : Platform)
  (fetch : jsstring -> list (jsstring * jsstring) -> outcome FetchResponse)
  (e : Env) (r : Request) (cid cs ss W : jsstring)
  (params body : list (jsstring * jsstring)) (codeData strava_code : jsval)
  (resp : FetchResponse) :
  STRAVA_CLIENT_ID e = Some cid -> cid <> [] ->
  STRAVA_CLIENT_SECRET e = Some cs -> cs <> [] ->
  OAUTH_STATE_SECRET e = Some ss -> ss <> [] ->
  token_params P r = Ok params ->
  sp_get (js "grant_type") params = Some (js "authorization_code") ->
  sp_get (js "code") params = Some W -> W <> [] ->
  decodeState W ss = Ok codeData -> truthy codeData = true ->
  get_prop codeData (js "strava_code") = Ok strava_code ->
  params_of_record P
    (JObj [ (js "client_id", JStr cid); (js "client_secret", JStr cs);
            (js "code", strava_code);
            (js "grant_type", JStr (js "authorization_code")) ]) = Ok body ->
  fetch STRAVA_TOKEN_URL body = Ok resp ->
  token P fetch e r = token_result "Token exchange failed" resp.
Proof.
  intros Hcid Hc Hcs Hcsn Hss Hs Hp Hg Hcode HW Hdec Ht Hsc Hbody Hf.
  unfold token. cbv zeta. rewrite Hcid, Hcs, Hss.
  rewrite !absent_some by assumption. cbn [orb the].
  rewrite Hp. cbn [bind]. rewrite Hg, Hcode.
  rewrite absent_some by assumption.
  replace (str_eqb (js "authorization_code") (js "refresh_token")) with false
    by reflexivity.
  rewrite str_eqb_refl. cbn [negb the]. rewrite Hdec. cbn [bind].
  rewrite Ht. cbn [negb]. rewrite Hsc. cbn [bind]. rewrite Hbody. cbn [bind].
  rewrite Hf. reflexivity.
Qed.

(** C1. The delegation round trip, for a configured server,
    a redirect URI [R] the URL parser accepts and a client state [X]
    that is not empty, [R], [X] and the upstream code [C] in the
    Latin-1 range: [/oauth/authorize] answers with a redirect whose
    target carries a signed state [S]; a callback with the code [C]
    and that state within ten minutes answers with a redirect to [R]
    that carries [state=X] and a code [W] which decodes under the
    state secret to [{ strava_code: C }]; and a token request with
    [grant_type=authorization_code] and [W], the upstream exchange of
    [C] answering with success, is answered with status 200, the
    upstream's [access_token], [token_type], [expires_in] and
    [refresh_token] and the fixed scope. *)
Theorem C1_round_trip (P : Platform)
  (fetch : jsstring -> list (jsstring * jsstring) -> outcome FetchResponse)
  (e : Env) (t0 : Z) (rA : Request) (cid cs ss R X : jsstring) (u : URL) :
  STRAVA_CLIENT_ID e = Some cid -> cid <> [] ->
  STRAVA_CLIENT_SECRET e = Some cs -> cs <> [] ->
  OAUTH_STATE_SECRET e = Some ss -> ss <> [] ->
  query rA (js "redirect_uri") = Some R -> R <> [] -> latin1b R = true ->
  URL_parse P R = Some u ->
  query rA (js "state") = Some X -> X <> [] -> latin1b X = true ->
  safe_int t0 = true ->
  exists authUrl S,
    authorize e t0 rA = Ok (RespRedirect authUrl)
    /\ sp_get (js "state") (searchParams authUrl) = Some S
    /\ forall (rC : Request) (C : jsstring) (t1 : Z),
         absent (query rC (js "error")) = true ->
         query rC (js "code") = Some C -> C <> [] -> latin1b C = true ->
         query rC (js "state") = Some S ->
         (t1 - t0 <= 10 * 60 * 1000)%Z ->
         exists W,
           callback P e t1 rC =
           Ok (RespRedirect (url_set (js "state") X (url_set (js "code") W u)))
           /\ sp_get (js "code")
                (searchParams (url_set (js "state") X (url_set (js "code") W u)))
              = Some W
           /\ sp_get (js "state")
                (searchParams (url_set (js "state") X (url_set (js "code") W u)))
              = Some X
           /\ decodeState W ss = Ok (JObj [(js "strava_code", JStr C)])
           /\ forall (rT : Request) (params body : list (jsstring * jsstring))
                     (resp : FetchResponse) (tokenData err : jsval),
                token_params P rT = Ok params ->
                sp_get (js "grant_type") params = Some (js "authorization_code") ->
                sp_get (js "code") params = Some W ->
                params_of_record P
                  (JObj [ (js "client_id", JStr cid); (js "client_secret", JStr cs);
                          (js "code", JStr C);
                          (js "grant_type", JStr (js "authorization_code")) ])
                = Ok body ->
                fetch STRAVA_TOKEN_URL body = Ok resp ->
                fetch_ok resp = true ->
                json_parse (fetch_body resp) = Ok tokenData ->
                get_prop tokenData (js "error") = Ok err -> truthy err = false ->
                token P fetch e rT =
                Ok (RespJson 200
                      (JObj [ (js "access_token",
                               get_prop_opt tokenData (js "access_token"));
                              (js "token_type",
                               if truthy (get_prop_opt tokenData (js "token_type"))
                               then get_prop_opt tokenData (js "token_type")
                               else JStr (js "Bearer"));
                              (js "expires_in",
                               get_prop_opt tokenData (js "expires_in"));
                              (js "refresh_token",
                               get_prop_opt tokenData (js "refresh_token"));
                              (js "scope", JStr STRAVA_SCOPES) ])).
Proof.
  intros Hcid Hc Hcs Hcsn Hss Hs HR HRne HRl Hu HX HXne HXl Ht0.
  destruct (@authorize_state R X ss t0 HRl HXl Ht0 Hs) as (S & HS & HdS).
  destruct (authorize_redirect e t0 rA Hcid Hc Hss Hs HR HX HS)
    as (authUrl & HA & _ & HAS).
  exists authUrl, S. split; [assumption|]. split; [assumption|].
  intros rC C t1 Herr HC HCne HCl HSq Hage.
  destruct (@wrapped_code C ss HCl Hs) as (W & HW & HdW).
  exists W.
  split.
  { rewrite (callback_checked P e t1 rC Hss Hs Herr HC HCne HSq HdS).
    assert (Hts : assoc (js "timestamp")
                    [ (js "redirect_uri", JStr R); (js "client_state", JStr X);
                      (js "timestamp", JNum t0) ] = Some (JNum t0))
      by reflexivity.
    rewrite Hts. cbv zeta.
    assert (E : (if truthy (JNum t0) then older_than_ten_minutes t1 (JNum t0)
                 else Ok false) = Ok false).
    { destruct (truthy _); [|reflexivity]. cbn [older_than_ten_minutes].
      f_equal. apply Z.ltb_ge. lia. }
    rewrite E. cbn [bind].
    apply deliver_redirect with (R := R); (assumption || reflexivity). }
  split.
  { cbn [url_set searchParams].
    rewrite sp_get_set_other by (intros E; vm_compute in E; discriminate).
    apply sp_get_set_same. }
  split; [cbn [url_set searchParams]; apply sp_get_set_same|].
  split; [assumption|].
  intros rT params body resp tokenData err Hp Hg Hcode Hbody Hf Hok Hjson Herr' Hfalsy.
  pose proof (@decoded_nonempty _ _ _ HdW) as HWne.
  rewrite (token_authorization_code P fetch e rT Hcid Hc Hcs Hcsn Hss Hs
             Hp Hg Hcode HWne HdW eq_refl eq_refl Hbody Hf).
  now apply token_result_ok with (err := err).
Qed.

(** ** Examples *)

Lemma C4_witness :
  callback sample_platform sample_env sample_now
    (get_request [ (js "code", js "ABC123");
                   (js "state", sample_state (sample_now - 3600000)) ])
  = Ok (RespJson 400 (error_body "State expired"))
  /\ callback sample_platform sample_env sample_now
       (get_request [(js "state", sample_state (sample_now - 3600000))])
     = Ok (RespJson 400 (error_body "Missing code or state")).
Proof.
  split.
  - refine (proj1 (C4_expired_state sample_platform sample_env sample_now
                     (get_request [ (js "code", js "ABC123");
                                    (js "state", sample_state (sample_now - 3600000)) ])
                     (ss := js "state-secret")
                     (state := sample_state (sample_now - 3600000))
                     (fields := sample_fields (sample_now - 3600000))
                     (ts := (sample_now - 3600000)%Z)
                     _ _ _ _ _ _ _ _) (js "ABC123") _ _);
      try (vm_compute; reflexivity); discriminate.
  - refine (proj2 (C4_expired_state sample_platform sample_env sample_now
                     (get_request [(js "state", sample_state (sample_now - 3600000))])
                     (ss := js "state-secret")
                     (state := sample_state (sample_now - 3600000))
                     (fields := sample_fields (sample_now - 3600000))
                     (ts := (sample_now - 3600000)%Z)
                     _ _ _ _ _ _ _ _) _);
      try (vm_compute; reflexivity); discriminate.
Defined.

(** C4 without a code: a signed state that is an hour old is
    answered with the missing-code-or-state error, not with the
    state-expired error. *)
Lemma C4_counterexample :
  decodeState (sample_state (sample_now - 3600000)) (js "state-secret")
  = Ok (JObj (sample_fields (sample_now - 3600000)))
  /\ callback sample_platform sample_env sample_now
       (get_request [(js "state", sample_state (sample_now - 3600000))])
     = Ok (RespJson 400 (error_body "Missing code or state"))
  /\ callback sample_platform sample_env sample_now
       (get_request [(js "state", sample_state (sample_now - 3600000))])
     <> Ok (RespJson 400 (error_body "State expired")).
Proof.
  assert (H : callback sample_platform sample_env sample_now
                (get_request [(js "state", sample_state (sample_now - 3600000))])
              = Ok (RespJson 400 (error_body "Missing code or state")))
    by (vm_compute; reflexivity).
  split; [vm_compute; reflexivity|]. split; [exact H|].
  rewrite H. discriminate.
Qed.

Lemma C8_witness :
  callback sample_platform sample_env sample_now
    (get_request [(js "code", js "ABC123"); (js "state", untimed_state)])
  = deliver sample_platform (JObj untimed_fields) (js "ABC123") (js "state-secret")
  /\ callback sample_platform sample_env sample_now
       (get_request [(js "code", js "ABC123"); (js "state", sample_state 0)])
     <> Ok (RespJson 400 (error_body "State expired")).
Proof.
  split.
  - refine (proj2 (C8_no_timestamp sample_platform sample_env sample_now
                     (get_request [(js "code", js "ABC123"); (js "state", untimed_state)])
                     (ss := js "state-secret")
                     (state := untimed_state) (fields := untimed_fields)
                     _ _ _ _ (or_introl _)) (js "ABC123") _ _ _);
      try (vm_compute; reflexivity); discriminate.
  - refine (proj1 (C8_no_timestamp sample_platform sample_env sample_now
                     (get_request [(js "code", js "ABC123"); (js "state", sample_state 0)])
                     (ss := js "state-secret")
                     (state := sample_state 0) (fields := sample_fields 0)
                     _ _ _ _ (or_intror _)));
      try (vm_compute; reflexivity); discriminate.
Defined.

Lemma C7_witness :
  callback sample_platform sample_env sample_now
    (get_request [ (js "error", js "access_denied");
                   (js "state", sample_state sample_now) ])
  = Ok (RespRedirect
          (mkURL sample_redirect_uri
             [(js "error", js "access_denied"); (js "state", js "xyz")])).
Proof.
  refine (proj1 (proj1 (C7_error_redirect sample_platform sample_env sample_now
                          (get_request [ (js "error", js "access_denied");
                                         (js "state", sample_state sample_now) ])
                          (ss := js "state-secret") (err := js "access_denied")
                          _ _ _ _)
                   (sample_state sample_now) (sample_fields sample_now)
                   sample_redirect_uri (mkURL sample_redirect_uri [])
                   _ _ _ _ _)
            (js "xyz") _ _);
    try (vm_compute; reflexivity); discriminate.
Defined.

(** C7 for a [redirect_uri] that is not a URL: the state that
    [/oauth/authorize] signs for [redirect_uri=/cb] decodes, and on an
    upstream error the callback throws at [new URL], so that the answer
    is neither a redirect nor the error body. *)
Lemma C7_counterexample :
  authorize sample_env sample_now
    (get_request [(js "redirect_uri", js "/cb"); (js "state", js "xyz")])
  = Ok (RespRedirect
          (mkURL STRAVA_AUTHORIZE_URL
             [ (js "client_id", js "strava-client");
               (js "response_type", js "code");
               (js "redirect_uri", js "https://mcp.example/oauth/callback");
               (js "scope", STRAVA_SCOPES);
               (js "state", relative_state);
               (js "approval_prompt", js "auto") ]))
  /\ decodeState relative_state (js "state-secret") = Ok (JObj relative_fields)
  /\ callback sample_platform sample_env sample_now
       (get_request [ (js "error", js "access_denied");
                      (js "state", relative_state) ])
     = Throw.
Proof. split; [|split]; vm_compute; reflexivity. Qed.

Lemma C9_witness :
  mcp (mkRequest [(js "authorization", js "Basic xyz")] [] [])
  = Ok (RespTransport (js "Basic xyz"))
  /\ mcp (mkRequest [(js "authorization", js "Bearer abc")] [] [])
     = Ok (RespTransport (js "abc"))
  /\ exists resp, mcp (mkRequest [(js "authorization", js "Bearer ")] [] []) = Ok resp
                  /\ status_of resp = 401%Z.
Proof.
  split; [|split].
  - refine (proj2 (proj2 (C9_bearer_guard
                            (mkRequest [(js "authorization", js "Basic xyz")] [] [])))
                  (js "Basic xyz") _ _ _);
      try (vm_compute; reflexivity); discriminate.
  - refine (proj1 (proj2 (C9_bearer_guard
                            (mkRequest [(js "authorization", js "Bearer abc")] [] [])))
                  (js "abc") _ _);
      try (vm_compute; reflexivity); discriminate.
  - refine (proj2 (proj1 (C9_bearer_guard
                            (mkRequest [(js "authorization", js "Bearer ")] [] [])))
                  (or_intror _)).
    vm_compute; reflexivity.
Defined.


(** The platform functions on known values: the digest of "abc"
    (FIPS 180-4), the tag of the second test case of RFC 4231, and a
    wrapped code as computed outside this development. *)
Example sha256_abc :
  SHA256.hash (js "abc") =
  [186; 120; 22; 191; 143; 1; 207; 234; 65; 65; 64; 222; 93; 174; 34; 35;
   176; 3; 97; 163; 150; 23; 122; 156; 180; 16; 255; 97; 242; 0; 21; 173].
Proof. vm_compute. reflexivity. Qed.

Example hmac_rfc4231_case2 :
  hmac_sha256 (js "Jefe") (js "what do ya want for nothing?") =
  [91; 220; 193; 70; 191; 96; 117; 78; 106; 4; 36; 38; 8; 149; 117; 199;
   90; 0; 63; 8; 157; 39; 57; 131; 157; 236; 88; 185; 100; 236; 56; 67].
Proof. vm_compute. reflexivity. Qed.

Example wrapped_ABC123 :
  sample_wrapped =
  js "eyJzdHJhdmFfY29kZSI6IkFCQzEyMyJ9.GZ2+G2vAkgVv+c7pGE4xE1OKePxzpSGxi4df3OJbcWk=".
Proof. vm_compute. reflexivity. Qed.

Example atob_forgiving :
  atob (js " TW Fu ") = Ok (js "Man") /\ atob (js "TQ==") = Ok (js "M")
  /\ atob (js "TQ=") = Throw /\ atob (js "T") = Throw.
Proof. repeat split. Qed.

Example json_parse_examples :
  json_parse (text_of_value (JArr [JNum (-5); JStr (js "a"); JNull]))
  = Ok (JArr [JNum (-5); JStr (js "a"); JNull])
  /\ json_parse (js "{ }") = Ok (JObj [])
  /\ json_parse (js "01") = Throw
  /\ json_parse (js "1.5") = Unsupported.
Proof. repeat split. Qed.

(** C5 where an endpoint does not read the absent secret: with no
    secret configured the registration endpoint answers with status
    200, and without the client secret alone the authorize endpoint
    answers with its redirect. *)
Lemma C5_counterexample :
  app_fetch sample_platform (stub_fetch sample_upstream) RRegister
    (mkEnv None None None) sample_now (js "generated-id")
    (json_request (JObj [(js "redirect_uris", JArr [JStr sample_redirect_uri])]))
  = Ok (RespJson 200
          (JObj [ (js "client_id", JStr (js "generated-id"));
                  (js "client_secret_expires_at", JNum 0);
                  (js "redirect_uris", JArr [JStr sample_redirect_uri]);
                  (js "grant_types",
                   JArr [JStr (js "authorization_code"); JStr (js "refresh_token")]);
                  (js "response_types", JArr [JStr (js "code")]);
                  (js "token_endpoint_auth_method", JStr (js "none")) ]))
  /\ status_of
       (response_of
          (app_fetch sample_platform (stub_fetch sample_upstream) RAuthorize
             (mkEnv (Some (js "strava-client")) None (Some (js "state-secret")))
             sample_now (js "generated-id")
             (get_request [ (js "redirect_uri", sample_redirect_uri);
                            (js "state", js "xyz") ])))
     = 302%Z.
Proof. split; vm_compute; reflexivity. Qed.

Lemma C5_witness :
  app_fetch sample_platform (stub_fetch sample_upstream) RToken
    (mkEnv (Some (js "strava-client")) None (Some (js "state-secret")))
    sample_now (js "generated-id") (json_request (JObj []))
  = Ok (RespJson 500
          (JObj [ (js "error", JStr (js "server_error"));
                  (js "error_description", JStr (js "OAuth not configured")) ]))
  /\ app_fetch sample_platform (stub_fetch sample_upstream) RAuthorize
       (mkEnv None (Some (js "strava-secret")) (Some (js "state-secret")))
       sample_now (js "generated-id") (get_request [])
     = Ok (RespJson 500 (error_body "OAuth not configured"))
  /\ app_fetch sample_platform (stub_fetch sample_upstream) RCallback
       (mkEnv (Some (js "strava-client")) (Some (js "strava-secret")) (Some []))
       sample_now (js "generated-id") (get_request [])
     = Ok (RespJson 500 (error_body "OAuth not configured"))
  /\ exists resp,
       app_fetch sample_platform (stub_fetch sample_upstream) RHealth
         (mkEnv None None None) sample_now (js "generated-id") (get_request [])
       = Ok resp /\ status_of resp = 200%Z.
Proof.
  split; [|split; [|split]].
  - apply (proj1 (C5_configuration sample_platform (stub_fetch sample_upstream)
                    (mkEnv (Some (js "strava-client")) None (Some (js "state-secret")))
                    sample_now (js "generated-id") (json_request (JObj [])))).
    reflexivity.
  - apply (proj1 (proj2 (C5_configuration sample_platform (stub_fetch sample_upstream)
                    (mkEnv None (Some (js "strava-secret")) (Some (js "state-secret")))
                    sample_now (js "generated-id") (get_request [])))).
    reflexivity.
  - apply (proj1 (proj2 (proj2 (C5_configuration sample_platform
                    (stub_fetch sample_upstream)
                    (mkEnv (Some (js "strava-client")) (Some (js "strava-secret"))
                       (Some []))
                    sample_now (js "generated-id") (get_request []))))).
    reflexivity.
  - apply (proj2 (proj2 (proj2 (proj2 (C5_configuration sample_platform
                    (stub_fetch sample_upstream) (mkEnv None None None)
                    sample_now (js "generated-id") (get_request [])))))).
    simpl. auto.
Defined.

Lemma C6_witness :
  (exists body,
     response_of
       (token sample_platform (stub_fetch sample_upstream) sample_env
          (json_request (JObj [ (js "grant_type", JStr (js "authorization_code"));
                                (js "code", JStr sample_wrapped) ])))
     = RespJson 200 body
     /\ get_prop body (js "scope") = Ok (JStr STRAVA_SCOPES))
  /\ (exists body,
        response_of
          (token sample_platform (stub_fetch sample_upstream) sample_env
             (json_request (JObj [ (js "grant_type", JStr (js "refresh_token"));
                                   (js "refresh_token", JStr (js "r0")) ])))
        = RespJson 200 body
        /\ get_prop body (js "scope") = Ok (JStr STRAVA_SCOPES)).
Proof.
  split.
  - apply (C6_fixed_scope sample_platform (stub_fetch sample_upstream) sample_env
             (json_request (JObj [ (js "grant_type", JStr (js "authorization_code"));
                                   (js "code", JStr sample_wrapped) ])));
      vm_compute; reflexivity.
  - apply (C6_fixed_scope sample_platform (stub_fetch sample_upstream) sample_env
             (json_request (JObj [ (js "grant_type", JStr (js "refresh_token"));
                                   (js "refresh_token", JStr (js "r0")) ])));
      vm_compute; reflexivity.
Defined.

(** C1 for the empty client state: the callback redirects to the
    redirect URI with the wrapped code and no [state] parameter. *)
Lemma C1_counterexample :
  authorize sample_env sample_now
    (get_request [(js "redirect_uri", sample_redirect_uri); (js "state", [])])
  = Ok (RespRedirect
          (mkURL STRAVA_AUTHORIZE_URL
             [ (js "client_id", js "strava-client");
               (js "response_type", js "code");
               (js "redirect_uri", js "https://mcp.example/oauth/callback");
               (js "scope", STRAVA_SCOPES);
               (js "state", empty_state_token);
               (js "approval_prompt", js "auto") ]))
  /\ callback sample_platform sample_env (sample_now + 1000)
       (get_request [(js "code", js "ABC123"); (js "state", empty_state_token)])
     = Ok (RespRedirect (mkURL sample_redirect_uri [(js "code", sample_wrapped)]))
  /\ sp_get (js "state") [(js "code", sample_wrapped)] = None.
Proof. split; [|split]; vm_compute; reflexivity. Qed.

(** The hypotheses of a statement at a concrete input, by evaluation. *)
Ltac feed T :=
  match type of T with
  | ?A -> _ =>
      let H := fresh in
      assert (H : A)
        by first [ vm_compute; reflexivity
                 | let E := fresh in intro E; vm_compute in E; discriminate E ];
      specialize (T H); clear H
  end.

Lemma some_eq (A : Type) (a b : A) : Some a = Some b -> a = b.
Proof. congruence. Qed.

Lemma redirect_eq (a b : URL) : Ok (RespRedirect a) = Ok (RespRedirect b) -> a = b.
Proof. congruence. Qed.

(** C3 for a request that carries an upstream error as well: the
    error branch of the callback runs before the expiry check, and a
    code with an expired state is answered with the redirect that
    reports the error. *)
Lemma C3_counterexample :
  decodeState (sample_state (sample_now - 10 * 60 * 1000 - 1)) (js "state-secret")
  = Ok (JObj (sample_fields (sample_now - 10 * 60 * 1000 - 1)))
  /\ callback sample_platform sample_env sample_now
       (get_request [ (js "code", js "ABC123");
                      (js "state", sample_state (sample_now - 10 * 60 * 1000 - 1));
                      (js "error", js "access_denied") ])
     = Ok (RespRedirect
             (mkURL sample_redirect_uri
                [(js "error", js "access_denied"); (js "state", js "xyz")])).
Proof. split; vm_compute; reflexivity. Qed.

Lemma C3_witness :
  callback sample_platform sample_env sample_now
    (get_request [ (js "code", js "ABC123");
                   (js "state", sample_state (sample_now - 10 * 60 * 1000 - 1)) ])
  = Ok (RespJson 400 (error_body "State expired"))
  /\ exists W,
       callback sample_platform sample_env sample_now
         (get_request [ (js "code", js "ABC123");
                        (js "state", sample_state (sample_now - 9 * 60 * 1000)) ])
       = Ok (RespRedirect
               (url_set (js "state") (js "xyz")
                  (url_set (js "code") W (mkURL sample_redirect_uri []))))
       /\ decodeState W (js "state-secret")
          = Ok (JObj [(js "strava_code", JStr (js "ABC123"))]).
Proof.
  split.
  - apply (C3_expiry_boundary sample_platform sample_env sample_now
             (get_request [ (js "code", js "ABC123");
                            (js "state", sample_state (sample_now - 10 * 60 * 1000 - 1)) ])
             (ss := js "state-secret") (code := js "ABC123")
             (state := sample_state (sample_now - 10 * 60 * 1000 - 1))
             (fields := sample_fields (sample_now - 10 * 60 * 1000 - 1)));
      try (vm_compute; reflexivity); try discriminate.
  - pose proof (C3_expiry_boundary sample_platform sample_env sample_now
                  (get_request [ (js "code", js "ABC123");
                                 (js "state", sample_state (sample_now - 9 * 60 * 1000)) ])
                  (ss := js "state-secret") (code := js "ABC123")
                  (state := sample_state (sample_now - 9 * 60 * 1000))
                  (fields := sample_fields (sample_now - 9 * 60 * 1000))) as T.
    repeat feed T. destruct T as [_ T]. repeat feed T.
    destruct T as (W & _ & HD & HR & _).
    exists W. split; [|exact HD].
    refine (proj1 (HR sample_redirect_uri (mkURL sample_redirect_uri []) _ _ _)
                  (js "xyz") _ _);
      try (vm_compute; reflexivity); discriminate.
Defined.

(** C10 for the empty secret: [encodeState] returns no token, and
    nothing is decoded. *)
Lemma C10_counterexample :
  (token <- encodeState (JObj [(js "strava_code", JStr (js "ABC123"))]) [] ;;
   decodeState (token ++ js "." ++ js "anything.more") [])
  = Throw.
Proof. vm_compute; reflexivity. Qed.

Lemma C10_witness :
  (exists token,
     encodeState (JObj [(js "strava_code", JStr (js "ABC123"))]) (js "state-secret")
     = Ok token
     /\ forall X,
          decodeState (token ++ js "." ++ X) (js "state-secret")
          = Ok (JObj [(js "strava_code", JStr (js "ABC123"))]))
  /\ decodeState (sample_wrapped ++ js "." ++ js "anything.more") (js "state-secret")
     = Ok (JObj [(js "strava_code", JStr (js "ABC123"))]).
Proof.
  split.
  - refine (proj1 (@C10_extra_segments
                     (JObj [(js "strava_code", JStr (js "ABC123"))])
                     (text_of_value (JObj [(js "strava_code", JStr (js "ABC123"))]))
                     (js "state-secret") _ _) _ _);
      try (vm_compute; reflexivity); discriminate.
  - refine (proj2 (@C10_extra_segments
                     (JObj [(js "strava_code", JStr (js "ABC123"))])
                     (text_of_value (JObj [(js "strava_code", JStr (js "ABC123"))]))
                     (js "state-secret") _ _)
                  sample_wrapped (js "anything.more") _);
      vm_compute; reflexivity.
Defined.

Lemma C1_witness :
  authorize sample_env sample_now
    (get_request [(js "redirect_uri", sample_redirect_uri); (js "state", js "xyz")])
  = Ok (RespRedirect
          (mkURL STRAVA_AUTHORIZE_URL
             [ (js "client_id", js "strava-client");
               (js "response_type", js "code");
               (js "redirect_uri", js "https://mcp.example/oauth/callback");
               (js "scope", STRAVA_SCOPES);
               (js "state", sample_state sample_now);
               (js "approval_prompt", js "auto") ]))
  /\ callback sample_platform sample_env (sample_now + 1000)
       (get_request [(js "code", js "ABC123"); (js "state", sample_state sample_now)])
     = Ok (RespRedirect
             (mkURL sample_redirect_uri
                [(js "code", sample_wrapped); (js "state", js "xyz")]))
  /\ token sample_platform (stub_fetch sample_upstream) sample_env
       (json_request (JObj [ (js "grant_type", JStr (js "authorization_code"));
                             (js "code", JStr sample_wrapped) ]))
     = Ok (RespJson 200
             (JObj [ (js "access_token", JStr (js "tok"));
                     (js "token_type", JStr (js "Bearer"));
                     (js "expires_in", JNum 21600);
                     (js "refresh_token", JStr (js "r1"));
                     (js "scope", JStr STRAVA_SCOPES) ])).
Proof.
  pose proof (C1_round_trip sample_platform (stub_fetch sample_upstream) sample_env
                sample_now
                (get_request [(js "redirect_uri", sample_redirect_uri);
                              (js "state", js "xyz")])
                (cid := js "strava-client") (cs := js "strava-secret")
                (ss := js "state-secret") (R := sample_redirect_uri) (X := js "xyz")
                (u := mkURL sample_redirect_uri [])) as T.
  repeat feed T.
  destruct T as (authUrl & S & HA & HS & K).
  assert (EA : authorize sample_env sample_now
                 (get_request [(js "redirect_uri", sample_redirect_uri);
                               (js "state", js "xyz")])
               = Ok (RespRedirect
                       (mkURL STRAVA_AUTHORIZE_URL
                          [ (js "client_id", js "strava-client");
                            (js "response_type", js "code");
                            (js "redirect_uri", js "https://mcp.example/oauth/callback");
                            (js "scope", STRAVA_SCOPES);
                            (js "state", sample_state sample_now);
                            (js "approval_prompt", js "auto") ])))
    by (vm_compute; reflexivity).
  assert (ES : Some S = Some (sample_state sample_now)).
  { rewrite <- HS. rewrite EA in HA. apply redirect_eq in HA. subst authUrl.
    vm_compute; reflexivity. }
  apply some_eq in ES. subst S.
  specialize (K (get_request [(js "code", js "ABC123");
                              (js "state", sample_state sample_now)])
                (js "ABC123") (sample_now + 1000)%Z).
  repeat feed K.
  destruct K as (W & HC & HW & _ & _ & KT).
  assert (EC : callback sample_platform sample_env (sample_now + 1000)
                 (get_request [(js "code", js "ABC123");
                               (js "state", sample_state sample_now)])
               = Ok (RespRedirect
                       (mkURL sample_redirect_uri
                          [(js "code", sample_wrapped); (js "state", js "xyz")])))
    by (vm_compute; reflexivity).
  assert (EW : Some W = Some sample_wrapped).
  { rewrite <- HW. rewrite EC in HC. apply redirect_eq in HC. rewrite <- HC.
    reflexivity. }
  apply some_eq in EW. subst W.
  specialize (KT (json_request (JObj [ (js "grant_type", JStr (js "authorization_code"));
                                       (js "code", JStr sample_wrapped) ]))
                 [ (js "grant_type", js "authorization_code");
                   (js "code", sample_wrapped) ]
                 [ (js "client_id", js "strava-client");
                   (js "client_secret", js "strava-secret");
                   (js "code", js "ABC123");
                   (js "grant_type", js "authorization_code") ]
                 sample_upstream sample_token_data JUndef).
  repeat feed KT.
  split; [exact EA|]. split; [exact EC|exact KT].
Defined.

(* ================================================================= *)
(** ** The codec, further *)

Lemma ok_eq (A : Type) (a b : A) : Ok a = Ok b -> a = b.
Proof. congruence. Qed.

Lemma singleton_eq (A : Type) (a b : A) : [a] = [b] -> a = b.
Proof. congruence. Qed.

(** X1. Whenever [encodeState] returns a token for a JSON payload,
    [decodeState] under the same secret returns that payload. *)
Theorem X1_codec_round_trip (data : jsval) (secret token : jsstring) :
  json_value data = true ->
  encodeState data secret = Ok token ->
  decodeState token secret = Ok data.
Proof.
  intros Hv H.
  destruct (encodeState_inv _ _ Hv H) as (t & Ht & Pt & Lt & Hs & ->).
  pose proof (decodeState_token None Ht Lt Hs) as D.
  rewrite List.app_nil_r in D. rewrite D, Pt. reflexivity.
Qed.

(** X2. [encodeState] throws exactly when the secret is empty or the
    JSON text of the payload has a code unit above U+00FF; otherwise
    it returns the base64 of the text, a dot and the base64 of the
    HMAC-SHA-256 tag of the UTF-8 bytes of the text. *)
Theorem X2_encode_failure (data : jsval) (t secret : jsstring) :
  stringify data = Ok (Some t) ->
  (encodeState data secret = Throw <-> secret = [] \/ latin1b t = false)
  /\ (encodeState data secret <> Throw ->
      encodeState data secret
      = Ok (b64_encode t ++ js "."
            ++ b64_encode (hmac_sha256 (utf8_encode secret) (utf8_encode t)))).
Proof.
  intros St.
  destruct secret as [|c secret].
  { assert (E : encodeState data [] = Throw).
    { unfold encodeState. rewrite St. reflexivity. }
    rewrite E. split; [split; auto|congruence]. }
  destruct (latin1b t) eqn:Lt.
  - rewrite (encodeState_text data (secret := c :: secret) St Lt) by discriminate.
    split; [|reflexivity].
    split; [discriminate|intros [H|H]; discriminate].
  - rewrite (encodeState_non_latin1 data (secret := c :: secret) St Lt) by discriminate.
    split; [split; auto|congruence].
Qed.

Lemma base64_b64char (i : N) : base64_char (b64char i) = true.
Proof.
  unfold base64_char, b64val, b64char.
  repeat match goal with
         | |- context [if ?a <? ?b then _ else _] => destruct (N.ltb_spec a b)
         | |- context [if ?a =? ?b then _ else _] => destruct (N.eqb_spec a b)
         end;
    repeat match goal with
           | |- context [(?a <=? ?b) && (?c <=? ?d)] =>
               destruct (N.leb_spec a b); destruct (N.leb_spec c d); cbn [andb]
           end; try reflexivity; try lia.
Qed.

Lemma b64_encode_alphabet (s : list N) : forallb base64_char (b64_encode s) = true.
Proof.
  induction s as [|x|x y|x y z r IH] using list_ind3;
    cbn [b64_encode forallb]; rewrite ?base64_b64char; auto.
Qed.

Lemma b64_encode_length_exact (s : list N) :
  length (b64_encode s) = (4 * ((length s + 2) / 3))%nat.
Proof.
  induction s as [|x|x y|x y z r IH] using list_ind3; try reflexivity.
  cbn [b64_encode length]. rewrite IH.
  replace (S (S (S (length r))) + 2)%nat with (length r + 2 + 1 * 3)%nat by lia.
  rewrite Nat.div_add by discriminate. lia.
Qed.

(** The base64 text of a tag has 44 characters. *)
Lemma tag_length (key msg : list N) :
  length (b64_encode (hmac_sha256 key msg)) = 44%nat.
Proof.
  rewrite b64_encode_length_exact. unfold hmac_sha256. rewrite hash_length.
  reflexivity.
Qed.

(** The text [JSON.stringify] writes is never empty. *)
Lemma stringify_nonempty (v : jsval) (t : jsstring) :
  stringify v = Ok (Some t) -> t <> [].
Proof.
  destruct v as [| |b|z|s|l|l]; cbn [stringify]; intros H.
  - discriminate.
  - apply ok_eq in H. injection H as <-. discriminate.
  - apply ok_eq in H. injection H as <-. destruct b; discriminate.
  - destruct (safe_int z); [|discriminate].
    apply ok_eq in H. injection H as <-.
    destruct (num_to_string_first z) as (c & r & -> & _). discriminate.
  - apply ok_eq in H. injection H as <-. discriminate.
  - destruct (stringify_elems stringify l); cbn [bind] in H; try discriminate.
    apply ok_eq in H. injection H as <-. discriminate.
  - destruct (stringify_members stringify l); cbn [bind] in H; try discriminate.
    apply ok_eq in H. injection H as <-. discriminate.
Qed.

(** X3. Every token [encodeState] returns is two segments around one
    dot, both in the base64 alphabet with its padding; the first is
    not empty and the second, the tag, has 44 characters. *)
Theorem X3_token_shape (data : jsval) (secret token : jsstring) :
  encodeState data secret = Ok token ->
  exists d s,
    token = d ++ js "." ++ s
    /\ split_char 46 token = [d; s]
    /\ d <> [] /\ length s = 44%nat
    /\ forallb base64_char d = true /\ forallb base64_char s = true.
Proof.
  unfold encodeState. intros H.
  destruct (stringify data) as [dataStr| |] eqn:St; cbn [bind] in H;
    try discriminate.
  destruct (importKey (utf8_encode secret)) as [key| |]; cbn [bind] in H;
    try discriminate.
  unfold subtle_sign in H. rewrite btoa_latin1 in H by apply hmac_latin1.
  cbn [bind] in H. unfold btoa in H.
  set (text := match dataStr with Some t => t | None => js "undefined" end) in *.
  destruct (latin1b text); cbn [bind] in H; [|discriminate].
  apply ok_eq in H. subst token.
  assert (Ht : text <> []).
  { subst text. destruct dataStr as [t|]; [|discriminate].
    now apply (stringify_nonempty data). }
  eexists; eexists. split; [reflexivity|].
  split.
  { change (js "." ++ ?x) with (46 :: x).
    rewrite split_char_app by apply b64_encode_no_dot.
    rewrite split_char_last by apply b64_encode_no_dot. reflexivity. }
  split; [now apply b64_encode_nonempty|].
  split; [apply tag_length|].
  split; apply b64_encode_alphabet.
Qed.

(** X4. A payload other than [null] comes out of [decodeState] only
    when the first two dot-separated segments of the token decode from
    base64, the secret is not empty, the bytes of the second segment
    are the HMAC-SHA-256 tag, under the secret, of the UTF-8 bytes of
    the first, and the payload is what the first parses to. *)
Theorem X4_decode_authentic (state secret : jsstring) (v : jsval) :
  decodeState state secret = Ok v -> v <> JNull ->
  exists d s t sig,
    nth_error (split_char 46 state) 0 = Some d
    /\ nth_error (split_char 46 state) 1 = Some s
    /\ atob d = Ok t /\ atob s = Ok sig /\ secret <> []
    /\ List.map (fun c => c mod 256) sig
       = hmac_sha256 (utf8_encode secret) (utf8_encode t)
    /\ json_parse t = Ok v.
Proof.
  unfold decodeState. cbv zeta. intros H Hv.
  destruct (nth_error (split_char 46 state) 0) as [d|] eqn:E0;
    [|cbn in H; congruence].
  destruct (nth_error (split_char 46 state) 1) as [s|] eqn:E1;
    [|rewrite orb_true_r in H; cbn in H; congruence].
  destruct (absent (Some d) || absent (Some s)); [cbn in H; congruence|].
  cbn [the] in H.
  destruct (atob d) as [t| |] eqn:Ed; cbn [bind try_catch] in H; try congruence.
  assert (Hs : secret <> []).
  { intros ->. cbn in H. congruence. }
  rewrite importKey_nonempty in H by now apply utf8_encode_nonempty.
  cbn [bind] in H.
  destruct (atob s) as [sig| |] eqn:Es; cbn [bind try_catch] in H; try congruence.
  unfold subtle_verify in H.
  destruct (str_eqb _ _) eqn:Ev; cbn [negb] in H; [|cbn in H; congruence].
  apply str_eqb_eq in Ev.
  exists d, s, t, sig. repeat (split; [assumption || reflexivity|]).
  destruct (json_parse t) as [w| |]; cbn in H; congruence.
Qed.

(** A string without the separator is one segment. *)
Lemma no_dot_forallb (s : jsstring) :
  ~ In 46 s -> forallb (fun c => negb (c =? 46)) s = true.
Proof.
  intros H. apply forallb_forall. intros c Hc. apply negb_true_iff, N.eqb_neq.
  intros ->. contradiction.
Qed.

Lemma decodeState_no_dot (state secret : jsstring) :
  ~ In 46 state -> decodeState state secret = Ok JNull.
Proof.
  intros H. unfold decodeState.
  rewrite split_char_last by now apply no_dot_forallb.
  cbn [nth_error]. rewrite orb_true_r. reflexivity.
Qed.

(** X5. [decodeState] returns [null], under every secret, for a
    string without a dot, for a string that starts with a dot, and for
    a string whose second segment is empty. *)
Theorem X5_decode_malformed (secret : jsstring) :
  (forall state, ~ In 46 state -> decodeState state secret = Ok JNull)
  /\ (forall x, decodeState (js "." ++ x) secret = Ok JNull)
  /\ (forall d x, ~ In 46 d ->
        decodeState (d ++ js ".") secret = Ok JNull
        /\ decodeState (d ++ js ".." ++ x) secret = Ok JNull).
Proof.
  split; [|split].
  - intros state H. now apply decodeState_no_dot.
  - intros x. unfold decodeState. change (js "." ++ x) with (46 :: x).
    cbn [split_char]. rewrite N.eqb_refl. reflexivity.
  - intros d x H. apply no_dot_forallb in H. split; unfold decodeState.
    + change (js ".") with [46]. rewrite split_char_app by assumption.
      cbn [split_char nth_error absent]. rewrite orb_true_r. reflexivity.
    + change (js ".." ++ x) with (46 :: 46 :: x).
      rewrite split_char_app by assumption. cbn [split_char]. rewrite N.eqb_refl.
      cbn [nth_error absent]. rewrite orb_true_r. reflexivity.
Qed.

(* ================================================================= *)
(** ** The handlers, further *)

(** X6. With a code present and no upstream error, the callback
    answers a state that has no dot with the invalid-state error of
    status 400. *)
Theorem X6_callback_unsigned_state (P : Platform) (e : Env) (now : Z)
  (r : Request) (code state : jsstring) :
  absent (OAUTH_STATE_SECRET e) = false ->
  absent (query r (js "error")) = true ->
  query r (js "code") = Some code -> code <> [] ->
  query r (js "state") = Some state -> state <> [] -> ~ In 46 state ->
  callback P e now r = Ok (RespJson 400 (error_body "Invalid state")).
Proof.
  intros Hs He Hc Hcn Hst Hsn Hd.
  unfold callback. cbv zeta. rewrite Hs, He, Hc, Hst.
  rewrite !absent_some by assumption. cbn [negb orb the].
  rewrite decodeState_no_dot by assumption. reflexivity.
Qed.

(** X7. The token endpoint answers an authorization-code grant whose
    code has no dot (a code that was not wrapped by the callback)
    with the invalid-code error of status 400, whatever the upstream:
    the upstream is not asked. *)
Theorem X7_token_unsigned_code (P : Platform)
  (fetch : jsstring -> list (jsstring * jsstring) -> outcome FetchResponse)
  (e : Env) (r : Request) (params : list (jsstring * jsstring)) (W : jsstring) :
  absent (STRAVA_CLIENT_ID e) = false ->
  absent (STRAVA_CLIENT_SECRET e) = false ->
  absent (OAUTH_STATE_SECRET e) = false ->
  token_params P r = Ok params ->
  sp_get (js "grant_type") params = Some (js "authorization_code") ->
  sp_get (js "code") params = Some W -> W <> [] -> ~ In 46 W ->
  token P fetch e r =
  Ok (RespJson 400
        (JObj [ (js "error", JStr (js "invalid_grant"));
                (js "error_description", JStr (js "Invalid code")) ])).
Proof.
  intros H1 H2 H3 Hp Hg Hc Hw Hd.
  unfold token. cbv zeta. rewrite H1, H2, H3. cbn [orb].
  rewrite Hp. cbn [bind]. rewrite Hg, Hc.
  replace (str_eqb (js "authorization_code") (js "refresh_token")) with false
    by reflexivity.
  rewrite str_eqb_refl. cbn [negb].
  rewrite absent_some by assumption. cbn [the].
  rewrite decodeState_no_dot by assumption. reflexivity.
Qed.

Lemma new_URL_ok (P : Platform) (v : jsval) (u : URL) :
  new_URL P v = Ok u -> exists uri, v = JStr uri /\ URL_parse P uri = Some u.
Proof.
  destruct v; cbn; try discriminate.
  destruct (URL_parse P s) eqn:E; [|discriminate].
  intros H. apply ok_eq in H. subst. eauto.
Qed.

Lemma get_prop_truthy (d : jsval) (k : jsstring) (v : jsval) :
  get_prop d k = Ok v -> truthy v = true ->
  exists fields, d = JObj fields /\ assoc k fields = Some v.
Proof.
  destruct d; cbn; intros H T; try discriminate;
    try (apply ok_eq in H; subst v; discriminate).
  apply ok_eq in H. exists l. split; [reflexivity|].
  destruct (assoc k l); [congruence|subst v; discriminate].
Qed.

Lemma get_prop_opt_truthy (d : jsval) (k : jsstring) :
  truthy (get_prop_opt d k) = true ->
  exists fields, d = JObj fields /\ assoc k fields = Some (get_prop_opt d k).
Proof.
  unfold get_prop_opt. destruct (get_prop d k) as [v| |] eqn:G; try discriminate.
  intros T. apply (get_prop_truthy _ _ G T).
Qed.

(** What the delivery step and the error branch do once the state
    names a [redirect_uri]: the redirect goes to the URL parsed from
    it, with parameters set. *)
Lemma redirect_tail (P : Platform) (A : Type) (wrap : response -> A)
  (ru d : jsval) (k w : jsstring) (u : URL) :
  (forall x y, wrap x = wrap y -> x = y) ->
  (redirectUrl <- new_URL P ru ;;
   let redirectUrl := url_set k w redirectUrl in
   client_state <- get_prop d (js "client_state") ;;
   redirectUrl <-
     (if truthy client_state
      then url_set_val (js "state") client_state redirectUrl
      else Ok redirectUrl) ;;
   Ok (wrap (RespRedirect redirectUrl))) = Ok (wrap (RespRedirect u)) ->
  exists uri u0,
    ru = JStr uri /\ URL_parse P uri = Some u0 /\ url_base u = url_base u0.
Proof.
  intros Hw H.
  destruct (new_URL P ru) as [u0| |] eqn:N; cbn [bind] in H; try discriminate.
  destruct (new_URL_ok _ _ N) as (uri & -> & Hp).
  exists uri, u0. split; [reflexivity|]. split; [assumption|].
  destruct (get_prop d (js "client_state")) as [cs| |]; cbn [bind] in H;
    try discriminate.
  destruct (truthy cs).
  - destruct cs; cbn in H; try discriminate.
    apply ok_eq, Hw in H. injection H as <-. reflexivity.
  - cbn in H. apply ok_eq, Hw in H. injection H as <-. reflexivity.
Qed.

(** X8. Every redirect of the callback, in the error branch as in
    the delivery, goes to the URL parsed from the [redirect_uri] of a
    state parameter that [decodeState] accepts under the state secret:
    the base of the target is the base of that URL. *)
Theorem X8_callback_redirect_signed (P : Platform) (e : Env) (now : Z)
  (r : Request) (u : URL) :
  callback P e now r = Ok (RespRedirect u) ->
  exists ss state fields uri u0,
    OAUTH_STATE_SECRET e = Some ss /\ query r (js "state") = Some state
    /\ decodeState state ss = Ok (JObj fields)
    /\ assoc (js "redirect_uri") fields = Some (JStr uri)
    /\ URL_parse P uri = Some u0 /\ url_base u = url_base u0.
Proof.
  unfold callback. cbv zeta. intros H.
  destruct (absent (OAUTH_STATE_SECRET e)) eqn:Hs; [discriminate|].
  destruct (absent_the _ Hs) as (ss & Ess & Hss & Tss). rewrite Tss in H.
  destruct (absent (query r (js "error"))) eqn:He; cbn [negb] in H.
  - destruct (absent (query r (js "code")) || absent (query r (js "state"))) eqn:Hc;
      [discriminate|].
    apply orb_false_iff in Hc as [Hc Hst].
    destruct (absent_the _ Hst) as (state & Est & _ & Tst). rewrite Tst in H.
    destruct (decodeState state ss) as [d| |] eqn:D; cbn [bind] in H;
      try discriminate.
    destruct (truthy d); cbn [negb] in H; [|discriminate].
    destruct (get_prop d (js "timestamp")) as [ts| |]; cbn [bind] in H;
      try discriminate.
    destruct (if truthy ts then older_than_ten_minutes now ts else Ok false)
      as [[|]| |]; cbn [bind] in H; try discriminate.
    unfold deliver in H.
    destruct (encodeState _ ss) as [W| |]; cbn [bind] in H; try discriminate.
    destruct (get_prop d (js "redirect_uri")) as [ru| |] eqn:G; cbn [bind] in H;
      try discriminate.
    destruct (truthy ru) eqn:T; [|discriminate].
    destruct (get_prop_truthy _ _ G T) as (fields & -> & Ha).
    destruct (@redirect_tail P response (fun x => x) ru (JObj fields) (js "code") W u)
      as (uri & u0 & -> & Hp & Hb); [auto|exact H|].
    exists ss, state, fields, uri, u0. auto 10.
  - unfold report_error in H.
    destruct (absent (query r (js "state"))) eqn:Hst; cbn [negb bind] in H;
      [discriminate|].
    destruct (absent_the _ Hst) as (state & Est & _ & Tst). rewrite Tst in H.
    destruct (decodeState state ss) as [d| |] eqn:D; cbn [bind] in H;
      try discriminate.
    destruct (truthy (get_prop_opt d (js "redirect_uri"))) eqn:T;
      [|discriminate].
    destruct (get_prop_opt_truthy _ _ T) as (fields & -> & Ha).
    set (ru := get_prop_opt (JObj fields) (js "redirect_uri")) in *.
    destruct (@redirect_tail P (option response) Some ru (JObj fields)
                (js "error") (the (query r (js "error"))) u)
      as (uri & u0 & Eru & Hp & Hb); [congruence| |].
    { destruct (new_URL P ru) as [u1| |]; cbn [bind] in *; try discriminate.
      destruct (get_prop (JObj fields) (js "client_state")) as [cs| |];
        cbn [bind] in *; try discriminate.
      destruct (if truthy cs then _ else _) as [u2| |]; cbn [bind] in *;
        try discriminate.
      apply ok_eq in H. injection H as <-. reflexivity. }
    rewrite Eru in Ha.
    exists ss, state, fields, uri, u0. auto 10.
Qed.

Ltac eval_keys :=
  repeat match goal with
         | |- context [str_eqb (js ?a) (js ?b)] =>
             let v := eval vm_compute in (str_eqb (js a) (js b)) in
             change (str_eqb (js a) (js b)) with v
         end.

(** X9. Every response of [/oauth/authorize] is the configuration
    error of status 500, when the client id or the state secret is
    absent, or a redirect to the upstream authorize URL with exactly
    six parameters, in this order: the configured client id,
    [response_type=code], the callback URL of this server as
    [redirect_uri], the fixed scope string, the signed state and
    [approval_prompt=auto]. *)
Theorem X9_authorize_target (e : Env) (now : Z) (r : Request) (out : response) :
  authorize e now r = Ok out ->
  (absent (STRAVA_CLIENT_ID e) || absent (OAUTH_STATE_SECRET e) = true
   /\ out = RespJson 500 (error_body "OAuth not configured"))
  \/ exists cid ss S,
       STRAVA_CLIENT_ID e = Some cid /\ OAUTH_STATE_SECRET e = Some ss
       /\ encodeState
            (JObj [ (js "redirect_uri", opt_str (query r (js "redirect_uri")));
                    (js "client_state", opt_str (query r (js "state")));
                    (js "timestamp", JNum now) ]) ss = Ok S
       /\ out = RespRedirect
                  (mkURL STRAVA_AUTHORIZE_URL
                     [ (js "client_id", cid);
                       (js "response_type", js "code");
                       (js "redirect_uri", base_url r ++ js "/oauth/callback");
                       (js "scope", STRAVA_SCOPES);
                       (js "state", S);
                       (js "approval_prompt", js "auto") ]).
Proof.
  unfold authorize. cbv zeta. intros H.
  destruct (absent (STRAVA_CLIENT_ID e) || absent (OAUTH_STATE_SECRET e)) eqn:Hc.
  { left. split; [reflexivity|]. now apply ok_eq in H. }
  right. apply orb_false_iff in Hc as [Hc Hs].
  destruct (absent_the _ Hc) as (cid & Ecid & _ & Tcid).
  destruct (absent_the _ Hs) as (ss & Ess & _ & Tss).
  rewrite Tcid, Tss in H.
  destruct (encodeState _ ss) as [S| |] eqn:ES; cbn [bind] in H; try discriminate.
  exists cid, ss, S. repeat (split; [assumption || reflexivity|]).
  apply ok_eq in H. subst out. unfold url_set.
  cbn [sp_set searchParams url_base filter fst negb]. eval_keys.
  reflexivity.
Qed.

(** A property whose value is [undefined] is not written: the token
    of the object is the token of the object without it. *)
Lemma encodeState_undefined (k : jsstring) (l : list (jsstring * jsval))
  (secret : jsstring) :
  encodeState (JObj ((k, JUndef) :: l)) secret = encodeState (JObj l) secret.
Proof.
  unfold encodeState. cbn [stringify stringify_members bind].
  destruct (stringify_members stringify l); reflexivity.
Qed.

Lemma deliver_json (P : Platform) (fields : list (jsstring * jsval))
  (code ss W : jsstring) :
  encodeState (JObj [(js "strava_code", JStr code)]) ss = Ok W ->
  assoc (js "redirect_uri") fields = None ->
  deliver P (JObj fields) code ss = Ok (RespJson 200 (obj1 "code" (JStr W))).
Proof.
  intros HW HR. unfold deliver. rewrite HW. cbn [bind get_prop].
  rewrite HR. reflexivity.
Qed.

(** X10. An authorize request without [redirect_uri] is not
    refused: it is answered with the redirect, and the callback,
    given the state of that redirect and a code within ten minutes,
    answers with status 200 and the wrapped code in a JSON body
    instead of a redirect.  (Parameters within U+00FF.) *)
Theorem X10_no_redirect_uri (P : Platform) (e : Env) (t0 : Z)
  (rA : Request) (cid ss X : jsstring) :
  STRAVA_CLIENT_ID e = Some cid -> cid <> [] ->
  OAUTH_STATE_SECRET e = Some ss -> ss <> [] ->
  query rA (js "redirect_uri") = None ->
  query rA (js "state") = Some X -> latin1b X = true ->
  safe_int t0 = true ->
  exists authUrl S,
    authorize e t0 rA = Ok (RespRedirect authUrl)
    /\ sp_get (js "state") (searchParams authUrl) = Some S
    /\ forall (rC : Request) (C : jsstring) (t1 : Z),
         absent (query rC (js "error")) = true ->
         query rC (js "code") = Some C -> C <> [] -> latin1b C = true ->
         query rC (js "state") = Some S ->
         (t1 - t0 <= 10 * 60 * 1000)%Z ->
         exists W,
           callback P e t1 rC = Ok (RespJson 200 (obj1 "code" (JStr W)))
           /\ decodeState W ss = Ok (JObj [(js "strava_code", JStr C)]).
Proof.
  intros Hcid Hc Hss Hs HR HX LX Ht.
  set (payload := JObj [ (js "client_state", JStr X); (js "timestamp", JNum t0) ]).
  destruct (@decode_encode payload ss) as (S & HE & HD & _); [| |assumption|].
  { cbn [payload json_value forallb fst snd List.map].
    rewrite (latin1b_wf _ LX), Ht. reflexivity. }
  { cbn [payload latin1_value forallb fst snd]. rewrite LX. reflexivity. }
  exists (mkURL STRAVA_AUTHORIZE_URL
            [ (js "client_id", cid);
              (js "response_type", js "code");
              (js "redirect_uri", base_url rA ++ js "/oauth/callback");
              (js "scope", STRAVA_SCOPES);
              (js "state", S);
              (js "approval_prompt", js "auto") ]), S.
  split.
  { unfold authorize. cbv zeta. rewrite Hcid, Hss, HR, HX.
    rewrite !absent_some by assumption. cbn [orb the opt_str].
    rewrite encodeState_undefined. fold payload. rewrite HE. cbn [bind].
    unfold url_set. cbn [sp_set searchParams url_base filter fst negb].
    eval_keys. reflexivity. }
  split; [reflexivity|].
  intros rC C t1 Herr HC HCn LC HS Hage.
  destruct (@wrapped_code C ss LC Hs) as (W & HW & HDW).
  exists W. split; [|assumption].
  rewrite (callback_checked P e t1 rC Hss Hs Herr HC HCn HS HD).
  cbn [assoc]. eval_keys. cbn [truthy older_than_ten_minutes].
  destruct (t0 =? 0)%Z; cbn [negb bind].
  - now apply deliver_json.
  - replace (10 * 60 * 1000 <? t1 - t0)%Z with false
      by (symmetry; apply Z.ltb_ge; lia).
    now apply deliver_json.
Qed.

(** X11. The callback accepts a wrapped code in the place of the
    state: the two kinds of token are signed alike.  Such a state has
    no timestamp and no redirect URI, so at every time the answer is
    status 200 with the wrapped code of the request in a JSON body.
    (Codes within U+00FF.) *)
Theorem X11_wrapped_code_as_state (P : Platform) (e : Env) (now : Z)
  (r : Request) (ss C0 W0 C : jsstring) :
  OAUTH_STATE_SECRET e = Some ss -> ss <> [] ->
  latin1b C0 = true ->
  encodeState (JObj [(js "strava_code", JStr C0)]) ss = Ok W0 ->
  absent (query r (js "error")) = true ->
  query r (js "code") = Some C -> C <> [] -> latin1b C = true ->
  query r (js "state") = Some W0 ->
  exists W,
    encodeState (JObj [(js "strava_code", JStr C)]) ss = Ok W
    /\ callback P e now r = Ok (RespJson 200 (obj1 "code" (JStr W))).
Proof.
  intros Hss Hs L0 HW0 Herr HC HCn LC HS.
  destruct (@wrapped_code C0 ss L0 Hs) as (W0' & HW0' & HD0).
  rewrite HW0 in HW0'. apply ok_eq in HW0'. subst W0'.
  destruct (@wrapped_code C ss LC Hs) as (W & HW & _).
  exists W. split; [assumption|].
  rewrite (callback_checked P e now r Hss Hs Herr HC HCn HS HD0).
  cbn [assoc]. eval_keys. cbn [truthy bind].
  now apply deliver_json.
Qed.

(** The responses of the shared tail of the token endpoint. *)
Lemma token_result_status (failure : string) (resp : FetchResponse) (out : response) :
  token_result failure resp = Ok out ->
  exists s body,
    out = RespJson s body /\ (s = 200 \/ s = 400)%Z
    /\ (s = 400%Z -> exists err, get_prop body (js "error") = Ok err
                                 /\ truthy err = true)
    /\ (s = 200%Z -> get_prop body (js "error") = Ok JUndef).
Proof.
  unfold token_result. intros H.
  destruct (fetch_ok resp); cbn [negb] in H.
  - destruct (json_parse _) as [td| |]; cbn [bind] in H; try discriminate.
    destruct (get_prop td _) as [err| |]; cbn [bind] in H; try discriminate.
    destruct (truthy err) eqn:T; apply ok_eq in H; subst out.
    + exists 400%Z. eexists. split; [reflexivity|]. split; [auto|].
      split; [|discriminate]. intros _. exists err. split; [|assumption].
      reflexivity.
    + exists 200%Z. eexists. split; [reflexivity|]. split; [auto|].
      split; [discriminate|]. intros _. reflexivity.
  - apply ok_eq in H. subst out.
    exists 400%Z. eexists. split; [reflexivity|]. split; [auto|].
    split; [|discriminate]. intros _. eexists. split; reflexivity.
Qed.

(** X12. Every response of the token endpoint is a JSON body with
    status 200, 400 or 500; the status is 500 exactly when one of the
    three secrets is absent; and the body has a truthy [error] member
    exactly when the status is not 200. *)
Theorem X12_token_statuses (P : Platform)
  (fetch : jsstring -> list (jsstring * jsstring) -> outcome FetchResponse)
  (e : Env) (r : Request) (out : response) :
  token P fetch e r = Ok out ->
  exists s body,
    out = RespJson s body
    /\ (s = 200 \/ s = 400 \/ s = 500)%Z
    /\ (s = 500%Z <->
        absent (STRAVA_CLIENT_ID e) || absent (STRAVA_CLIENT_SECRET e)
        || absent (OAUTH_STATE_SECRET e) = true)
    /\ (s <> 200%Z -> exists err, get_prop body (js "error") = Ok err
                                  /\ truthy err = true)
    /\ (s = 200%Z -> get_prop body (js "error") = Ok JUndef).
Proof.
  unfold token. cbv zeta. intros H.
  set (missing := absent (STRAVA_CLIENT_ID e) || absent (STRAVA_CLIENT_SECRET e)
                  || absent (OAUTH_STATE_SECRET e)) in *.
  destruct missing.
  { apply ok_eq in H. subst out. exists 500%Z. eexists.
    split; [reflexivity|]. split; [auto|]. split; [tauto|].
    split; [|discriminate]. intros _. eexists. split; reflexivity. }
  assert (R : forall failure resp,
             token_result failure resp = Ok out ->
             exists s body,
               out = RespJson s body
               /\ (s = 200 \/ s = 400 \/ s = 500)%Z
               /\ (s = 500%Z <-> false = true)
               /\ (s <> 200%Z -> exists err, get_prop body (js "error") = Ok err
                                             /\ truthy err = true)
               /\ (s = 200%Z -> get_prop body (js "error") = Ok JUndef)).
  { intros failure resp Hr.
    destruct (token_result_status _ _ Hr) as (s & body & -> & Hs & H4 & H2).
    exists s, body. split; [reflexivity|]. split; [tauto|].
    split; [split; [intros ->; destruct Hs; discriminate|discriminate]|].
    split; [|assumption].
    intros Hn. apply H4. destruct Hs; congruence. }
  assert (B : forall code desc,
             Ok (RespJson 400 (JObj ((js "error", JStr (js code)) :: desc))) = Ok out ->
             code <> EmptyString ->
             exists s body,
               out = RespJson s body
               /\ (s = 200 \/ s = 400 \/ s = 500)%Z
               /\ (s = 500%Z <-> false = true)
               /\ (s <> 200%Z -> exists err, get_prop body (js "error") = Ok err
                                             /\ truthy err = true)
               /\ (s = 200%Z -> get_prop body (js "error") = Ok JUndef)).
  { intros code desc Ho Hne. apply ok_eq in Ho. subst out.
    exists 400%Z. eexists. split; [reflexivity|]. split; [auto|].
    split; [split; discriminate|].
    split; [|discriminate]. intros _. eexists. split; [reflexivity|].
    destruct code; [congruence|reflexivity]. }
  destruct (token_params P r) as [params| |]; cbn [bind] in H; try discriminate.
  destruct (match sp_get (js "grant_type") params with
            | Some g => str_eqb g (js "refresh_token")
            | None => false
            end).
  - destruct (absent (sp_get (js "refresh_token") params));
      [eapply B; [exact H|discriminate]|].
    destruct (params_of_record P _); cbn [bind] in H; try discriminate.
    destruct (fetch _ _); cbn [bind] in H; try discriminate.
    eapply R; eassumption.
  - destruct (negb _); [eapply (B _ []); [exact H|discriminate]|].
    destruct (absent (sp_get (js "code") params));
      [eapply B; [exact H|discriminate]|].
    destruct (decodeState _ _) as [cd| |]; cbn [bind] in H; try discriminate.
    destruct (negb (truthy cd)); [eapply B; [exact H|discriminate]|].
    destruct (get_prop cd _); cbn [bind] in H; try discriminate.
    destruct (params_of_record P _); cbn [bind] in H; try discriminate.
    destruct (fetch _ _); cbn [bind] in H; try discriminate.
    eapply R; eassumption.
Qed.

(** X13. The two metadata documents agree, for every request: the
    one authorization server the protected-resource document names is
    the issuer of the authorization-server document; the resource and
    the three endpoints are that issuer followed by their paths; both
    list the same scopes, which joined by commas are the scope string
    of the token responses; and the issuer starts with [http://] or
    [https://]. *)
Theorem X13_metadata_consistent (r : Request) :
  exists issuer a p scopes,
    authorization_server r = Ok (RespJson 200 a)
    /\ protected_resource r = Ok (RespJson 200 p)
    /\ get_prop a (js "issuer") = Ok (JStr issuer)
    /\ get_prop p (js "authorization_servers") = Ok (JArr [JStr issuer])
    /\ get_prop p (js "resource") = Ok (JStr (issuer ++ js "/mcp"))
    /\ get_prop a (js "authorization_endpoint")
       = Ok (JStr (issuer ++ js "/oauth/authorize"))
    /\ get_prop a (js "token_endpoint") = Ok (JStr (issuer ++ js "/oauth/token"))
    /\ get_prop a (js "registration_endpoint")
       = Ok (JStr (issuer ++ js "/oauth/register"))
    /\ get_prop a (js "scopes_supported") = Ok (JArr (List.map JStr scopes))
    /\ get_prop p (js "scopes_supported") = Ok (JArr (List.map JStr scopes))
    /\ join (js ",") scopes = STRAVA_SCOPES
    /\ (starts_with (js "http://") issuer || starts_with (js "https://") issuer
        = true).
Proof.
  exists (base_url r). eexists. eexists. exists (split_char 44 STRAVA_SCOPES).
  split; [reflexivity|]. split; [reflexivity|].
  repeat (split; [reflexivity|]).
  unfold base_url. destruct (includes _ _); reflexivity.
Qed.

(* ================================================================= *)
(** ** Parsed values *)

(** What [JSON.parse] returns has no [undefined] inside, and its
    numbers are safe integers: the conversions of this development
    have an answer for it. *)
Lemma obj_set_whole (k : jsstring) (v : jsval) (o : list (jsstring * jsval)) :
  whole_value v = true ->
  forallb (fun kv => whole_value (snd kv)) o = true ->
  forallb (fun kv => whole_value (snd kv)) (obj_set k v o) = true.
Proof.
  intros Hv. induction o as [|[k' v'] o IH]; cbn [obj_set forallb snd].
  - intros _. rewrite Hv. reflexivity.
  - intros H. apply andb_true_iff in H as [H1 H2].
    destruct (str_eqb k k'); cbn [forallb snd].
    + rewrite Hv, H2. reflexivity.
    + rewrite H1, (IH H2). reflexivity.
Qed.

Lemma fold_obj_set_whole (l acc : list (jsstring * jsval)) :
  forallb (fun kv => whole_value (snd kv)) l = true ->
  forallb (fun kv => whole_value (snd kv)) acc = true ->
  forallb (fun kv => whole_value (snd kv))
    (fold_left (fun o kv => obj_set (fst kv) (snd kv) o) l acc) = true.
Proof.
  revert acc. induction l as [|[k v] l IH]; intros acc Hl Ha; cbn [fold_left];
    [exact Ha|].
  cbn [forallb snd] in Hl. apply andb_true_iff in Hl as [H1 H2].
  apply IH; [exact H2|]. cbn [fst snd]. now apply obj_set_whole.
Qed.

Lemma parse_number_whole (s : jsstring) (v : jsval) (r : jsstring) :
  parse_number s = Ok (v, r) -> whole_value v = true.
Proof.
  unfold parse_number.
  destruct (match s with
            | [] => (false, s)
            | c :: r0 => if c =? 45 then (true, r0) else (false, s)
            end) as [neg s1].
  destruct (read_digits s1) as [d rest].
  destruct (normal_uint d); [|discriminate].
  destruct (match rest with
            | [] => false
            | c :: _ => (c =? 46) || (c =? 101) || (c =? 69)
            end); [discriminate|].
  destruct (safe_int _) eqn:E; [|discriminate].
  intros H. injection H as <- _. exact E.
Qed.

Lemma parse_whole (f : nat) :
  (forall s v r, parse_value f s = Ok (v, r) -> whole_value v = true)
  /\ (forall s l r, parse_elements f s = Ok (l, r) ->
      forallb whole_value l = true)
  /\ (forall s l r, parse_members f s = Ok (l, r) ->
      forallb (fun kv => whole_value (snd kv)) l = true).
Proof.
  induction f as [|f (IHv & IHe & IHm)]; [repeat split; discriminate|].
  split; [|split].
  - intros s v r H. cbn [parse_value] in H.
    destruct (skip_ws s) as [|c t]; [discriminate|].
    destruct (c =? 34).
    { apply bind_ok in H as ([str r'] & _ & H2). injection H2 as <- _.
      reflexivity. }
    destruct (c =? 91).
    { destruct (skip_ws t) as [|c' t']; [discriminate|].
      destruct (c' =? 93); [injection H as <- _; reflexivity|].
      apply bind_ok in H as ([l r'] & H1 & H2). injection H2 as <- _.
      apply IHe in H1. exact H1. }
    destruct (c =? 123).
    { destruct (skip_ws t) as [|c' t']; [discriminate|].
      destruct (c' =? 125); [injection H as <- _; reflexivity|].
      apply bind_ok in H as ([l r'] & H1 & H2). injection H2 as <- _.
      apply IHm in H1. cbn [whole_value].
      now apply fold_obj_set_whole. }
    destruct (starts_with (js "true") (c :: t));
      [injection H as <- _; reflexivity|].
    destruct (starts_with (js "false") (c :: t));
      [injection H as <- _; reflexivity|].
    destruct (starts_with (js "null") (c :: t));
      [injection H as <- _; reflexivity|].
    now apply parse_number_whole in H.
  - intros s l r H. cbn [parse_elements] in H.
    apply bind_ok in H as ([v r1] & H1 & H2). apply IHv in H1.
    destruct (skip_ws r1) as [|c t]; [discriminate|].
    destruct (c =? 44).
    { apply bind_ok in H2 as ([l' r'] & H3 & H4). injection H4 as <- _.
      apply IHe in H3. cbn [forallb]. rewrite H1, H3. reflexivity. }
    destruct (c =? 93); [|discriminate].
    injection H2 as <- _. cbn [forallb]. rewrite H1. reflexivity.
  - intros s l r H. cbn [parse_members] in H.
    destruct (skip_ws s) as [|q t]; [discriminate|].
    destruct (q =? 34); [|discriminate].
    apply bind_ok in H as ([k r1] & _ & H2).
    destruct (skip_ws r1) as [|c t2]; [discriminate|].
    destruct (c =? 58); [|discriminate].
    apply bind_ok in H2 as ([v r2] & H3 & H4). apply IHv in H3.
    destruct (skip_ws r2) as [|c3 t3]; [discriminate|].
    destruct (c3 =? 44).
    { apply bind_ok in H4 as ([l' r'] & H5 & H6). injection H6 as <- _.
      apply IHm in H5. cbn [forallb snd]. rewrite H3, H5. reflexivity. }
    destruct (c3 =? 125); [|discriminate].
    injection H4 as <- _. cbn [forallb snd]. rewrite H3. reflexivity.
Qed.

Lemma json_parse_whole (text : jsstring) (v : jsval) :
  json_parse text = Ok v -> whole_value v = true.
Proof.
  unfold json_parse. intros H.
  apply bind_ok in H as ([v' r] & H1 & H2).
  destruct (skip_ws r); [|discriminate].
  apply ok_eq in H2. subst v'.
  exact (proj1 (parse_whole _) _ _ _ H1).
Qed.

Lemma whole_member (k : jsstring) (l : list (jsstring * jsval)) (v : jsval) :
  forallb (fun kv => whole_value (snd kv)) l = true ->
  assoc k l = Some v -> whole_value v = true.
Proof.
  induction l as [|[k' v'] l IH]; [discriminate|].
  cbn [forallb snd assoc]. intros H Ha. apply andb_true_iff in H as [H1 H2].
  destruct (str_eqb k k'); [congruence|auto].
Qed.

Lemma stringify_elems_whole (f : jsval -> outcome (option jsstring)) (l : list jsval) :
  Forall (fun x => whole_value x = true -> exists t, f x = Ok (Some t)) l ->
  forallb whole_value l = true ->
  exists parts, stringify_elems f l = Ok parts.
Proof.
  induction 1 as [|x l Hx _ IH]; cbn [stringify_elems forallb]; [eauto|].
  intros H. apply andb_true_iff in H as [H1 H2].
  destruct (Hx H1) as (t & ->). destruct (IH H2) as (parts & ->).
  cbn [bind]. eauto.
Qed.

Lemma stringify_members_whole (f : jsval -> outcome (option jsstring))
  (l : list (jsstring * jsval)) :
  Forall (fun kv => whole_value (snd kv) = true ->
                    exists t, f (snd kv) = Ok (Some t)) l ->
  forallb (fun kv => whole_value (snd kv)) l = true ->
  exists parts, stringify_members f l = Ok parts.
Proof.
  induction 1 as [|[k x] l Hx _ IH]; cbn [stringify_members forallb snd];
    [eauto|].
  intros H. apply andb_true_iff in H as [H1 H2]. cbn [snd] in Hx.
  destruct (Hx H1) as (t & ->). destruct (IH H2) as (parts & ->).
  cbn [bind]. eauto.
Qed.

Lemma indent_members_whole (f : jsval -> outcome (option jsstring))
  (l : list (jsstring * jsval)) :
  Forall (fun kv => whole_value (snd kv) = true ->
                    exists t, f (snd kv) = Ok (Some t)) l ->
  forallb (fun kv => whole_value (snd kv)) l = true ->
  exists parts, indent_members f l = Ok parts.
Proof.
  induction 1 as [|[k x] l Hx _ IH]; cbn [indent_members forallb snd];
    [eauto|].
  intros H. apply andb_true_iff in H as [H1 H2]. cbn [snd] in Hx.
  destruct (Hx H1) as (t & ->). destruct (IH H2) as (parts & ->).
  cbn [bind]. eauto.
Qed.

Lemma stringify_whole (v : jsval) :
  whole_value v = true -> exists t, stringify v = Ok (Some t).
Proof.
  induction v as [| |b|z|s|l IH|l IH] using jsval_induction;
    cbn [whole_value stringify]; intros H; try discriminate; eauto.
  - rewrite H. eauto.
  - destruct (stringify_elems_whole stringify IH H) as (parts & ->).
    cbn [bind]. eauto.
  - destruct (stringify_members_whole stringify IH H) as (parts & ->).
    cbn [bind]. eauto.
Qed.

Lemma stringify_indent_whole (v : jsval) :
  whole_value v = true ->
  forall indent, exists t, stringify_indent indent v = Ok (Some t).
Proof.
  induction v as [| |b|z|s|l IH|l IH] using jsval_induction;
    intros H indent; try (exact (stringify_whole _ H)).
  - cbn [stringify_indent].
    destruct (stringify_elems_whole (stringify_indent (indent ++ js "  ")) (l := l))
      as (parts & ->); [|exact H|cbn [bind]; eauto].
    eapply Forall_impl; [|exact IH]. intros x Hx Wx. exact (Hx Wx _).
  - cbn [stringify_indent].
    destruct (indent_members_whole (stringify_indent (indent ++ js "  ")) (l := l))
      as (parts & ->); [|exact H|cbn [bind]; eauto].
    eapply Forall_impl; [|exact IH]. intros x Hx Wx. exact (Hx Wx _).
Qed.

Lemma to_string_elems_whole (f : jsval -> outcome jsstring) (l : list jsval) :
  Forall (fun x => whole_value x = true -> f x <> Unsupported) l ->
  forallb whole_value l = true ->
  to_string_elems f l <> Unsupported.
Proof.
  induction 1 as [|x l Hx _ IH]; cbn [to_string_elems forallb]; [discriminate|].
  intros H. apply andb_true_iff in H as [H1 H2].
  specialize (Hx H1). specialize (IH H2).
  destruct x; cbn [bind];
    try (destruct (to_string_elems f l); cbn [bind]; congruence);
    destruct (f _); cbn [bind]; try congruence;
    destruct (to_string_elems f l); cbn [bind]; congruence.
Qed.

(** The conversion of a parsed value to a string gives a string or
    throws. *)
Lemma to_string_whole (v : jsval) :
  whole_value v = true -> to_string v <> Unsupported.
Proof.
  induction v as [| |b|z|s|l IH|l IH] using jsval_induction;
    cbn [whole_value to_string]; intros H; try discriminate.
  - rewrite H. discriminate.
  - pose proof (to_string_elems_whole to_string IH H) as E.
    destruct (to_string_elems to_string l); cbn [bind]; congruence.
  - destruct (assoc _ l); discriminate.
Qed.

(* ================================================================= *)
(** ** The client *)

Lemma request_calls (fetch : Call -> result Response)
  (syntax_error : jsstring -> jsstring) (type_error : jsstring)
  (c : StravaClient) (method path : jsstring) :
  fst (request fetch syntax_error type_error c method path JUndef)
  = [ mkCall (apiUrl c ++ path)
        (mkInit method
           [ (js "Authorization", js "Bearer " ++ accessToken c);
             (js "Content-Type", js "application/json") ]
           None) ].
Proof. reflexivity. Qed.

(** Every call of [request], with or without a body. *)
Lemma request_call (fetch : Call -> result Response)
  (syntax_error : jsstring -> jsstring) (type_error : jsstring)
  (c : StravaClient) (method path : jsstring) (body : jsval) (call : Call) :
  In call (fst (request fetch syntax_error type_error c method path body)) ->
  call_url call = apiUrl c ++ path
  /\ init_method (call_init call) = method
  /\ init_headers (call_init call)
     = [ (js "Authorization", js "Bearer " ++ accessToken c);
         (js "Content-Type", js "application/json") ].
Proof.
  unfold request. cbv zeta.
  destruct (if truthy body then stringify body else Ok None) as [bodyText| |];
    cbn [fst In]; intros H; try contradiction.
  destruct H as [<-|[]]. repeat split.
Qed.

(** X14. The client sends the credential of the caller on with
    every call, with or without a body.  For an [Authorization] header
    [Bearer t] with [t] not empty, the handler of [/mcp] builds the
    client with the token [t], and every call of that client carries
    the header of the caller unchanged; a header that is not empty and
    does not contain [Bearer ] is taken whole as the token and goes
    upstream behind [Bearer ]. *)
Theorem X14_bearer_forwarded (fetch : Call -> result Response)
  (syntax_error : jsstring -> jsstring) (type_error : jsstring)
  (r : Request) (h : jsstring) :
  header r (js "authorization") = Some h ->
  (forall t, h = js "Bearer " ++ t -> t <> [] ->
     mcp r = Ok (RespTransport t)
     /\ mcp_client r = Some (new_StravaClient t)
     /\ forall method path body call,
          In call (fst (request fetch syntax_error type_error
                          (new_StravaClient t) method path body)) ->
          call_url call = js "https://www.strava.com/api/v3" ++ path
          /\ sp_get (js "Authorization") (init_headers (call_init call)) = Some h)
  /\ (h <> [] -> includes (js "Bearer ") h = false ->
      mcp r = Ok (RespTransport h)
      /\ mcp_client r = Some (new_StravaClient h)
      /\ forall method path body call,
           In call (fst (request fetch syntax_error type_error
                           (new_StravaClient h) method path body)) ->
           call_url call = js "https://www.strava.com/api/v3" ++ path
           /\ sp_get (js "Authorization") (init_headers (call_init call))
              = Some (js "Bearer " ++ h)).
Proof.
  intros Hh. split.
  - intros t -> Ht.
    assert (E : replace_first (js "Bearer ") [] (js "Bearer " ++ t) = t)
      by (destruct t; reflexivity).
    split; [|split].
    + unfold mcp. cbv zeta. rewrite Hh, E.
      rewrite absent_some by assumption. reflexivity.
    + unfold mcp_client. cbv zeta. rewrite Hh, E.
      rewrite absent_some by assumption. reflexivity.
    + intros method path body call H.
      apply request_call in H as (Hu & _ & Hd). rewrite Hu, Hd.
      split; reflexivity.
  - intros Hne Hi.
    assert (E : replace_first (js "Bearer ") [] h = h)
      by (apply replace_first_absent; [discriminate|assumption]).
    split; [|split].
    + unfold mcp. cbv zeta. rewrite Hh, E.
      rewrite absent_some by assumption. reflexivity.
    + unfold mcp_client. cbv zeta. rewrite Hh, E.
      rewrite absent_some by assumption. reflexivity.
    + intros method path body call H.
      apply request_call in H as (Hu & _ & Hd). rewrite Hu, Hd.
      split; reflexivity.
Qed.

(** X15. [request] never returns a value for a response that is not
    ok.  What it throws is a [StravaAPIError] that carries the status
    of the response, or the [TypeError] of the conversion of the
    message: the latter only when the body is JSON with a truthy
    [message] whose conversion to a string throws.  It does throw
    whenever the body is JSON of this development or no JSON. *)
Theorem X15_request_not_ok (fetch : Call -> result Response)
  (syntax_error : jsstring -> jsstring) (type_error : jsstring)
  (c : StravaClient) (method path : jsstring) (body : jsval)
  (call : Call) (response : Response) :
  fst (request fetch syntax_error type_error c method path body) = [call] ->
  fetch call = Returned response -> resp_ok response = false ->
  (forall v,
     snd (request fetch syntax_error type_error c method path body) <> Returned v)
  /\ (forall e,
        snd (request fetch syntax_error type_error c method path body) = Raised e ->
        (exists message errors,
           e = StravaAPIError message (resp_status response) errors)
        \/ (e = ErrorInstance type_error
            /\ exists data m,
                 json_parse (resp_text response) = Ok data
                 /\ get_prop data (js "message") = Ok m
                 /\ truthy m = true /\ to_string m = Throw))
  /\ (json_parse (resp_text response) <> Unsupported ->
      exists e,
        snd (request fetch syntax_error type_error c method path body) = Raised e).
Proof.
  unfold request. cbv zeta.
  destruct (if truthy body then stringify body else Ok None) as [bodyText| |];
    cbn [fst snd]; try discriminate.
  intros Hc Hf Hok. apply singleton_eq in Hc. subst call. rewrite Hf.
  cbn [result_bind]. rewrite Hok. cbn [negb].
  destruct (json_parse (resp_text response)) as [data| |] eqn:Pd;
    cbn [bind try_catch].
  - pose proof (json_parse_whole _ Pd) as Wd.
    destruct (get_prop data (js "message")) as [m| |] eqn:Gm;
      cbn [bind try_catch].
    + assert (Wm : truthy m = true -> whole_value m = true).
      { destruct data; cbn [get_prop] in Gm; try discriminate;
          apply ok_eq in Gm; subst m; try discriminate.
        destruct (assoc (js "message") l) eqn:A; [|discriminate].
        intros _. exact (whole_member _ _ Wd A). }
      destruct (get_prop data (js "errors")) as [errs| |] eqn:Ge;
        cbn [bind try_catch].
      * destruct (truthy m) eqn:Tm.
        -- specialize (Wm eq_refl). pose proof (to_string_whole _ Wm) as Um.
           destruct (to_string m) as [text| |] eqn:Sm; [| |congruence].
           ++ repeat split; try discriminate; eauto.
              intros e H. left. injection H as <-. eauto.
           ++ repeat split; try discriminate; eauto.
              intros e H. right. injection H as <-.
              split; [reflexivity|]. exists data, m. auto.
        -- cbn [to_string]. repeat split; try discriminate; eauto.
           intros e H. left. injection H as <-. eauto.
      * cbn [to_string]. repeat split; try discriminate; eauto.
        intros e H. left. injection H as <-. eauto.
      * destruct data; discriminate.
    + cbn [to_string]. repeat split; try discriminate; eauto.
      intros e H. left. injection H as <-. eauto.
    + destruct data; discriminate.
  - cbn [to_string]. repeat split; try discriminate; eauto.
    intros e H. left. injection H as <-. eauto.
  - repeat split; try discriminate. intros H. congruence.
Qed.

(** The error of a response whose body is the JSON text of an object
    with a [message] that is a string and not empty. *)
Lemma request_error_body (fetch : Call -> result Response)
  (syntax_error : jsstring -> jsstring) (type_error : jsstring)
  (c : StravaClient)
  (method path : jsstring) (body : jsval) (call : Call) (response : Response)
  (fields : list (jsstring * jsval)) (M : jsstring) :
  fst (request fetch syntax_error type_error c method path body) = [call] ->
  fetch call = Returned response -> resp_ok response = false ->
  json_value (JObj fields) = true ->
  stringify (JObj fields) = Ok (Some (resp_text response)) ->
  assoc (js "message") fields = Some (JStr M) -> M <> [] ->
  snd (request fetch syntax_error type_error c method path body)
  = Raised (StravaAPIError M (resp_status response)
              (match assoc (js "errors") fields with
               | Some x => x
               | None => JUndef
               end)).
Proof.
  unfold request. cbv zeta.
  destruct (if truthy body then stringify body else Ok None) as [bodyText| |];
    cbn [fst snd]; try discriminate.
  intros Hc Hf Hok Hv St Hm HM. apply singleton_eq in Hc. subst call. rewrite Hf.
  cbn [result_bind]. rewrite Hok. cbn [negb].
  destruct (json_parse_stringify _ Hv) as (t & St' & _ & Pt & _).
  rewrite St in St'. apply ok_eq in St'. injection St' as <-.
  rewrite Pt. cbn [bind get_prop]. rewrite Hm.
  destruct M as [|x M]; [congruence|]. reflexivity.
Qed.

(** X16. For a response that is not ok and whose body is the JSON
    text of an object with a [message] that is a string and not empty,
    [request] throws the [StravaAPIError] with that message, the
    status of the response and the [errors] member of the body
    ([undefined] without one).  (No key of the body starts with a
    digit.) *)
Theorem X16_request_error_body (fetch : Call -> result Response)
  (syntax_error : jsstring -> jsstring) (type_error : jsstring)
  (c : StravaClient)
  (method path : jsstring) (body : jsval) (call : Call) (response : Response)
  (fields : list (jsstring * jsval)) (M : jsstring) :
  fst (request fetch syntax_error type_error c method path body) = [call] ->
  fetch call = Returned response -> resp_ok response = false ->
  json_value (JObj fields) = true -> plain_keys (JObj fields) = true ->
  stringify (JObj fields) = Ok (Some (resp_text response)) ->
  assoc (js "message") fields = Some (JStr M) -> M <> [] ->
  snd (request fetch syntax_error type_error c method path body)
  = Raised (StravaAPIError M (resp_status response)
              (match assoc (js "errors") fields with
               | Some x => x
               | None => JUndef
               end)).
Proof.
  intros Hc Hf Hok Hv _ St Hm HM.
  exact (@request_error_body fetch syntax_error type_error c method path body
           call response fields M Hc Hf Hok Hv St Hm HM).
Qed.

(** A text that starts with [<] is not JSON. *)
Lemma json_parse_markup (rest : jsstring) : json_parse (60 :: rest) = Throw.
Proof. reflexivity. Qed.

(** X17. For a response that is not ok and whose body is not JSON,
    the [StravaAPIError] has no [errors] and its message is the body
    itself, when the body starts with [<] (markup), and
    [Strava API error: ] with the status when the body is empty. *)
Theorem X17_request_not_json (fetch : Call -> result Response)
  (syntax_error : jsstring -> jsstring) (type_error : jsstring)
  (c : StravaClient)
  (method path : jsstring) (body : jsval) (call : Call) (response : Response) :
  fst (request fetch syntax_error type_error c method path body) = [call] ->
  fetch call = Returned response -> resp_ok response = false ->
  (resp_text response = [] ->
   snd (request fetch syntax_error type_error c method path body)
   = Raised (StravaAPIError
               (js "Strava API error: " ++ num_to_string (resp_status response))
               (resp_status response) JUndef))
  /\ (forall rest, resp_text response = js "<" ++ rest ->
      snd (request fetch syntax_error type_error c method path body)
      = Raised (StravaAPIError (resp_text response) (resp_status response) JUndef)).
Proof.
  unfold request. cbv zeta.
  destruct (if truthy body then stringify body else Ok None) as [bodyText| |];
    cbn [fst snd]; try discriminate.
  intros Hc Hf Hok. apply singleton_eq in Hc. subst call. rewrite Hf.
  cbn [result_bind]. rewrite Hok. cbn [negb].
  split.
  - intros ->. reflexivity.
  - intros rest ->. change (js "<" ++ rest) with (60 :: rest).
    rewrite json_parse_markup. reflexivity.
Qed.

(* ================================================================= *)
(** ** Queries *)

Lemma upper_hexdigit_query (d : N) : query_char (upper_hexdigit d) = true.
Proof.
  unfold query_char, upper_hexdigit.
  destruct (N.ltb_spec d 10);
    apply andb_true_iff; split; apply negb_true_iff, N.eqb_neq; lia.
Qed.

Lemma form_byte_query (b : N) : forallb query_char (form_byte b) = true.
Proof.
  unfold form_byte. destruct (b =? 32); [reflexivity|].
  destruct (form_plain b) eqn:E.
  - cbn [forallb]. rewrite andb_true_r. unfold query_char.
    destruct (N.eqb_spec b 38) as [->|]; [discriminate|].
    destruct (N.eqb_spec b 61) as [->|]; [discriminate|]. reflexivity.
  - cbn [forallb]. now rewrite !upper_hexdigit_query.
Qed.

(** The encoding of a name or a value has neither [&] nor [=]. *)
Lemma form_encode_query (s : jsstring) : forallb query_char (form_encode s) = true.
Proof.
  unfold form_encode. induction (utf8_encode s) as [|b l IH]; [reflexivity|].
  cbn [flat_map]. rewrite forallb_app, form_byte_query, IH. reflexivity.
Qed.

Lemma query_no_amp (s : jsstring) :
  forallb query_char s = true -> forallb (fun c => negb (c =? 38)) s = true.
Proof.
  apply forallb_impl. intros a H. unfold query_char in H.
  now apply andb_true_iff in H as [H _].
Qed.

Lemma query_no_eq (s : jsstring) :
  forallb query_char s = true -> forallb (fun c => negb (c =? 61)) s = true.
Proof.
  apply forallb_impl. intros a H. unfold query_char in H.
  now apply andb_true_iff in H as [_ H].
Qed.

Lemma pair_text_no_amp (p : jsstring * jsstring) :
  forallb (fun c => negb (c =? 38)) (pair_text p) = true.
Proof.
  unfold pair_text. rewrite !forallb_app.
  rewrite (query_no_amp _ (form_encode_query (fst p))).
  rewrite (query_no_amp _ (form_encode_query (snd p))). reflexivity.
Qed.

Lemma pair_text_name (p : jsstring * jsstring) :
  hd [] (split_char 61 (pair_text p)) = form_encode (fst p).
Proof.
  unfold pair_text. change (js "=" ++ ?x) with (61 :: x).
  rewrite split_char_app by (apply query_no_eq, form_encode_query). reflexivity.
Qed.

(** The text of a list of parameters that is not empty splits at [&]
    into the texts of its pairs. *)
Lemma split_params (p : jsstring * jsstring) (l : list (jsstring * jsstring)) :
  split_char 38 (params_toString (p :: l)) = List.map pair_text (p :: l).
Proof.
  unfold params_toString.
  change (fun p0 : jsstring * jsstring =>
            form_encode (fst p0) ++ js "=" ++ form_encode (snd p0)) with pair_text.
  revert p. induction l as [|q l IH]; intros p.
  - cbn [List.map join]. apply split_char_last, pair_text_no_amp.
  - cbn [List.map join] in *. change (js "&" ++ ?x) with (38 :: x).
    rewrite split_char_app by apply pair_text_no_amp.
    f_equal. apply IH.
Qed.

Lemma param_names (p : jsstring * jsstring) (l : list (jsstring * jsstring)) :
  List.map (fun part => hd [] (split_char 61 part))
    (split_char 38 (params_toString (p :: l)))
  = List.map (fun q => form_encode (fst q)) (p :: l).
Proof.
  rewrite split_params, map_map. apply map_ext. intros q. apply pair_text_name.
Qed.

Lemma number_text_safe (z : Z) :
  safe_int z = true -> number_text z = Ok (num_to_string z).
Proof. unfold number_text. cbn [to_string]. now intros ->. Qed.

Ltac eval_names :=
  repeat match goal with
         | |- context [form_encode (js ?a)] =>
             let v := eval vm_compute in (form_encode (js a)) in
             change (form_encode (js a)) with v
         end.

(** X18. [createActivity] sends one POST without body to
    [/activities?] and a query whose parts, cut at [&], are named, in
    order: [name], [sport_type], [start_date_local], [elapsed_time],
    then [description] when it is not empty, [distance] when it is
    not [0], [trainer] and [commute] when they are given.  No name,
    date or description adds or renames a parameter. *)
Theorem X18_createActivity_parameters (fetch : Call -> result Response)
  (syntax_error : jsstring -> jsstring) (type_error : jsstring) (c : StravaClient)
  (input : CreateActivityInput) :
  safe_int (input_elapsed_time input) = true ->
  safe_option (input_distance input) = true ->
  exists call query,
    fst (createActivity fetch syntax_error type_error c input) = [call]
    /\ call_url call = apiUrl c ++ js "/activities?" ++ query
    /\ init_method (call_init call) = js "POST"
    /\ init_body (call_init call) = None
    /\ List.map (fun part => hd [] (split_char 61 part)) (split_char 38 query)
       = [js "name"; js "sport_type"; js "start_date_local"; js "elapsed_time"]
         ++ (if absent (input_description input) then [] else [js "description"])
         ++ match input_distance input with
            | Some d => if (d =? 0)%Z then [] else [js "distance"]
            | None => []
            end
         ++ match input_trainer input with
            | Some _ => [js "trainer"]
            | None => []
            end
         ++ match input_commute input with
            | Some _ => [js "commute"]
            | None => []
            end.
Proof.
  intros He Hd. unfold createActivity, request_at. cbv zeta.
  rewrite (number_text_safe _ He). cbn [bind].
  destruct input as [n st sd el desc dist tr co]. cbn [input_name input_sport_type
    input_start_date_local input_elapsed_time input_description input_distance
    input_trainer input_commute] in *.
  assert (Hdist : forall params,
             set_number (js "distance") dist params
             = Ok match dist with
                  | Some d => if (d =? 0)%Z then params
                              else sp_set (js "distance") (num_to_string d) params
                  | None => params
                  end).
  { intros params. destruct dist as [d|]; [|reflexivity]. cbn [set_number].
    destruct (d =? 0)%Z; [reflexivity|].
    rewrite (number_text_safe _ Hd). reflexivity. }
  rewrite Hdist. cbn [bind].
  eexists. eexists. split; [apply request_calls|].
  cbn [call_url call_init init_method init_body].
  split; [reflexivity|]. split; [reflexivity|]. split; [reflexivity|].
  destruct (absent desc); destruct dist as [d|]; try destruct (d =? 0)%Z;
    destruct tr as [tr|]; destruct co as [co|];
    repeat (progress (cbn [sp_set set_flag filter fst negb]; eval_keys));
    rewrite param_names; cbn [List.map fst app]; eval_names; reflexivity.
Qed.

Lemma form_plain_small (c : N) : form_plain c = true -> c < 128 /\ c <> 32.
Proof.
  unfold form_plain.
  repeat rewrite ?orb_true_iff, ?andb_true_iff, ?N.leb_le, ?N.eqb_eq. lia.
Qed.

(** A text of letters, digits and [*-._] is its own encoding. *)
Lemma form_encode_plain (s : jsstring) :
  forallb form_plain s = true -> form_encode s = s.
Proof.
  unfold form_encode. induction s as [|c r IH]; [reflexivity|].
  cbn [forallb]. intros H. apply andb_true_iff in H as [Hc Hr].
  destruct (form_plain_small _ Hc) as [Hs Hn].
  cbn [utf8_encode]. unfold is_high_surrogate, is_low_surrogate.
  replace (55296 <=? c) with false by (symmetry; apply N.leb_gt; lia).
  replace (56320 <=? c) with false by (symmetry; apply N.leb_gt; lia).
  cbn [andb]. unfold utf8_of_code_point.
  replace (c <? 128) with true by (symmetry; apply N.ltb_lt; lia).
  cbn [app flat_map]. rewrite (IH Hr). unfold form_byte.
  replace (c =? 32) with false by (symmetry; apply N.eqb_neq; lia).
  rewrite Hc. reflexivity.
Qed.

Lemma uint_chars_plain (d : Decimal.uint) : forallb form_plain (uint_chars d) = true.
Proof. induction d; cbn; auto. Qed.

Lemma form_encode_number (z : Z) : form_encode (num_to_string z) = num_to_string z.
Proof.
  apply form_encode_plain. unfold num_to_string.
  destruct (z <? 0)%Z; cbn [forallb]; now rewrite uint_chars_plain.
Qed.

(** X19. [listAthleteActivities] sends one call to
    [/athlete/activities], followed by [?] and, joined by [&],
    [before], [after], [page] and [per_page] with their decimal
    values, in this order, for the options that are given and not
    [0]; an option that is [0] is left out like one that is not
    given, and without any option left there is no [?]. *)
Theorem X19_listAthleteActivities_url (fetch : Call -> result Response)
  (syntax_error : jsstring -> jsstring) (type_error : jsstring) (c : StravaClient)
  (before after page per_page : option Z) :
  forallb safe_option [before; after; page; per_page] = true ->
  exists call,
    fst (listAthleteActivities fetch syntax_error type_error c before after page per_page)
    = [call]
    /\ call_url call
       = apiUrl c
         ++ with_query (js "/athlete/activities")
              (join (js "&")
                 (shown (js "before") before ++ shown (js "after") after
                  ++ shown (js "page") page ++ shown (js "per_page") per_page)).
Proof.
  intros Hs. unfold listAthleteActivities, request_at.
  assert (Hn : forall k x params,
             In x [before; after; page; per_page] ->
             set_number k x params
             = Ok match x with
                  | Some z => if (z =? 0)%Z then params
                              else sp_set k (num_to_string z) params
                  | None => params
                  end).
  { intros k x params Hx. destruct x as [z|]; [|reflexivity]. cbn [set_number].
    destruct (z =? 0)%Z; [reflexivity|].
    rewrite forallb_forall in Hs.
    rewrite (number_text_safe _ (Hs _ Hx)). reflexivity. }
  repeat (rewrite Hn by (cbn [In]; auto); cbn [bind]). clear Hn Hs.
  eexists. split; [apply request_calls|]. cbn [call_url]. f_equal.
  unfold shown.
  destruct before as [b|]; try destruct (b =? 0)%Z;
    destruct after as [a|]; try destruct (a =? 0)%Z;
    destruct page as [p|]; try destruct (p =? 0)%Z;
    destruct per_page as [q|]; try destruct (q =? 0)%Z;
    repeat (progress (cbn [sp_set filter fst negb]; eval_keys));
    unfold params_toString; cbn [List.map fst snd app join];
    rewrite ?form_encode_number; eval_names; reflexivity.
Qed.

(* ================================================================= *)
(** ** Durations *)

Lemma read_part_number (z : Z) (u : N) (rest : jsstring) (k : jsstring -> Z) :
  (0 <= z)%Z -> digit_of u = None ->
  read_part (num_to_string z ++ u :: rest) k
  = (z * (if (u =? 104)%N then 3600 else if (u =? 109)%N then 60 else 1)
     + k (skipn 1 rest))%Z.
Proof.
  intros Hz Hu. unfold read_part, num_to_string.
  replace (z <? 0)%Z with false by (symmetry; apply Z.ltb_ge; lia).
  rewrite read_digits_chars by exact Hu.
  rewrite DecimalN.Unsigned.of_to.
  replace (Z.of_N (Z.abs_N z)) with z by lia. reflexivity.
Qed.

(** The text of a duration that is not negative stands for it. *)
Lemma duration_value_format (z : Z) :
  (0 <= z)%Z -> duration_value (formatDuration z) = z.
Proof.
  intros Hz. unfold formatDuration, duration_value. cbv zeta.
  rewrite !Z.rem_mod_nonneg by lia.
  assert (Hh : (0 <= z / 3600)%Z) by (apply Z.div_pos; lia).
  assert (Hm : (0 <= z mod 3600 / 60)%Z).
  { apply Z.div_pos; [|lia]. apply Z.mod_pos_bound. lia. }
  assert (Hs : (0 <= z mod 60)%Z) by (apply Z.mod_pos_bound; lia).
  destruct (Z.ltb_spec 0 (z / 3600)) as [H1|H1].
  - change (js "h " ++ ?x) with (104 :: 32 :: x).
    change (js "m " ++ ?x) with (109 :: 32 :: x).
    change (js "s") with [115].
    rewrite read_part_number by (assumption || reflexivity). cbn [skipn].
    rewrite read_part_number by (assumption || reflexivity). cbn [skipn].
    rewrite read_part_number by (assumption || reflexivity).
    cbn [N.eqb Pos.eqb].
    zify; Z.to_euclidean_division_equations; lia.
  - destruct (Z.ltb_spec 0 (z mod 3600 / 60)) as [H2|H2].
    + change (js "m " ++ ?x) with (109 :: 32 :: x).
      change (js "s") with [115].
      rewrite read_part_number by (assumption || reflexivity). cbn [skipn].
      rewrite read_part_number by (assumption || reflexivity).
      cbn [N.eqb Pos.eqb skipn read_part read_digits].
      zify; Z.to_euclidean_division_equations; lia.
    + change (js "s") with [115].
      rewrite read_part_number by (assumption || reflexivity).
      cbn [N.eqb Pos.eqb skipn read_part read_digits].
      zify; Z.to_euclidean_division_equations; lia.
Qed.

(** X20. [formatDuration] writes different texts for different whole
    numbers of seconds from 0 to [max_safe], the numbers for which
    the quotients of the code are those of [formatDuration]. *)
Theorem X20_formatDuration_distinct (a b : Z) :
  (0 <= a <= max_safe)%Z -> (0 <= b <= max_safe)%Z -> a <> b ->
  formatDuration a <> formatDuration b.
Proof.
  intros [Ha _] [Hb _] Hab H. apply Hab.
  rewrite <- (duration_value_format Ha), <- (duration_value_format Hb).
  now rewrite H.
Qed.

(** X21. For a negative whole number of seconds [formatDuration]
    writes only the remainder of the division by 60, with its sign,
    and [s]: hours and minutes are dropped. *)
Theorem X21_formatDuration_negative (seconds : Z) :
  (seconds < 0)%Z ->
  formatDuration seconds = num_to_string (Z.rem seconds 60) ++ js "s".
Proof.
  intros H. unfold formatDuration. cbv zeta.
  replace (0 <? seconds / 3600)%Z with false
    by (symmetry; apply Z.ltb_ge; Z.to_euclidean_division_equations; lia).
  replace (0 <? Z.rem seconds 3600 / 60)%Z with false; [reflexivity|].
  symmetry. apply Z.ltb_ge. Z.to_euclidean_division_equations. lia.
Qed.

(* ================================================================= *)
(** ** Conversions that do not throw *)

Lemma stringify_elems_returns (f : jsval -> outcome (option jsstring)) (l : list jsval) :
  Forall (fun x => f x <> Throw) l -> stringify_elems f l <> Throw.
Proof.
  induction 1 as [|x l Hx _ IH]; cbn [stringify_elems]; [discriminate|].
  destruct (f x); cbn [bind]; try congruence.
  destruct (stringify_elems f l); cbn [bind]; congruence.
Qed.

Lemma stringify_members_returns (f : jsval -> outcome (option jsstring))
  (l : list (jsstring * jsval)) :
  Forall (fun kv => f (snd kv) <> Throw) l -> stringify_members f l <> Throw.
Proof.
  induction 1 as [|[k x] l Hx _ IH]; cbn [stringify_members]; [discriminate|].
  cbn [snd] in Hx. destruct (f x); cbn [bind]; try congruence.
  destruct (stringify_members f l); cbn [bind]; congruence.
Qed.

Lemma indent_members_returns (f : jsval -> outcome (option jsstring))
  (l : list (jsstring * jsval)) :
  Forall (fun kv => f (snd kv) <> Throw) l -> indent_members f l <> Throw.
Proof.
  induction 1 as [|[k x] l Hx _ IH]; cbn [indent_members]; [discriminate|].
  cbn [snd] in Hx. destruct (f x); cbn [bind]; try congruence.
  destruct (indent_members f l); cbn [bind]; congruence.
Qed.

(** [JSON.stringify] throws on no value of [jsval]. *)
Lemma stringify_returns (v : jsval) : stringify v <> Throw.
Proof.
  induction v as [| |b|z|s|l IH|l IH] using jsval_induction; cbn [stringify];
    try discriminate.
  - destruct (safe_int z); discriminate.
  - pose proof (stringify_elems_returns stringify IH) as H.
    destruct (stringify_elems stringify l); cbn [bind]; congruence.
  - pose proof (stringify_members_returns stringify IH) as H.
    destruct (stringify_members stringify l); cbn [bind]; congruence.
Qed.

Lemma stringify_indent_returns (v : jsval) :
  forall indent, stringify_indent indent v <> Throw.
Proof.
  induction v as [| |b|z|s|l IH|l IH] using jsval_induction; intros indent;
    cbn [stringify_indent]; try apply stringify_returns.
  - assert (H : stringify_elems (stringify_indent (indent ++ js "  ")) l <> Throw).
    { apply stringify_elems_returns. eapply Forall_impl; [|exact IH].
      intros x Hx. apply Hx. }
    destruct (stringify_elems _ l); cbn [bind]; congruence.
  - assert (H : indent_members (stringify_indent (indent ++ js "  ")) l <> Throw).
    { apply indent_members_returns. eapply Forall_impl; [|exact IH].
      intros x Hx. apply Hx. }
    destruct (indent_members _ l); cbn [bind]; congruence.
Qed.

(** [formatResult] throws on no argument. *)
Lemma formatResult_returns (data : jsval) : formatResult data <> Throw.
Proof. apply stringify_indent_returns. Qed.

Lemma number_text_returns (z : Z) : number_text z <> Throw.
Proof. unfold number_text. cbn [to_string]. destruct (safe_int z); discriminate. Qed.

(** [handleError] throws only on a value that is no [Error] and whose
    conversion to a string throws. *)
Lemma handleError_throws (error : thrown) :
  handleError error = Throw ->
  exists v, error = NonError v /\ to_string v = Throw.
Proof.
  destruct error as [m st errs|m|v]; cbn [handleError]; try discriminate.
  - pose proof (number_text_returns st) as H1.
    destruct (number_text st); cbn [bind]; try congruence.
    destruct (truthy errs); cbn [bind]; [|discriminate].
    pose proof (stringify_returns errs) as H2.
    destruct (stringify errs); cbn [bind]; congruence.
  - intros H. exists v. split; [reflexivity|].
    destruct (to_string v); cbn [bind] in H; congruence.
Qed.

(* ================================================================= *)
(** ** The tool [get_gear] *)

(** What [request] throws that is no [Error] was thrown by [fetch]. *)
Lemma request_raises (fetch : Call -> result Response)
  (syntax_error : jsstring -> jsstring) (type_error : jsstring)
  (c : StravaClient) (method path : jsstring) (body v : jsval) :
  snd (request fetch syntax_error type_error c method path body)
  = Raised (NonError v) ->
  exists call,
    fst (request fetch syntax_error type_error c method path body) = [call]
    /\ fetch call = Raised (NonError v).
Proof.
  unfold request. cbv zeta.
  destruct (if truthy body then stringify body else Ok None) as [bodyText| |];
    cbn [fst snd]; try discriminate.
  intros H. eexists. split; [reflexivity|].
  destruct (fetch _) as [response|e|]; cbn [result_bind] in H;
    try discriminate; [exfalso|injection H as ->; reflexivity].
  destruct (negb (resp_ok response)).
  - destruct (try_catch _ _) as [[m errs]| |]; try discriminate.
    destruct (to_string m); discriminate.
  - destruct (resp_status response =? 204)%Z; [discriminate|].
    destruct (json_parse _); discriminate.
Qed.

(** What [request] makes of a response whose body is JSON of this
    development or no JSON: a parsed value, a [StravaAPIError] with
    the status and parsed [errors], or another [Error]. *)
Lemma request_answer (fetch : Call -> result Response)
  (syntax_error : jsstring -> jsstring) (type_error : jsstring)
  (c : StravaClient) (method path : jsstring) (body : jsval)
  (call : Call) (response : Response) :
  fst (request fetch syntax_error type_error c method path body) = [call] ->
  fetch call = Returned response ->
  json_parse (resp_text response) <> Unsupported ->
  (exists v,
     snd (request fetch syntax_error type_error c method path body) = Returned v
     /\ whole_value v = true)
  \/ (exists m errs,
        snd (request fetch syntax_error type_error c method path body)
        = Raised (StravaAPIError m (resp_status response) errs)
        /\ (truthy errs = true -> whole_value errs = true))
  \/ (exists m,
        snd (request fetch syntax_error type_error c method path body)
        = Raised (ErrorInstance m)).
Proof.
  unfold request. cbv zeta.
  destruct (if truthy body then stringify body else Ok None) as [bodyText| |];
    cbn [fst snd]; try discriminate.
  intros Hc Hf Hp. apply singleton_eq in Hc. subst call. rewrite Hf.
  cbn [result_bind].
  destruct (json_parse (resp_text response)) as [data| |] eqn:Pd;
    [| |congruence].
  - pose proof (json_parse_whole _ Pd) as Wd.
    destruct (negb (resp_ok response)).
    + cbn [bind try_catch].
      destruct (get_prop data (js "message")) as [m| |] eqn:Gm;
        cbn [bind try_catch];
        [| |destruct data; discriminate].
      * assert (Wm : truthy m = true -> whole_value m = true).
        { destruct data; cbn [get_prop] in Gm; try discriminate;
            apply ok_eq in Gm; subst m; try discriminate.
          destruct (assoc (js "message") l) eqn:A; [|discriminate].
          intros _. exact (whole_member _ _ Wd A). }
        destruct (get_prop data (js "errors")) as [errs| |] eqn:Ge;
          cbn [bind try_catch];
          [| |destruct data; discriminate].
        -- assert (We : truthy errs = true -> whole_value errs = true).
           { destruct data; cbn [get_prop] in Ge; try discriminate;
               apply ok_eq in Ge; subst errs; try discriminate.
             destruct (assoc (js "errors") l) eqn:A; [|discriminate].
             intros _. exact (whole_member _ _ Wd A). }
           destruct (truthy m) eqn:Tm.
           ++ pose proof (to_string_whole _ (Wm eq_refl)) as Um.
              destruct (to_string m) as [text| |]; [| |congruence].
              ** right. left. eauto.
              ** right. right. eauto.
           ++ cbn [to_string]. right. left. eauto.
        -- cbn [to_string]. right. left. do 2 eexists.
           split; [reflexivity|discriminate].
      * cbn [to_string]. right. left. do 2 eexists.
        split; [reflexivity|discriminate].
    + destruct (resp_status response =? 204)%Z; left; eauto.
  - destruct (negb (resp_ok response)).
    + cbn [bind try_catch to_string]. right. left. do 2 eexists.
      split; [reflexivity|discriminate].
    + destruct (resp_status response =? 204)%Z; [left|right; right]; eauto.
Qed.

(** The [catch] of a tool on the errors of the client. *)
Lemma catch_error_api (type_error m : jsstring) (status : Z) (errs : jsval) :
  safe_int status = true ->
  (truthy errs = true -> whole_value errs = true) ->
  exists text,
    catch_error type_error (StravaAPIError m status errs)
    = Returned (text_content (JStr text)).
Proof.
  intros Hs He. unfold catch_error. cbn [handleError].
  rewrite (number_text_safe _ Hs). cbn [bind].
  destruct (truthy errs); cbn [bind]; [|eauto].
  destruct (stringify_whole _ (He eq_refl)) as (t & ->). cbn [bind]. eauto.
Qed.

(** X22. The handler of [get_gear] sends exactly one call, a GET
    without body to the API URL followed by [/gear/] and the id as it
    was given, and it has a text for the caller whatever the upstream
    does: for every response with a status that is a safe integer and
    a body that is JSON of this development or no JSON, and for every
    [Error] that [fetch] throws, it returns a content with one text.
    It throws only when [fetch] throws a value that is no [Error] and
    whose conversion to a string throws, and then the [TypeError] of
    that conversion. *)
Theorem X22_get_gear_total (fetch : Call -> result Response)
  (syntax_error : jsstring -> jsstring) (type_error : jsstring)
  (client : StravaClient) (id : jsstring) :
  exists call,
    fst (get_gear fetch syntax_error type_error client id) = [call]
    /\ call_url call = apiUrl client ++ js "/gear/" ++ id
    /\ init_method (call_init call) = js "GET"
    /\ init_body (call_init call) = None
    /\ (forall response,
          fetch call = Returned response ->
          safe_int (resp_status response) = true ->
          json_parse (resp_text response) <> Unsupported ->
          exists text,
            snd (get_gear fetch syntax_error type_error client id)
            = Returned (text_content (JStr text)))
    /\ (forall message,
          fetch call = Raised (ErrorInstance message) ->
          snd (get_gear fetch syntax_error type_error client id)
          = Returned (text_content (JStr (js "Error: " ++ message))))
    /\ (forall e,
          snd (get_gear fetch syntax_error type_error client id) = Raised e ->
          e = ErrorInstance type_error
          /\ exists v, fetch call = Raised (NonError v) /\ to_string v = Throw).
Proof.
  pose proof (request_calls fetch syntax_error type_error client (js "GET")
                (js "/gear/" ++ id)) as C.
  pose proof (@request_answer fetch syntax_error type_error client (js "GET")
                (js "/gear/" ++ id) JUndef) as A.
  pose proof (@request_raises fetch syntax_error type_error client (js "GET")
                (js "/gear/" ++ id) JUndef) as N.
  assert (F : forall message call,
             fst (request fetch syntax_error type_error client (js "GET")
                    (js "/gear/" ++ id) JUndef) = [call] ->
             fetch call = Raised (ErrorInstance message) ->
             snd (request fetch syntax_error type_error client (js "GET")
                    (js "/gear/" ++ id) JUndef)
             = Raised (ErrorInstance message)).
  { intros message call Hc Hf. rewrite C in Hc. apply singleton_eq in Hc.
    subst call. unfold request. cbv zeta. cbn [truthy fst snd].
    rewrite Hf. reflexivity. }
  unfold get_gear, getGear.
  destruct (request fetch syntax_error type_error client (js "GET")
              (js "/gear/" ++ id) JUndef) as [calls gear].
  cbn [fst snd] in *. subst calls.
  eexists. do 4 (split; [reflexivity|]). split; [|split].
  - intros response Hf Hs Hp.
    destruct (A _ response eq_refl Hf Hp)
      as [(v & -> & Wv)|[(m & errs & -> & We)|(m & ->)]].
    + unfold formatResult.
      destruct (stringify_indent_whole _ Wv []) as (t & ->). eauto.
    + now apply catch_error_api.
    + unfold catch_error. cbn [handleError]. eauto.
  - intros message Hf. rewrite (F message _ eq_refl Hf). reflexivity.
  - intros e H. destruct gear as [v|err|]; try discriminate.
    + pose proof (formatResult_returns v) as R.
      destruct (formatResult v); try discriminate; congruence.
    + unfold catch_error in H.
      destruct (handleError err) eqn:E; try discriminate.
      injection H as <-. split; [reflexivity|].
      destruct (handleError_throws _ E) as (v & -> & Tv).
      destruct (N v eq_refl) as (call & Hc & Hf).
      apply singleton_eq in Hc. subst call. eauto.
Qed.

(** The members of a JSON object are JSON values. *)
Lemma json_value_member (k : jsstring) (fields : list (jsstring * jsval)) (v : jsval) :
  json_value (JObj fields) = true -> assoc k fields = Some v -> json_value v = true.
Proof.
  cbn [json_value]. intros H Ha. apply andb_true_iff in H as [H _].
  induction fields as [|[k' v'] l IH]; [discriminate|].
  cbn [forallb fst snd] in H. apply andb_true_iff in H as [Hk Hl].
  apply andb_true_iff in Hk as [_ Hv].
  cbn [assoc] in Ha. destruct (str_eqb k k'); [congruence|auto].
Qed.

(** X23. When the upstream answers [get_gear] with a status that is
    not ok and a JSON object with a [message], no key of which starts
    with a digit, the tool returns one text: [Strava API Error (],
    the status, [): ] and the message, followed, when the body has
    truthy [errors], by a line break, [Errors: ] and their JSON
    text. *)
Theorem X23_get_gear_error_text (fetch : Call -> result Response)
  (syntax_error : jsstring -> jsstring) (type_error : jsstring)
  (client : StravaClient) (id : jsstring)
  (call : Call) (response : Response)
  (fields : list (jsstring * jsval)) (M : jsstring) :
  fst (get_gear fetch syntax_error type_error client id) = [call] ->
  fetch call = Returned response -> resp_ok response = false ->
  safe_int (resp_status response) = true ->
  json_value (JObj fields) = true -> plain_keys (JObj fields) = true ->
  stringify (JObj fields) = Ok (Some (resp_text response)) ->
  assoc (js "message") fields = Some (JStr M) -> M <> [] ->
  let head :=
    js "Strava API Error (" ++ num_to_string (resp_status response)
    ++ js "): " ++ M in
  (assoc (js "errors") fields = None ->
   snd (get_gear fetch syntax_error type_error client id)
   = Returned (text_content (JStr head)))
  /\ (forall E, assoc (js "errors") fields = Some E -> truthy E = true ->
      exists t,
        stringify E = Ok (Some t)
        /\ snd (get_gear fetch syntax_error type_error client id)
           = Returned (text_content
                         (JStr (head ++ newline ++ js "Errors: " ++ t)))).
Proof.
  intros Hc Hf Hok Hst Hv _ St Hm HM head.
  assert (R : snd (getGear fetch syntax_error type_error client id)
              = Raised (StravaAPIError M (resp_status response)
                          (match assoc (js "errors") fields with
                           | Some x => x
                           | None => JUndef
                           end))).
  { unfold getGear.
    apply (@request_error_body fetch syntax_error type_error client (js "GET")
             (js "/gear/" ++ id) JUndef call response fields M); assumption. }
  unfold get_gear.
  destruct (getGear fetch syntax_error type_error client id) as [calls gear].
  cbn [snd] in *. subst gear. unfold catch_error. cbn [handleError].
  rewrite (number_text_safe _ Hst). cbn [bind]. fold head.
  split.
  - intros ->. reflexivity.
  - intros E HE TE. rewrite HE, TE.
    destruct (json_parse_stringify E (json_value_member _ _ Hv HE))
      as (t & StE & _).
    exists t. split; [assumption|]. rewrite StE. reflexivity.
Qed.

(* ================================================================= *)
(** ** The upstream and the segments of a token *)

(** X24. The answers of the routes other than [POST /mcp], which
    hands the request to the tools and their client, depend on the
    upstream only through calls of the upstream token URL whose
    parameters carry the configured client id and client secret: two
    upstreams that agree on those calls give the same response on
    each of these routes. *)
Theorem X24_upstream_calls (P : Platform)
  (fetch1 fetch2 : jsstring -> list (jsstring * jsstring) -> outcome FetchResponse)
  (rt : Route) (e : Env) (now : Z) (uuid : jsstring) (r : Request) :
  rt <> RMcpPost ->
  (forall fields body,
      params_of_record P (JObj fields) = Ok body ->
      assoc (js "client_id") fields = Some (JStr (the (STRAVA_CLIENT_ID e))) ->
      assoc (js "client_secret") fields
      = Some (JStr (the (STRAVA_CLIENT_SECRET e))) ->
      fetch1 STRAVA_TOKEN_URL body = fetch2 STRAVA_TOKEN_URL body) ->
  app_fetch P fetch1 rt e now uuid r = app_fetch P fetch2 rt e now uuid r.
Proof.
  intros Hrt H. destruct rt; try reflexivity; try congruence.
  cbn [app_fetch]. unfold token. cbv zeta.
  destruct (absent _ || absent _ || absent _); [reflexivity|].
  destruct (token_params P r) as [params| |]; cbn [bind]; try reflexivity.
  destruct (match sp_get (js "grant_type") params with
            | Some g => str_eqb g (js "refresh_token")
            | None => false
            end).
  - destruct (absent (sp_get (js "refresh_token") params)); [reflexivity|].
    destruct (params_of_record P _) as [body| |] eqn:B; cbn [bind];
      try reflexivity.
    rewrite (H _ _ B); reflexivity.
  - destruct (negb _); [reflexivity|].
    destruct (absent (sp_get (js "code") params)); [reflexivity|].
    destruct (decodeState _ _) as [cd| |]; cbn [bind]; try reflexivity.
    destruct (negb (truthy cd)); [reflexivity|].
    destruct (get_prop cd _); cbn [bind]; try reflexivity.
    destruct (params_of_record P _) as [body| |] eqn:B; cbn [bind];
      try reflexivity.
    rewrite (H _ _ B); reflexivity.
Qed.

Lemma atob_whitespace (a b : jsstring) :
  filter not_whitespace a = filter not_whitespace b -> atob a = atob b.
Proof. unfold atob, not_whitespace. now intros ->. Qed.

Lemma filter_no_dot (a b : jsstring) :
  filter not_whitespace a = b ->
  forallb (fun c => negb (c =? 46)) b = true ->
  forallb (fun c => negb (c =? 46)) a = true.
Proof.
  intros <-. induction a as [|c a IH]; [reflexivity|].
  cbn [filter forallb]. destruct (not_whitespace c) eqn:E.
  - cbn [forallb]. intros H. apply andb_true_iff in H as [-> H]. auto.
  - intros H. rewrite (IH H), andb_true_r.
    unfold not_whitespace in E. apply negb_false_iff in E.
    destruct (N.eqb_spec c 46) as [->|]; [discriminate|reflexivity].
Qed.

Lemma filter_nonempty (a b : jsstring) :
  filter not_whitespace a = b -> b <> [] -> a <> [].
Proof. intros <- H ->. now apply H. Qed.

(** [decodeState] reads the segments of a token through [atob]. *)
Lemma decodeState_segments (d s d' s' secret : jsstring) :
  forallb (fun c => negb (c =? 46)) d = true ->
  forallb (fun c => negb (c =? 46)) s = true ->
  d <> [] -> s <> [] ->
  filter not_whitespace d' = filter not_whitespace d ->
  filter not_whitespace s' = filter not_whitespace s ->
  forallb (fun c => negb (c =? 46)) d' = true ->
  forallb (fun c => negb (c =? 46)) s' = true ->
  d' <> [] -> s' <> [] ->
  decodeState (d' ++ 46 :: s') secret = decodeState (d ++ 46 :: s) secret.
Proof.
  intros Hd Hs Nd Ns Fd Fs Hd' Hs' Nd' Ns'. unfold decodeState. cbv zeta.
  destruct (@split_token d s None Hd Hs) as [E0 E1].
  destruct (@split_token d' s' None Hd' Hs') as [E0' E1'].
  rewrite List.app_nil_r in E0, E1, E0', E1'.
  rewrite E0, E1, E0', E1'.
  rewrite !absent_some by assumption. cbn [orb the].
  rewrite (atob_whitespace _ _ Fd), (atob_whitespace _ _ Fs). reflexivity.
Qed.

(** X25. ASCII white space inside the two segments of a token is
    ignored: a token whose segments, once white space is removed, are
    the segments of a token of [encodeState] decodes to the same
    payload. *)
Theorem X25_whitespace_ignored (payload : jsval) (secret token d s d' s' : jsstring) :
  json_value payload = true ->
  encodeState payload secret = Ok token ->
  split_char 46 token = [d; s] ->
  filter not_whitespace d' = d -> filter not_whitespace s' = s ->
  decodeState (d' ++ js "." ++ s') secret = Ok payload.
Proof.
  intros Hv HE Hsplit Fd Fs.
  destruct (encodeState_inv _ _ Hv HE) as (t & Ht & Pt & Lt & Hs & ->).
  rewrite split_char_app in Hsplit by apply b64_encode_no_dot.
  rewrite split_char_last in Hsplit by apply b64_encode_no_dot.
  injection Hsplit as Ed Es.
  assert (Nd : d <> []) by (subst d; now apply b64_encode_nonempty).
  assert (Ns : s <> []) by (subst s; apply b64_encode_nonempty, hmac_nonempty).
  assert (Dd : forallb (fun c => negb (c =? 46)) d = true)
    by (subst d; apply b64_encode_no_dot).
  assert (Ds : forallb (fun c => negb (c =? 46)) s = true)
    by (subst s; apply b64_encode_no_dot).
  assert (Wd : filter not_whitespace d = d).
  { subst d. apply filter_all. eapply forallb_impl; [|apply b64_encode_text].
    intros a H. unfold b64_text in H. unfold not_whitespace.
    apply andb_true_iff in H as [H _]. now apply andb_true_iff in H as [H _]. }
  assert (Ws : filter not_whitespace s = s).
  { subst s. apply filter_all. eapply forallb_impl; [|apply b64_encode_text].
    intros a H. unfold b64_text in H. unfold not_whitespace.
    apply andb_true_iff in H as [H _]. now apply andb_true_iff in H as [H _]. }
  change (js "." ++ s') with (46 :: s').
  rewrite (@decodeState_segments d s d' s' secret); try assumption;
    try congruence.
  - subst d s. pose proof (decodeState_token None Ht Lt Hs) as D.
    rewrite List.app_nil_r in D. rewrite D, Pt. reflexivity.
  - now apply (@filter_no_dot d' d).
  - now apply (@filter_no_dot s' s).
  - now apply (@filter_nonempty d' d).
  - now apply (@filter_nonempty s' s).
Qed.

(* ================================================================= *)
(** ** Ok responses *)

(** X26. For an ok response [request] returns [{}] when the status
    is 204, whatever the body; otherwise the value whose JSON text the
    body is, no key of which starts with a digit; and it throws the
    [SyntaxError] of [response.json()], not a [StravaAPIError], when
    the body is empty. *)
Theorem X26_request_ok (fetch : Call -> result Response)
  (syntax_error : jsstring -> jsstring) (type_error : jsstring) (c : StravaClient)
  (method path : jsstring) (body : jsval) (call : Call) (response : Response) :
  fst (request fetch syntax_error type_error c method path body) = [call] ->
  fetch call = Returned response -> resp_ok response = true ->
  (resp_status response = 204%Z ->
   snd (request fetch syntax_error type_error c method path body) = Returned (JObj []))
  /\ (forall v, resp_status response <> 204%Z -> json_value v = true ->
        plain_keys v = true ->
        stringify v = Ok (Some (resp_text response)) ->
        snd (request fetch syntax_error type_error c method path body) = Returned v)
  /\ (resp_status response <> 204%Z -> resp_text response = [] ->
      snd (request fetch syntax_error type_error c method path body)
      = Raised (ErrorInstance (syntax_error []))).
Proof.
  unfold request. cbv zeta.
  destruct (if truthy body then stringify body else Ok None) as [bodyText| |];
    cbn [fst snd]; try discriminate.
  intros Hc Hf Hok. apply singleton_eq in Hc. subst call. rewrite Hf.
  cbn [result_bind]. rewrite Hok. cbn [negb].
  split; [|split].
  - intros ->. reflexivity.
  - intros v Hs Hv _ St. apply Z.eqb_neq in Hs. rewrite Hs.
    destruct (json_parse_stringify _ Hv) as (t & St' & _ & Pt & _).
    rewrite St in St'. apply ok_eq in St'. injection St' as <-.
    rewrite Pt. reflexivity.
  - intros Hs ->. apply Z.eqb_neq in Hs. rewrite Hs. reflexivity.
Qed.

(* ================================================================= *)
(** ** Indented texts *)

Lemma skip_ws_blank (ws s : jsstring) :
  blank ws = true -> skip_ws (ws ++ s) = skip_ws s.
Proof.
  induction ws as [|c ws IH]; [reflexivity|]. cbn [blank forallb app skip_ws].
  intros H. apply andb_true_iff in H as [-> H]. now apply IH.
Qed.

Lemma parse_value_blank (f : nat) (ws s : jsstring) :
  blank ws = true -> parse_value f (ws ++ s) = parse_value f s.
Proof.
  intros H. destruct f; [reflexivity|]. cbn [parse_value].
  now rewrite skip_ws_blank.
Qed.

Lemma parse_elements_blank (f : nat) (ws s : jsstring) :
  blank ws = true -> parse_elements f (ws ++ s) = parse_elements f s.
Proof.
  intros H. destruct f; [reflexivity|]. rewrite !parse_elements_S.
  now rewrite parse_value_blank.
Qed.

Lemma parse_members_blank (f : nat) (ws s : jsstring) :
  blank ws = true -> parse_members f (ws ++ s) = parse_members f s.
Proof.
  intros H. destruct f; [reflexivity|]. rewrite !parse_members_S.
  now rewrite skip_ws_blank.
Qed.

Lemma json_ws_cases (c : N) : json_ws c = true -> c = 32 \/ c = 9 \/ c = 10 \/ c = 13.
Proof.
  unfold json_ws. rewrite !orb_true_iff, !N.eqb_eq. tauto.
Qed.

Lemma closes_number (rest : jsstring) :
  closes rest ->
  not_digit_first rest
  /\ match rest with
     | c :: _ => (c =? 46) || (c =? 101) || (c =? 69)
     | [] => false
     end = false.
Proof.
  destruct rest as [|c r]; [easy|]. cbn [closes not_digit_first].
  intros [->|[->|[->|H]]]; try (split; reflexivity).
  destruct (json_ws_cases _ H) as [->|[->|[->| ->]]]; split; reflexivity.
Qed.

Lemma parse_number_closes (z : Z) (rest : jsstring) :
  closes rest -> safe_int z = true ->
  parse_number (num_to_string z ++ rest) = Ok (JNum z, rest).
Proof.
  intros Hrest Hsafe. destruct (closes_number _ Hrest) as [Hd Hm].
  unfold num_to_string. destruct (Z.ltb_spec z 0) as [Hneg|Hpos].
  - unfold parse_number. cbn [app]. rewrite N.eqb_refl.
    rewrite read_digits_chars by assumption.
    rewrite to_uint_normal, DecimalN.Unsigned.of_to.
    replace (- Z.of_N (Z.abs_N z))%Z with z by lia.
    rewrite Hsafe, Hm. reflexivity.
  - unfold parse_number.
    destruct (normal_first _ (to_uint_normal (Z.abs_N z))) as (c & t & E & Hc).
    rewrite E. cbn [app].
    destruct (N.eqb_spec c 45); [lia|].
    change (c :: t ++ rest) with ((c :: t) ++ rest). rewrite <- E.
    rewrite read_digits_chars by assumption.
    rewrite to_uint_normal, DecimalN.Unsigned.of_to.
    replace (Z.of_N (Z.abs_N z)) with z by lia.
    rewrite Hsafe, Hm. reflexivity.
Qed.

Lemma indented_null : indented JNull.
Proof.
  intros indent _. exists (js "null").
  repeat split; cbn; try lia; try discriminate.
  intros [|f] rest Hf _; [lia|reflexivity].
Qed.

Lemma indented_bool (b : bool) : indented (JBool b).
Proof.
  intros indent _. exists (if b then js "true" else js "false").
  destruct b; (repeat split; cbn; try lia; try discriminate;
    intros [|f] rest Hf _; [lia|reflexivity]).
Qed.

Lemma indented_num (z : Z) : safe_int z = true -> indented (JNum z).
Proof.
  intros Hz indent _. exists (num_to_string z).
  destruct (num_to_string_first z) as (c & t & E & Hc).
  split; [cbn; now rewrite Hz|].
  split; [rewrite E; cbn; lia|].
  split; [rewrite E; cbn; unfold json_ws;
          repeat match goal with
                 | |- context [?a =? ?b] => destruct (N.eqb_spec a b); [lia|]
                 end; repeat split; lia|].
  intros [|f] rest Hf Hrest; [cbn in Hf; lia|].
  rewrite E. cbn [app]. rewrite parse_value_number by assumption.
  change (c :: t ++ rest) with ((c :: t) ++ rest). rewrite <- E.
  now apply parse_number_closes.
Qed.

Lemma indented_str (s : jsstring) : wf_stringb s = true -> indented (JStr s).
Proof.
  intros Hs indent _. exists (quote s). unfold quote.
  split; [reflexivity|].
  split; [cbn; lia|].
  split; [cbn; repeat split; discriminate|].
  intros [|f] rest Hf _; [cbn in Hf; lia|].
  cbn [app parse_value skip_ws json_ws N.eqb Pos.eqb orb].
  rewrite <- app_assoc. cbn [app].
  rewrite parse_quote_chars by assumption. reflexivity.
Qed.

Lemma closes_blank (ws : jsstring) (c : N) (rest : jsstring) :
  blank ws = true -> c = 44 \/ c = 93 \/ c = 125 -> closes (ws ++ c :: rest).
Proof.
  destruct ws as [|w ws]; cbn [app closes blank forallb].
  - tauto.
  - intros H _. apply andb_true_iff in H as [H _]. auto.
Qed.

Lemma indented_elems (l : list jsval) :
  Forall (fun x => json_value x = true -> indented x) l ->
  forallb json_value l = true ->
  forall indent, blank indent = true ->
  exists parts,
    stringify_elems (stringify_indent indent) l = Ok parts
    /\ length parts = length l
    /\ (forall sep, (1 <= length sep)%nat ->
                     (size_elems l <= length (join sep parts) + 1)%nat)
    /\ (l <> [] -> forall sep, value_start (join sep parts))
    /\ forall fuel ws ws' ws2 rest,
         blank ws = true -> blank ws' = true -> blank ws2 = true ->
         (size_elems l <= fuel)%nat -> l <> [] ->
         parse_elements fuel (ws ++ join (44 :: ws') parts ++ ws2 ++ 93 :: rest)
         = Ok (l, rest).
Proof.
  induction l as [|x r IHr]; intros HF Hwf indent Hind.
  { exists []. repeat split; cbn; try lia; congruence. }
  apply Forall_cons_iff in HF as [Hx HF].
  cbn [forallb] in Hwf. apply andb_true_iff in Hwf as [Hwx Hwr].
  destruct (Hx Hwx indent Hind) as (tx & Sx & Lx & Vx & Px).
  destruct (IHr HF Hwr indent Hind) as (ps & Sr & Lr & Zr & Vr & Pr).
  exists (tx :: ps).
  split; [cbn [stringify_elems]; rewrite Sx; cbn [bind]; rewrite Sr; reflexivity|].
  split; [cbn; now rewrite Lr|].
  destruct r as [|y r'].
  - destruct ps; [|discriminate]. cbn [join].
    split; [intros _ _; cbn in *; lia|].
    split; [intros _ _; exact Vx|].
    intros [|f] ws ws' ws2 rest Hws Hws' Hws2 Hf _; [cbn in Hf; lia|].
    rewrite parse_elements_blank by assumption.
    rewrite parse_elements_S.
    rewrite Px; [|cbn in Hf; lia|apply closes_blank; auto].
    cbn [bind]. rewrite skip_ws_blank by assumption.
    cbn. reflexivity.
  - destruct ps as [|p ps]; [discriminate|].
    split.
    { intros sep Hsep. rewrite join_cons2.
      change (size_elems (x :: y :: r')) with (S (size x + size_elems (y :: r'))).
      specialize (Zr sep Hsep). rewrite !length_app. lia. }
    split; [intros _ sep; rewrite join_cons2; now apply value_start_app|].
    intros [|f] ws ws' ws2 rest Hws Hws' Hws2 Hf _; [cbn in Hf; lia|].
    change (size_elems (x :: y :: r')) with (S (size x + size_elems (y :: r'))) in Hf.
    rewrite parse_elements_blank by assumption.
    rewrite parse_elements_S, join_cons2. rewrite <- !app_assoc. cbn [app].
    rewrite Px; [|lia|cbn; auto]. cbn [bind skip_ws json_ws N.eqb Pos.eqb orb].
    rewrite (Pr f ws' ws' ws2 rest); [reflexivity|assumption..|lia|discriminate].
Qed.

Lemma indented_members (l : list (jsstring * jsval)) :
  Forall (fun kv => json_value (snd kv) = true -> indented (snd kv)) l ->
  forallb (fun kv => wf_stringb (fst kv) && json_value (snd kv)) l = true ->
  forall indent, blank indent = true ->
  exists parts,
    indent_members (stringify_indent indent) l = Ok parts
    /\ length parts = length l
    /\ (forall sep, (1 <= length sep)%nat ->
                     (size_members l <= length (join sep parts) + 1)%nat)
    /\ (l <> [] -> forall sep, exists t', join sep parts = 34 :: t')
    /\ forall fuel ws ws' ws2 rest,
         blank ws = true -> blank ws' = true -> blank ws2 = true ->
         (size_members l <= fuel)%nat -> l <> [] ->
         parse_members fuel (ws ++ join (44 :: ws') parts ++ ws2 ++ 125 :: rest)
         = Ok (l, rest).
Proof.
  induction l as [|[k x] r IHr]; intros HF Hwf indent Hind.
  { exists []. repeat split; cbn; try lia; congruence. }
  apply Forall_cons_iff in HF as [Hx HF]. cbn [snd] in Hx.
  cbn [forallb fst snd] in Hwf. apply andb_true_iff in Hwf as [Hwx Hwr].
  apply andb_true_iff in Hwx as [Hwk Hwx].
  destruct (Hx Hwx indent Hind) as (tx & Sx & Lx & Vx & Px).
  destruct (IHr HF Hwr indent Hind) as (ps & Sr & Lr & Zr & Vr & Pr).
  exists ((quote k ++ js ": " ++ tx) :: ps).
  split; [cbn [indent_members]; rewrite Sx; cbn [bind]; rewrite Sr; reflexivity|].
  split; [cbn; now rewrite Lr|].
  assert (Hstep : forall f ws R,
             blank ws = true -> (size x <= f)%nat -> closes R ->
             parse_members (S f) (ws ++ (quote k ++ js ": " ++ tx) ++ R) =
             match skip_ws R with
             | [] => Throw
             | c3 :: t3 =>
                 if c3 =? 44 then
                   '(l, r') <- parse_members f t3 ;;
                   Ok ((k, x) :: l, r')
                 else if c3 =? 125 then Ok ([(k, x)], t3)
                 else Throw
             end).
  { intros f ws R Hws Hf HR. rewrite parse_members_blank by assumption.
    rewrite parse_members_S.
    unfold quote. change (js ": " ++ tx) with (58 :: 32 :: tx).
    cbn [app]. rewrite <- !app_assoc. cbn [app].
    cbn [skip_ws json_ws N.eqb Pos.eqb orb].
    rewrite parse_quote_chars by assumption.
    cbn [bind skip_ws json_ws N.eqb Pos.eqb orb].
    change (32 :: tx ++ R) with ([32] ++ tx ++ R).
    rewrite (parse_value_blank f [32] (tx ++ R)) by reflexivity.
    rewrite Px by assumption. reflexivity. }
  assert (Hlen : (size x + 1 <= length (quote k ++ js ": " ++ tx))%nat).
  { unfold quote. rewrite !length_app. cbn [length]. lia. }
  destruct r as [|[k' y] r'].
  - destruct ps; [|discriminate]. cbn [join].
    split; [intros _ _; cbn in *; lia|].
    split; [intros _ _; unfold quote; cbn [app]; eauto|].
    intros [|f] ws ws' ws2 rest Hws Hws' Hws2 Hf _; [cbn in Hf; lia|].
    rewrite Hstep; [|assumption|cbn in Hf; lia|apply closes_blank; auto].
    rewrite skip_ws_blank by assumption. cbn. reflexivity.
  - destruct ps as [|p ps]; [discriminate|].
    split.
    { intros sep Hsep. rewrite join_cons2.
      change (size_members ((k, x) :: (k', y) :: r'))
        with (S (size x + size_members ((k', y) :: r'))).
      specialize (Zr sep Hsep). rewrite !length_app in *. lia. }
    split; [intros _ sep; rewrite join_cons2; unfold quote; cbn [app]; eauto|].
    intros [|f] ws ws' ws2 rest Hws Hws' Hws2 Hf _; [cbn in Hf; lia|].
    change (size_members ((k, x) :: (k', y) :: r'))
      with (S (size x + size_members ((k', y) :: r'))) in Hf.
    rewrite join_cons2.
    rewrite <- (app_assoc (quote k ++ js ": " ++ tx)).
    rewrite Hstep; [|assumption|lia|cbn; auto].
    rewrite <- app_assoc.
    cbn [app skip_ws json_ws N.eqb Pos.eqb orb].
    rewrite (Pr f ws' ws' ws2 rest); [reflexivity|assumption..|lia|discriminate].
Qed.

Lemma blank_app (a b : jsstring) : blank (a ++ b) = blank a && blank b.
Proof. apply forallb_app. Qed.

Lemma parse_value_array (f : nat) (t : jsstring) (c : N) (t' : jsstring) :
  skip_ws t = c :: t' -> c <> 93 ->
  parse_value (S f) (91 :: t)
  = ('(l, r) <- parse_elements f t ;; Ok (JArr l, r)).
Proof.
  intros H Hc. cbn [parse_value skip_ws json_ws N.eqb Pos.eqb orb].
  rewrite H. apply N.eqb_neq in Hc. now rewrite Hc.
Qed.

Lemma parse_value_object (f : nat) (t : jsstring) (c : N) (t' : jsstring) :
  skip_ws t = c :: t' -> c <> 125 ->
  parse_value (S f) (123 :: t)
  = ('(l, r) <- parse_members f t ;;
     Ok (JObj (fold_left (fun o kv => obj_set (fst kv) (snd kv) o) l []), r)).
Proof.
  intros H Hc. cbn [parse_value skip_ws json_ws N.eqb Pos.eqb orb].
  rewrite H. apply N.eqb_neq in Hc. now rewrite Hc.
Qed.

(** The parser reads back what [JSON.stringify] writes with an
    indentation. *)
Lemma stringify_indent_text (v : jsval) : json_value v = true -> indented v.
Proof.
  induction v as [| |b|z|s|l IH|l IH] using jsval_induction; intros Hwf.
  - discriminate.
  - apply indented_null.
  - apply indented_bool.
  - now apply indented_num.
  - now apply indented_str.
  - cbn [json_value] in Hwf. intros indent Hind.
    set (ws := 10 :: indent ++ js "  ").
    set (ws2 := 10 :: indent).
    assert (Hind' : blank (indent ++ js "  ") = true)
      by (rewrite blank_app, Hind; reflexivity).
    assert (Hws : blank ws = true) by (subst ws; cbn [blank forallb]; exact Hind').
    assert (Hws2 : blank ws2 = true) by (subst ws2; cbn [blank forallb]; exact Hind).
    destruct (indented_elems IH Hwf _ Hind') as (ps & Sl & Ll & Zl & Vl & Pl).
    destruct l as [|x l'].
    + destruct ps; [|discriminate]. exists (js "[]").
      split; [cbn [stringify_indent]; rewrite Sl; reflexivity|].
      split; [cbn; lia|]. split; [cbn; repeat split; discriminate|].
      intros [|f] rest Hf _; [cbn in Hf; lia|]. reflexivity.
    + destruct ps as [|p ps]; [discriminate|].
      assert (Hne : x :: l' <> []) by discriminate.
      exists (91 :: ws ++ join (44 :: ws) (p :: ps) ++ ws2 ++ [93]).
      split; [cbn [stringify_indent]; rewrite Sl; reflexivity|].
      split.
      { cbn [size]. fold (size_elems (x :: l')).
        specialize (Zl (44 :: ws)). cbn [length]. rewrite !length_app.
        cbn [length] in *. lia. }
      split; [cbn; repeat split; discriminate|].
      intros [|f] rest Hf _; [cbn in Hf; lia|].
      cbn [size] in Hf. fold (size_elems (x :: l')) in Hf.
      cbn [app]. rewrite <- !app_assoc. cbn [app].
      pose proof (Vl Hne (44 :: ws)) as Hv.
      destruct (join (44 :: ws) (p :: ps)) as [|c t'] eqn:E; [contradiction|].
      destruct Hv as (Hc & V93 & _).
      rewrite (@parse_value_array f _ c (t' ++ ws2 ++ 93 :: rest)); [|
        rewrite skip_ws_blank by assumption; cbn [app skip_ws];
        now rewrite Hc | assumption].
      change (c :: t' ++ ?r) with ((c :: t') ++ r). rewrite <- E.
      rewrite Pl by (assumption || lia). reflexivity.
  - cbn [json_value] in Hwf. apply andb_true_iff in Hwf as [Hwf Hd].
    intros indent Hind.
    set (ws := 10 :: indent ++ js "  ").
    set (ws2 := 10 :: indent).
    assert (Hind' : blank (indent ++ js "  ") = true)
      by (rewrite blank_app, Hind; reflexivity).
    assert (Hws : blank ws = true) by (subst ws; cbn [blank forallb]; exact Hind').
    assert (Hws2 : blank ws2 = true) by (subst ws2; cbn [blank forallb]; exact Hind).
    destruct (indented_members IH Hwf _ Hind') as (ps & Sl & Ll & Zl & Vl & Pl).
    destruct l as [|kx l'].
    + destruct ps; [|discriminate]. exists (js "{}").
      split; [cbn [stringify_indent]; rewrite Sl; reflexivity|].
      split; [cbn; lia|]. split; [cbn; repeat split; discriminate|].
      intros [|f] rest Hf _; [cbn in Hf; lia|]. reflexivity.
    + destruct ps as [|p ps]; [discriminate|].
      assert (Hne : kx :: l' <> []) by discriminate.
      exists (123 :: ws ++ join (44 :: ws) (p :: ps) ++ ws2 ++ [125]).
      split; [cbn [stringify_indent]; rewrite Sl; reflexivity|].
      split.
      { cbn [size]. fold (size_members (kx :: l')).
        specialize (Zl (44 :: ws)). cbn [length]. rewrite !length_app.
        cbn [length] in *. lia. }
      split; [cbn; repeat split; discriminate|].
      intros [|f] rest Hf _; [cbn in Hf; lia|].
      cbn [size] in Hf. fold (size_members (kx :: l')) in Hf.
      cbn [app]. rewrite <- !app_assoc. cbn [app].
      destruct (Vl Hne (44 :: ws)) as (t' & E).
      rewrite (@parse_value_object f _ 34 (t' ++ ws2 ++ 125 :: rest)); [|
        rewrite skip_ws_blank by assumption; rewrite E; reflexivity
        | discriminate].
      rewrite Pl by (assumption || lia). cbn [bind].
      rewrite fold_obj_set; [reflexivity|assumption|apply fresh_for_nil].
Qed.

Lemma formatResult_text (data : jsval) :
  json_value data = true ->
  exists text, formatResult data = Ok (Some text) /\ json_parse text = Ok data.
Proof.
  intros Hv. destruct (stringify_indent_text data Hv [] eq_refl)
    as (t & St & Lt & Vt & Pt).
  exists t. split; [exact St|].
  unfold json_parse. specialize (Pt (S (2 * length t)) []).
  rewrite List.app_nil_r in Pt. rewrite Pt; [reflexivity|lia|exact I].
Qed.

(** X27. [formatResult] writes, for every JSON value, a text that
    [JSON.parse] reads back as that value: the indentation loses
    nothing. *)
Theorem X27_formatResult_parses (data : jsval) :
  json_value data = true ->
  exists text, formatResult data = Ok (Some text) /\ json_parse text = Ok data.
Proof. apply formatResult_text. Qed.

(** The value of an ok response with a JSON body. *)
Lemma request_value (fetch : Call -> result Response)
  (syntax_error : jsstring -> jsstring) (type_error : jsstring)
  (c : StravaClient)
  (method path : jsstring) (body : jsval) (call : Call) (response : Response)
  (v : jsval) :
  fst (request fetch syntax_error type_error c method path body) = [call] ->
  fetch call = Returned response -> resp_ok response = true ->
  resp_status response <> 204%Z -> json_value v = true ->
  stringify v = Ok (Some (resp_text response)) ->
  snd (request fetch syntax_error type_error c method path body) = Returned v.
Proof.
  unfold request. cbv zeta.
  destruct (if truthy body then stringify body else Ok None) as [bodyText| |];
    cbn [fst snd]; try discriminate.
  intros Hc Hf Hok Hs Hv St. apply singleton_eq in Hc. subst call. rewrite Hf.
  cbn [result_bind]. rewrite Hok. cbn [negb].
  apply Z.eqb_neq in Hs. rewrite Hs.
  destruct (json_parse_stringify _ Hv) as (t & St' & _ & Pt & _).
  rewrite St in St'. apply ok_eq in St'. injection St' as <-.
  rewrite Pt. reflexivity.
Qed.

(** X28. When the upstream answers [get_gear] with an ok status
    other than 204 and the JSON text of a value no key of which
    starts with a digit, the tool returns one text that [JSON.parse]
    reads back as that value. *)
Theorem X28_get_gear_text (fetch : Call -> result Response)
  (syntax_error : jsstring -> jsstring) (type_error : jsstring)
  (client : StravaClient) (id : jsstring)
  (call : Call) (response : Response) (v : jsval) :
  fst (get_gear fetch syntax_error type_error client id) = [call] ->
  fetch call = Returned response -> resp_ok response = true ->
  resp_status response <> 204%Z -> json_value v = true ->
  plain_keys v = true ->
  stringify v = Ok (Some (resp_text response)) ->
  exists text,
    snd (get_gear fetch syntax_error type_error client id)
    = Returned (text_content (JStr text))
    /\ json_parse text = Ok v.
Proof.
  intros Hc Hf Hok Hs Hv _ St.
  assert (R : snd (getGear fetch syntax_error type_error client id) = Returned v).
  { unfold getGear.
    apply (@request_value fetch syntax_error type_error client (js "GET")
             (js "/gear/" ++ id) JUndef call response v); assumption. }
  destruct (formatResult_text v Hv) as (text & Ft & Pt).
  exists text. split; [|assumption].
  unfold get_gear.
  destruct (getGear fetch syntax_error type_error client id) as [calls gear].
  cbn [snd] in *. subst gear. rewrite Ft. reflexivity.
Qed.

(* ================================================================= *)
(** ** Further examples *)

Lemma X1_witness :
  decodeState sample_wrapped (js "state-secret")
  = Ok (JObj [(js "strava_code", JStr (js "ABC123"))]).
Proof.
  apply X1_codec_round_trip; vm_compute; reflexivity.
Defined.

Lemma X2_witness :
  (encodeState C2_payload (js "state-secret") = Throw
   <-> js "state-secret" = [] \/ latin1b (text_of_value C2_payload) = false)
  /\ (encodeState C2_payload (js "state-secret") <> Throw ->
      encodeState C2_payload (js "state-secret")
      = Ok (b64_encode (text_of_value C2_payload) ++ js "."
            ++ b64_encode (hmac_sha256 (utf8_encode (js "state-secret"))
                             (utf8_encode (text_of_value C2_payload))))).
Proof.
  apply X2_encode_failure. vm_compute; reflexivity.
Defined.

Lemma X3_witness :
  exists d s,
    sample_wrapped = d ++ js "." ++ s
    /\ split_char 46 sample_wrapped = [d; s]
    /\ d <> [] /\ length s = 44%nat
    /\ forallb base64_char d = true /\ forallb base64_char s = true.
Proof.
  apply (@X3_token_shape (JObj [(js "strava_code", JStr (js "ABC123"))])
           (js "state-secret")).
  vm_compute; reflexivity.
Defined.

Lemma X4_witness :
  exists d s t sig,
    nth_error (split_char 46 untimed_state) 0 = Some d
    /\ nth_error (split_char 46 untimed_state) 1 = Some s
    /\ atob d = Ok t /\ atob s = Ok sig /\ js "state-secret" <> []
    /\ List.map (fun c => c mod 256) sig
       = hmac_sha256 (utf8_encode (js "state-secret")) (utf8_encode t)
    /\ json_parse t = Ok (JObj untimed_fields).
Proof.
  apply X4_decode_authentic; [vm_compute; reflexivity|discriminate].
Defined.

Lemma X5_witness :
  decodeState (js "ABC123") (js "state-secret") = Ok JNull
  /\ decodeState (js "." ++ js "e30=") (js "state-secret") = Ok JNull
  /\ decodeState (js "e30=" ++ js ".") (js "state-secret") = Ok JNull
  /\ decodeState (js "e30=" ++ js ".." ++ js "x") (js "state-secret") = Ok JNull.
Proof.
  destruct (X5_decode_malformed (js "state-secret")) as (H1 & H2 & H3).
  split; [apply H1; simpl; lia|].
  split; [apply H2|].
  apply (H3 (js "e30=") (js "x")). simpl; lia.
Defined.

Lemma X6_witness :
  callback sample_platform sample_env sample_now
    (get_request [(js "code", js "ABC123"); (js "state", js "forged")])
  = Ok (RespJson 400 (error_body "Invalid state")).
Proof.
  apply (@X6_callback_unsigned_state sample_platform sample_env sample_now
           (get_request [(js "code", js "ABC123"); (js "state", js "forged")])
           (js "ABC123") (js "forged"));
    [reflexivity|reflexivity|reflexivity|discriminate|reflexivity|discriminate
    |simpl; lia].
Defined.

Lemma X7_witness :
  token sample_platform (stub_fetch sample_upstream) sample_env
    (json_request (JObj [ (js "grant_type", JStr (js "authorization_code"));
                          (js "code", JStr (js "ABC123")) ]))
  = Ok (RespJson 400
          (JObj [ (js "error", JStr (js "invalid_grant"));
                  (js "error_description", JStr (js "Invalid code")) ])).
Proof.
  apply (@X7_token_unsigned_code sample_platform (stub_fetch sample_upstream)
           sample_env
           (json_request (JObj [ (js "grant_type", JStr (js "authorization_code"));
                                 (js "code", JStr (js "ABC123")) ]))
           [ (js "grant_type", js "authorization_code"); (js "code", js "ABC123") ]
           (js "ABC123"));
    [reflexivity|reflexivity|reflexivity|vm_compute; reflexivity|reflexivity
    |reflexivity|discriminate|simpl; lia].
Defined.

Lemma X8_witness :
  exists ss state fields uri u0,
    OAUTH_STATE_SECRET sample_env = Some ss
    /\ query (get_request [(js "error", js "access_denied");
                           (js "state", untimed_state)]) (js "state") = Some state
    /\ decodeState state ss = Ok (JObj fields)
    /\ assoc (js "redirect_uri") fields = Some (JStr uri)
    /\ URL_parse sample_platform uri = Some u0
    /\ url_base (mkURL sample_redirect_uri
                   [(js "error", js "access_denied"); (js "state", js "xyz")])
       = url_base u0.
Proof.
  apply (@X8_callback_redirect_signed sample_platform sample_env sample_now).
  vm_compute; reflexivity.
Defined.

Lemma X9_witness :
  (absent (STRAVA_CLIENT_ID sample_env) || absent (OAUTH_STATE_SECRET sample_env)
   = true
   /\ RespRedirect
        (mkURL STRAVA_AUTHORIZE_URL
           [ (js "client_id", js "strava-client");
             (js "response_type", js "code");
             (js "redirect_uri", js "https://mcp.example/oauth/callback");
             (js "scope", STRAVA_SCOPES);
             (js "state", untargeted_state);
             (js "approval_prompt", js "auto") ])
      = RespJson 500 (error_body "OAuth not configured"))
  \/ exists cid ss S,
       STRAVA_CLIENT_ID sample_env = Some cid
       /\ OAUTH_STATE_SECRET sample_env = Some ss
       /\ encodeState
            (JObj [ (js "redirect_uri",
                     opt_str (query (get_request [(js "state", js "xyz")])
                                (js "redirect_uri")));
                    (js "client_state",
                     opt_str (query (get_request [(js "state", js "xyz")])
                                (js "state")));
                    (js "timestamp", JNum sample_now) ]) ss = Ok S
       /\ RespRedirect
            (mkURL STRAVA_AUTHORIZE_URL
               [ (js "client_id", js "strava-client");
                 (js "response_type", js "code");
                 (js "redirect_uri", js "https://mcp.example/oauth/callback");
                 (js "scope", STRAVA_SCOPES);
                 (js "state", untargeted_state);
                 (js "approval_prompt", js "auto") ])
          = RespRedirect
              (mkURL STRAVA_AUTHORIZE_URL
                 [ (js "client_id", cid);
                   (js "response_type", js "code");
                   (js "redirect_uri",
                    base_url (get_request [(js "state", js "xyz")])
                    ++ js "/oauth/callback");
                   (js "scope", STRAVA_SCOPES);
                   (js "state", S);
                   (js "approval_prompt", js "auto") ]).
Proof.
  apply (@X9_authorize_target sample_env sample_now
           (get_request [(js "state", js "xyz")])).
  vm_compute; reflexivity.
Defined.

Lemma X10_witness :
  authorize sample_env sample_now (get_request [(js "state", js "xyz")])
  = Ok (RespRedirect
          (mkURL STRAVA_AUTHORIZE_URL
             [ (js "client_id", js "strava-client");
               (js "response_type", js "code");
               (js "redirect_uri", js "https://mcp.example/oauth/callback");
               (js "scope", STRAVA_SCOPES);
               (js "state", untargeted_state);
               (js "approval_prompt", js "auto") ]))
  /\ exists W,
       callback sample_platform sample_env (sample_now + 1000)
         (get_request [(js "code", js "ABC123"); (js "state", untargeted_state)])
       = Ok (RespJson 200 (obj1 "code" (JStr W)))
       /\ decodeState W (js "state-secret")
          = Ok (JObj [(js "strava_code", JStr (js "ABC123"))]).
Proof.
  pose proof (X10_no_redirect_uri sample_platform sample_env sample_now
                (get_request [(js "state", js "xyz")])
                (cid := js "strava-client") (ss := js "state-secret")
                (X := js "xyz")) as T.
  repeat feed T.
  destruct T as (authUrl & S & HA & HS & K).
  assert (EA : authorize sample_env sample_now (get_request [(js "state", js "xyz")])
               = Ok (RespRedirect
                       (mkURL STRAVA_AUTHORIZE_URL
                          [ (js "client_id", js "strava-client");
                            (js "response_type", js "code");
                            (js "redirect_uri", js "https://mcp.example/oauth/callback");
                            (js "scope", STRAVA_SCOPES);
                            (js "state", untargeted_state);
                            (js "approval_prompt", js "auto") ])))
    by (vm_compute; reflexivity).
  assert (ES : Some S = Some untargeted_state).
  { rewrite <- HS. rewrite EA in HA. apply redirect_eq in HA. subst authUrl.
    vm_compute; reflexivity. }
  apply some_eq in ES. subst S.
  specialize (K (get_request [(js "code", js "ABC123");
                              (js "state", untargeted_state)])
                (js "ABC123") (sample_now + 1000)%Z).
  repeat feed K.
  split; [exact EA|exact K].
Defined.

Lemma X11_witness :
  exists W,
    encodeState (JObj [(js "strava_code", JStr (js "XYZ789"))]) (js "state-secret")
    = Ok W
    /\ callback sample_platform sample_env sample_now
         (get_request [(js "code", js "XYZ789"); (js "state", sample_wrapped)])
       = Ok (RespJson 200 (obj1 "code" (JStr W))).
Proof.
  pose proof (@X11_wrapped_code_as_state sample_platform sample_env sample_now
                (get_request [(js "code", js "XYZ789"); (js "state", sample_wrapped)])
                (js "state-secret") (js "ABC123") sample_wrapped (js "XYZ789")) as T.
  repeat feed T. exact T.
Defined.

Lemma X12_witness :
  exists s body,
    RespJson 400 (error_body "unsupported_grant_type") = RespJson s body
    /\ (s = 200 \/ s = 400 \/ s = 500)%Z
    /\ (s = 500%Z <->
        absent (STRAVA_CLIENT_ID sample_env)
        || absent (STRAVA_CLIENT_SECRET sample_env)
        || absent (OAUTH_STATE_SECRET sample_env) = true)
    /\ (s <> 200%Z -> exists err, get_prop body (js "error") = Ok err
                                  /\ truthy err = true)
    /\ (s = 200%Z -> get_prop body (js "error") = Ok JUndef).
Proof.
  apply (@X12_token_statuses sample_platform (stub_fetch sample_upstream) sample_env
           (json_request (JObj [(js "grant_type", JStr (js "password"))]))).
  vm_compute; reflexivity.
Defined.

Lemma X14_witness :
  (mcp_client (mkRequest [(js "authorization", js "Bearer tok")] [] [])
   = Some sample_client
   /\ forall call,
        In call
          (fst (request (stub_upstream not_found) sample_syntax_error
                  sample_type_error sample_client (js "PUT") (js "/activities/1")
                  (JObj [(js "name", JStr (js "Ride"))]))) ->
        sp_get (js "Authorization") (init_headers (call_init call))
        = Some (js "Bearer tok"))
  /\ (mcp_client (mkRequest [(js "authorization", js "tok")] [] [])
      = Some sample_client
      /\ forall call,
           In call
             (fst (request (stub_upstream not_found) sample_syntax_error
                     sample_type_error sample_client (js "GET") (js "/athlete")
                     JUndef)) ->
           sp_get (js "Authorization") (init_headers (call_init call))
           = Some (js "Bearer " ++ js "tok")).
Proof.
  split.
  - pose proof (proj1 (@X14_bearer_forwarded (stub_upstream not_found)
                         sample_syntax_error sample_type_error
                         (mkRequest [(js "authorization", js "Bearer tok")] [] [])
                         (js "Bearer tok") eq_refl)
                  (js "tok") eq_refl) as T.
    feed T. destruct T as (_ & Hc & Hcalls).
    split; [exact Hc|]. intros call H. exact (proj2 (Hcalls _ _ _ call H)).
  - pose proof (proj2 (@X14_bearer_forwarded (stub_upstream not_found)
                         sample_syntax_error sample_type_error
                         (mkRequest [(js "authorization", js "tok")] [] [])
                         (js "tok") eq_refl)) as T.
    repeat feed T. destruct T as (_ & Hc & Hcalls).
    split; [exact Hc|]. intros call H. exact (proj2 (Hcalls _ _ _ call H)).
Defined.

Lemma X15_witness :
  (forall v,
     snd (request (stub_upstream unconvertible) sample_syntax_error
            sample_type_error sample_client (js "GET") (js "/gear/b1") JUndef)
     <> Returned v)
  /\ (forall e,
        snd (request (stub_upstream unconvertible) sample_syntax_error
               sample_type_error sample_client (js "GET") (js "/gear/b1") JUndef)
        = Raised e ->
        (exists message errors,
           e = StravaAPIError message (resp_status unconvertible) errors)
        \/ (e = ErrorInstance sample_type_error
            /\ exists data m,
                 json_parse (resp_text unconvertible) = Ok data
                 /\ get_prop data (js "message") = Ok m
                 /\ truthy m = true /\ to_string m = Throw))
  /\ (json_parse (resp_text unconvertible) <> Unsupported ->
      exists e,
        snd (request (stub_upstream unconvertible) sample_syntax_error
               sample_type_error sample_client (js "GET") (js "/gear/b1") JUndef)
        = Raised e).
Proof.
  exact (@X15_request_not_ok (stub_upstream unconvertible) sample_syntax_error
           sample_type_error sample_client (js "GET") (js "/gear/b1") JUndef _
           unconvertible eq_refl eq_refl eq_refl).
Defined.

Lemma X16_witness :
  snd (request (stub_upstream not_found) sample_syntax_error sample_type_error
         sample_client (js "GET") (js "/gear/b1") JUndef)
  = Raised (StravaAPIError (js "Record Not Found") (resp_status not_found)
              (match assoc (js "errors") not_found_fields with
               | Some x => x
               | None => JUndef
               end)).
Proof.
  eapply X16_request_error_body;
    [reflexivity|reflexivity|reflexivity|reflexivity|reflexivity
    |vm_compute; reflexivity|reflexivity|discriminate].
Defined.

Lemma X17_witness :
  snd (request (stub_upstream empty_error) sample_syntax_error sample_type_error
         sample_client (js "GET") (js "/gear/b1") JUndef)
  = Raised (StravaAPIError
              (js "Strava API error: " ++ num_to_string (resp_status empty_error))
              (resp_status empty_error) JUndef)
  /\ snd (request (stub_upstream bad_gateway) sample_syntax_error
            sample_type_error sample_client (js "GET") (js "/gear/b1") JUndef)
     = Raised (StravaAPIError (resp_text bad_gateway) (resp_status bad_gateway)
                 JUndef).
Proof.
  split.
  - eapply (proj1 (@X17_request_not_json (stub_upstream empty_error)
                     sample_syntax_error sample_type_error sample_client
                     (js "GET") (js "/gear/b1")
                     JUndef _ empty_error eq_refl eq_refl eq_refl)).
    reflexivity.
  - eapply (proj2 (@X17_request_not_json (stub_upstream bad_gateway)
                     sample_syntax_error sample_type_error sample_client
                     (js "GET") (js "/gear/b1")
                     JUndef _ bad_gateway eq_refl eq_refl eq_refl)
              (js "html>Bad Gateway</html>")).
    reflexivity.
Defined.

Lemma X18_witness :
  exists call query,
    fst (createActivity (stub_upstream not_found) sample_syntax_error
           sample_type_error sample_client sample_activity) = [call]
    /\ call_url call = apiUrl sample_client ++ js "/activities?" ++ query
    /\ init_method (call_init call) = js "POST"
    /\ init_body (call_init call) = None
    /\ List.map (fun part => hd [] (split_char 61 part)) (split_char 38 query)
       = [ js "name"; js "sport_type"; js "start_date_local"; js "elapsed_time";
           js "description"; js "trainer" ].
Proof.
  exact (@X18_createActivity_parameters (stub_upstream not_found)
           sample_syntax_error sample_type_error sample_client sample_activity
           eq_refl eq_refl).
Defined.

Lemma X19_witness :
  exists call,
    fst (listAthleteActivities (stub_upstream not_found) sample_syntax_error
           sample_type_error sample_client None (Some 1700000000%Z) (Some 0%Z)
           (Some 50%Z)) = [call]
    /\ call_url call
       = js "https://www.strava.com/api/v3/athlete/activities?after=1700000000&per_page=50".
Proof.
  exact (@X19_listAthleteActivities_url (stub_upstream not_found)
           sample_syntax_error sample_type_error sample_client None
           (Some 1700000000%Z) (Some 0%Z) (Some 50%Z) eq_refl).
Defined.

Lemma X20_witness : formatDuration 3599 <> formatDuration 3600.
Proof. apply X20_formatDuration_distinct; unfold max_safe; lia. Defined.

Lemma X21_witness : formatDuration (-3661) = js "-1s".
Proof. exact (@X21_formatDuration_negative (-3661) eq_refl). Defined.

Lemma X22_witness :
  (exists text,
     snd (get_gear (stub_upstream unconvertible) sample_syntax_error
            sample_type_error sample_client (js "b1"))
     = Returned (text_content (JStr text)))
  /\ snd (get_gear unreachable_upstream sample_syntax_error sample_type_error
            sample_client (js "b1"))
     = Returned (text_content (JStr (js "Error: " ++ js "fetch failed"))).
Proof.
  split.
  - destruct (@X22_get_gear_total (stub_upstream unconvertible)
                sample_syntax_error sample_type_error sample_client (js "b1"))
      as (call & _ & _ & _ & _ & H & _).
    apply (H unconvertible); [reflexivity|reflexivity|].
    intros E. vm_compute in E. discriminate E.
  - destruct (@X22_get_gear_total unreachable_upstream
                sample_syntax_error sample_type_error sample_client (js "b1"))
      as (call & _ & _ & _ & _ & _ & H & _).
    apply H. reflexivity.
Defined.

Lemma X23_witness :
  snd (get_gear (stub_upstream forbidden) sample_syntax_error sample_type_error
         sample_client (js "b1"))
  = Returned (text_content (JStr (js "Strava API Error (403): Forbidden")))
  /\ exists t,
       stringify (JArr [JObj [ (js "resource", JStr (js "Gear"));
                               (js "field", JStr (js "id"));
                               (js "code", JStr (js "not found")) ]])
       = Ok (Some t)
       /\ snd (get_gear (stub_upstream not_found) sample_syntax_error
                 sample_type_error sample_client (js "b1"))
          = Returned (text_content
                        (JStr (js "Strava API Error (404): Record Not Found"
                               ++ newline ++ js "Errors: " ++ t))).
Proof.
  split.
  - refine (proj1 (@X23_get_gear_error_text (stub_upstream forbidden)
                     sample_syntax_error sample_type_error sample_client
                     (js "b1") _ forbidden
                     forbidden_fields (js "Forbidden") eq_refl eq_refl eq_refl
                     eq_refl eq_refl eq_refl eq_refl eq_refl _) _);
      [discriminate|reflexivity].
  - refine (proj2 (@X23_get_gear_error_text (stub_upstream not_found)
                     sample_syntax_error sample_type_error sample_client
                     (js "b1") _ not_found
                     not_found_fields (js "Record Not Found") eq_refl eq_refl
                     eq_refl eq_refl eq_refl eq_refl eq_refl eq_refl _) _ _ _);
      [discriminate|reflexivity|reflexivity].
Defined.

Lemma X24_witness :
  app_fetch sample_platform (stub_fetch sample_upstream) RToken sample_env
    sample_now []
    (json_request (JObj [ (js "grant_type", JStr (js "refresh_token"));
                          (js "refresh_token", JStr (js "r1")) ]))
  = app_fetch sample_platform (token_url_only sample_upstream) RToken sample_env
      sample_now []
      (json_request (JObj [ (js "grant_type", JStr (js "refresh_token"));
                            (js "refresh_token", JStr (js "r1")) ])).
Proof.
  apply X24_upstream_calls; [discriminate|].
  intros fields body _ _ _. reflexivity.
Defined.

Lemma X25_witness :
  decodeState (([32] ++ wrapped_data) ++ js "." ++ (wrapped_tag ++ [10]))
    (js "state-secret")
  = Ok (JObj [(js "strava_code", JStr (js "ABC123"))]).
Proof.
  apply (@X25_whitespace_ignored (JObj [(js "strava_code", JStr (js "ABC123"))])
           (js "state-secret") sample_wrapped wrapped_data wrapped_tag);
    vm_compute; reflexivity.
Defined.

Lemma X26_witness :
  snd (request (stub_upstream no_content) sample_syntax_error sample_type_error
         sample_client (js "GET") (js "/gear/b1") JUndef) = Returned (JObj [])
  /\ snd (request (stub_upstream gear_response) sample_syntax_error
            sample_type_error sample_client (js "GET") (js "/gear/b1") JUndef)
     = Returned (JObj gear_fields)
  /\ snd (request (stub_upstream empty_ok) sample_syntax_error sample_type_error
            sample_client (js "GET") (js "/gear/b1") JUndef)
     = Raised (ErrorInstance (sample_syntax_error [])).
Proof.
  split; [|split].
  - refine (proj1 (@X26_request_ok (stub_upstream no_content) sample_syntax_error
                     sample_type_error sample_client (js "GET") (js "/gear/b1")
                     JUndef _ no_content eq_refl eq_refl eq_refl) _).
    reflexivity.
  - refine (proj1 (proj2 (@X26_request_ok (stub_upstream gear_response)
                            sample_syntax_error sample_type_error sample_client
                            (js "GET") (js "/gear/b1") JUndef _ gear_response
                            eq_refl eq_refl eq_refl))
              (JObj gear_fields) _ _ _ _);
      [discriminate|reflexivity|reflexivity|reflexivity].
  - refine (proj2 (proj2 (@X26_request_ok (stub_upstream empty_ok)
                            sample_syntax_error sample_type_error sample_client
                            (js "GET") (js "/gear/b1") JUndef _ empty_ok
                            eq_refl eq_refl eq_refl)) _ _);
      [discriminate|reflexivity].
Defined.

Lemma X27_witness :
  exists text,
    formatResult (JObj gear_fields) = Ok (Some text)
    /\ json_parse text = Ok (JObj gear_fields).
Proof. apply X27_formatResult_parses. reflexivity. Defined.

Lemma X28_witness :
  exists text,
    snd (get_gear (stub_upstream gear_response) sample_syntax_error
           sample_type_error sample_client (js "b1"))
    = Returned (text_content (JStr text))
    /\ json_parse text = Ok (JObj gear_fields).
Proof.
  eapply X28_get_gear_text;
    [reflexivity|reflexivity|reflexivity|discriminate|reflexivity|reflexivity
    |reflexivity].
Defined.
